(** * mini_nano: the text buffer, the cursor, the keys, the files and the screen

    A shallow embedding of [assembly/mini_nano.c].  The global editor state
    [E] of the C program is a record that every function takes and gives
    back; terminal input, the files and [exit] are threaded through a small
    monad over a [machine].

    Conventions.
    - A C [char] is its unsigned value, a [Z] in 0..255; an [int] is a [Z]
      (signed overflow is undefined in C and none of the functions below
      computes with values near the limits).
    - A C string is the list of the bytes before its terminating NUL.
    - The pair ([E.rows], [E.numrows]) is one list: [numrows] is its length,
      [realloc] to [numrows + 1] adds a slot at the end and [E.numrows--]
      gives the last slot up.
    - A result [None] of a buffer operation stands for an execution in which
      the C code indexes outside the row array or outside the string of a
      row; C leaves that undefined and nothing is claimed about it.

    The fields of [E] that only the drawing reads and writes (the scroll
    offsets and the size of the text area) are a record of their own, the
    [window]; what a function writes to the terminal is the list of the
    bytes it hands to [write], in order.

    Left out: raw mode, the query of the window size, what the prompt and
    [die] write to the terminal, and the clock (the age of the status
    message is an argument).  Memory is not modelled: [malloc] and
    [realloc] always succeed. *)

From Stdlib Require Import ZArith String Ascii Lia DecimalString.
From stdpp Require Import base decidable option list.

Local Open Scope Z_scope.

(** ** Bytes and C strings *)

Definition bytes_of_string (s : string) : list Z :=
  (λ a, Z.of_nat (nat_of_ascii a)) <$> list_ascii_of_string s.

(** The conversion [int -> char] of an assignment such as
    [row->chars[E.cx] = c], as the unsigned value of the stored byte. *)
Definition to_char (c : Z) : Z := c mod 256.

(** [snprintf (buf, n, ...)] keeps at most [n - 1] bytes of the text. *)
Definition snprintf (n : Z) (text : list Z) : list Z :=
  take (Z.to_nat (n - 1)) text.

(** [strncpy (dst, src, n)] followed by [dst[n] = 0]. *)
Definition strncpy (n : Z) (src : list Z) : list Z := take (Z.to_nat n) src.

(** [strdup]: the bytes up to the first NUL. *)
Fixpoint strdup (s : list Z) : list Z :=
  match s with
  | [] => []
  | b :: s' => if decide (b = 0) then [] else b :: strdup s'
  end.

(** [iscntrl] in the "C" locale (the program never calls [setlocale]).  C
    defines it on the values of [unsigned char] and on [EOF] only; on other
    arguments this is what the table lookup of the C library yields. *)
Definition iscntrl (c : Z) : bool :=
  bool_decide (0 ≤ c ≤ 31 ∨ c = 127).

(** ** The data model *)

Record erow := mk_erow {
  size : Z;
  chars : list Z
}.

Record editorConfig := mk_editorConfig {
  cx : Z;
  cy : Z;
  rows : list erow;
  dirty : Z;
  filename : list Z;
  statusmsg : list Z
}.

Definition numrows (E : editorConfig) : Z := Z.of_nat (length (rows E)).

Definition set_cx (v : Z) (E : editorConfig) : editorConfig :=
  mk_editorConfig v (cy E) (rows E) (dirty E) (filename E) (statusmsg E).
Definition set_cy (v : Z) (E : editorConfig) : editorConfig :=
  mk_editorConfig (cx E) v (rows E) (dirty E) (filename E) (statusmsg E).
Definition set_rows (v : list erow) (E : editorConfig) : editorConfig :=
  mk_editorConfig (cx E) (cy E) v (dirty E) (filename E) (statusmsg E).
Definition set_dirty (v : Z) (E : editorConfig) : editorConfig :=
  mk_editorConfig (cx E) (cy E) (rows E) v (filename E) (statusmsg E).
Definition set_filename (v : list Z) (E : editorConfig) : editorConfig :=
  mk_editorConfig (cx E) (cy E) (rows E) (dirty E) v (statusmsg E).
Definition set_statusmsg (v : list Z) (E : editorConfig) : editorConfig :=
  mk_editorConfig (cx E) (cy E) (rows E) (dirty E) (filename E) v.

(** [E.rows[i]] read through an [int] index. *)
Definition row_at (rs : list erow) (i : Z) : option erow :=
  if decide (0 ≤ i) then rs !! Z.to_nat i else None.

(** [E.rows[i] = r]. *)
Definition row_set (rs : list erow) (i : Z) (r : erow) : list erow :=
  <[Z.to_nat i := r]> rs.

(** A row whose [size] is the number of bytes its string holds.  The code
    reads and moves [size] bytes of [chars]; on any other row it leaves the
    allocation. *)
Definition sound (r : erow) : Prop := size r = Z.of_nat (length (chars r)).

#[global] Instance sound_dec r : Decision (sound r).
Proof. unfold sound. apply _. Defined.

(** The state of the buffer part of [initEditor]. *)
Definition initEditor : editorConfig := mk_editorConfig 0 0 [] 0 [] [].

(** ** Row operations *)

Definition editorAppendRow (s : list Z) (len : Z) (E : editorConfig)
  : editorConfig :=
  set_dirty 1
    (set_rows (rows E ++ [mk_erow len (take (Z.to_nat len) s)]) E).

Definition editorFreeRows (E : editorConfig) : editorConfig := set_rows [] E.

(** [E.rows[dst] = E.rows[src]], the body of both shifting loops. *)
Definition copy_slot (dst src : nat) (rs : list erow) : list erow :=
  match rs !! src with
  | Some r => <[dst := r]> rs
  | None => rs
  end.

(** [for (i = lo; i < lo + n; i++) E.rows[i] = E.rows[i + 1];] *)
Fixpoint shift_up (n lo : nat) (rs : list erow) : list erow :=
  match n with
  | O => rs
  | S n' => shift_up n' (S lo) (copy_slot lo (S lo) rs)
  end.

(** [for (i = lo + n; i > lo; i--) E.rows[i] = E.rows[i - 1];] *)
Fixpoint shift_down (n lo : nat) (rs : list erow) : list erow :=
  match n with
  | O => rs
  | S n' => shift_down n' lo (copy_slot (lo + S n') (lo + n') rs)
  end.

(** ** Editor operations: insertion, deletion, newline *)

(** The [memmove] moves the [size - cx + 1] bytes from [chars[cx]] on, the
    terminator included: it stays inside the string when the row is sound
    and [0 <= cx <= size]. *)
Definition editorInsertChar (c : Z) (E : editorConfig) : option editorConfig :=
  let E1 := if decide (cy E = numrows E) then editorAppendRow [] 0 E else E in
  row ← row_at (rows E1) (cy E1);
  if decide (sound row ∧ 0 ≤ cx E1 ≤ size row) then
    let k := Z.to_nat (cx E1) in
    let row' := mk_erow (size row + 1)
                  (take k (chars row) ++ to_char c :: drop k (chars row)) in
    Some (set_dirty 1 (set_cx (cx E1 + 1)
            (set_rows (row_set (rows E1) (cy E1) row') E1)))
  else None.

(** With [cx > 0] the byte before the cursor goes; otherwise row [cy] is
    copied behind row [cy - 1], the rows after it move up one slot, and the
    count drops by one. *)
Definition editorDelChar (E : editorConfig) : option editorConfig :=
  if decide (cy E = numrows E) then Some E
  else if decide (cx E = 0 ∧ cy E = 0) then Some E
  else
    row ← row_at (rows E) (cy E);
    if decide (cx E > 0) then
      if decide (sound row ∧ cx E ≤ size row) then
        let k := Z.to_nat (cx E) in
        let row' := mk_erow (size row - 1)
                      (take (k - 1)%nat (chars row) ++ drop k (chars row)) in
        Some (set_dirty 1 (set_cx (cx E - 1)
                (set_rows (row_set (rows E) (cy E) row') E)))
      else None
    else
      (* join line with previous *)
      prev ← row_at (rows E) (cy E - 1);
      if decide (sound prev ∧ sound row) then
        let prev_size := size prev in
        let joined := mk_erow (prev_size + size row)
                        (chars prev ++ chars row) in
        let rs1 := row_set (rows E) (cy E - 1) joined in
        (* shift rows up *)
        let rs2 := shift_up (Z.to_nat (numrows E - 1 - cy E))
                     (Z.to_nat (cy E)) rs1 in
        Some (set_dirty 1 (set_cx prev_size (set_cy (cy E - 1)
                (set_rows (removelast rs2) E))))
      else None.

(** At column 0 the rows from [cy] on move down one slot, slot [cy + 1]
    gets the [strdup] of the string of slot [cy] and its [size], and slot
    [cy] becomes the empty row.  Elsewhere the rest of the row is copied
    with its length, the row is cut at [cx], and the copy is appended,
    moved into slot [cy + 1] and stored there. *)
Definition editorInsertNewline (E : editorConfig) : option editorConfig :=
  E' ←
    (if decide (cx E = 0) then
       let E1 := editorAppendRow [] 0 E in
       (* shift rows down *)
       let rs1 := shift_down (Z.to_nat (numrows E1 - 1 - cy E))
                    (Z.to_nat (cy E)) (rows E1) in
       cur ← row_at rs1 (cy E);
       _ ← row_at rs1 (cy E + 1);
       let rs2 := row_set rs1 (cy E + 1)
                    (mk_erow (size cur) (strdup (chars cur))) in
       Some (set_rows (row_set rs2 (cy E) (mk_erow 0 (strdup []))) E1)
     else
       row ← row_at (rows E) (cy E);
       if decide (sound row ∧ 0 ≤ cx E ≤ size row) then
         let k := Z.to_nat (cx E) in
         let newlen := size row - cx E in
         let newchars := take (Z.to_nat newlen) (drop k (chars row)) in
         let rs0 := row_set (rows E) (cy E)
                      (mk_erow (cx E) (take k (chars row))) in
         (* insert new row after current *)
         let E1 := editorAppendRow newchars newlen (set_rows rs0 E) in
         (* shift appended row to correct position *)
         let rs1 := shift_down (Z.to_nat (numrows E1 - 1 - (cy E + 1)))
                      (Z.to_nat (cy E + 1)) (rows E1) in
         Some (set_rows (row_set rs1 (cy E + 1) (mk_erow newlen newchars)) E1)
       else None);
  Some (set_dirty 1 (set_cx 0 (set_cy (cy E' + 1) E'))).

(** ** Cursor movement *)

Definition ARROW_UP : Z := 65 + 1000.
Definition ARROW_DOWN : Z := 66 + 1000.
Definition ARROW_RIGHT : Z := 67 + 1000.
Definition ARROW_LEFT : Z := 68 + 1000.

(** [if (E.cy < E.numrows && E.cx > E.rows[E.cy].size)
       E.cx = E.rows[E.cy].size;], the second statement of the cases up and
    down. *)
Definition clamp_cx (E : editorConfig) : option editorConfig :=
  if decide (cy E < numrows E) then
    row ← row_at (rows E) (cy E);
    Some (if decide (cx E > size row) then set_cx (size row) E else E)
  else Some E.

(** The [switch] on the key, one test per case. *)
Definition editorMoveCursor (key : Z) (E : editorConfig)
  : option editorConfig :=
  if decide (key = ARROW_UP) then
    clamp_cx (if decide (cy E > 0) then set_cy (cy E - 1) E else E)
  else if decide (key = ARROW_DOWN) then
    clamp_cx (if decide (cy E < numrows E) then set_cy (cy E + 1) E else E)
  else if decide (key = ARROW_RIGHT) then
    if decide (cy E < numrows E) then
      row ← row_at (rows E) (cy E);
      Some (if decide (cx E < size row) then set_cx (cx E + 1) E
            else if decide (cx E = size row)
                 then set_cx 0 (set_cy (cy E + 1) E)
                 else E)
    else Some E
  else if decide (key = ARROW_LEFT) then
    if decide (cx E > 0) then Some (set_cx (cx E - 1) E)
    else if decide (cy E > 0) then
      row ← row_at (rows E) (cy E - 1);
      Some (set_cx (size row) (set_cy (cy E - 1) E))
    else Some E
  else Some E.

(** ** The machine: terminal input, files, termination *)

(** What one [read (STDIN_FILENO, &c, 1)] gives: a byte, 0 after the
    [VTIME] wait, or -1 (with [errno] being [EAGAIN] or not). *)
Inductive read_result :=
  | RByte (b : Z)
  | RNone
  | RErr (eagain : bool).

(** The calls made to the file system, in order. *)
Inductive sys_call :=
  | SysFopen (path : list Z)
  | SysOpen (path : list Z)
  | SysFtruncate (path : list Z)
  | SysWrite (path : list Z) (data : list Z).

(** What the program's surroundings decide: whether [char] is signed, the
    string that sits in a block fresh from [malloc], and how the file
    system answers.  A failing call answers with the text of
    [strerror (errno)].  The answers depend on the path (and the data)
    only: the file system is taken as it stands, and what a save wrote is
    found in [calls], not by a later [sys_fopen]. *)
Record platform := mk_platform {
  char_is_signed : bool;
  fresh_block : list Z;
  sys_fopen : list Z → list Z + list Z;       (* error text + file content *)
  sys_open : list Z → option (list Z);        (* [Some err]: returned -1 *)
  sys_ftruncate : list Z → bool;              (* [false]: returned -1 *)
  sys_write : list Z → list Z → option (list Z) (* [Some err]: short write *)
}.

(** [stdin] lists the answers of the [read] calls to come; after the last
    one every [read] times out. *)
Record machine := mk_machine {
  ed : editorConfig;
  stdin : list read_result;
  calls : list sys_call
}.

(** How a function ends. *)
Inductive result (A : Type) :=
  | Ok (a : A) (m : machine)        (* it returns [a] *)
  | Exit (status : Z) (m : machine) (* it called [exit (status)] *)
  | Undefined                       (* a buffer operation gave [None] *)
  | Starved                         (* it spins in the first [read] loop *)
  | OutOfFuel.                      (* the prompt loop was cut short *)
Arguments Ok {A} a m.
Arguments Exit {A} status m.
Arguments Undefined {A}.
Arguments Starved {A}.
Arguments OutOfFuel {A}.

Definition M (A : Type) : Type := machine → result A.

#[global] Instance M_ret : MRet M := λ A a m, Ok a m.
#[global] Instance M_bind : MBind M := λ A B f c m,
  match c m with
  | Ok a m' => f a m'
  | Exit s m' => Exit s m'
  | Undefined => Undefined
  | Starved => Starved
  | OutOfFuel => OutOfFuel
  end.

Definition get_ed : M editorConfig := λ m, Ok (ed m) m.
Definition modify (f : editorConfig → editorConfig) : M unit :=
  λ m, Ok tt (mk_machine (f (ed m)) (stdin m) (calls m)).
Definition modify_opt (f : editorConfig → option editorConfig) : M unit :=
  λ m, match f (ed m) with
       | Some E' => Ok tt (mk_machine E' (stdin m) (calls m))
       | None => Undefined
       end.
Definition record_call (c : sys_call) : M unit :=
  λ m, Ok tt (mk_machine (ed m) (stdin m) (calls m ++ [c])).
Definition exit {A} (status : Z) : M A := λ m, Exit status m.
Definition set_stdin (inp : list read_result) (m : machine) : machine :=
  mk_machine (ed m) inp (calls m).

(** One [read] after the first: the next answer, a timeout when none is
    left. *)
Definition sys_read : M read_result :=
  λ m, match stdin m with
       | [] => Ok RNone m
       | r :: rest => Ok r (set_stdin rest m)
       end.

(** [die]: clears the screen and calls [exit (1)]. *)
Definition die {A} : M A := exit 1.

(** ** Utilities: the key decoder *)

(** [while ((nread = read (...)) != 1)
       if (nread == -1 && errno != EAGAIN) die ("read");] *)
Fixpoint read_loop (inp : list read_result) : M Z :=
  match inp with
  | [] => λ _, Starved
  | RByte b :: rest => λ m, Ok b (set_stdin rest m)
  | RNone :: rest => read_loop rest
  | RErr eagain :: rest =>
      if eagain then read_loop rest else λ m, die (set_stdin rest m)
  end.

(** ** File I/O: lines and the bytes written *)

(** The lines successive [getline] calls return: each with its newline,
    the last one without when the file does not end in one. *)
Fixpoint getlines (content : list Z) : list (list Z) :=
  match content with
  | [] => []
  | b :: rest =>
      if decide (b = 10) then [b] :: getlines rest
      else match getlines rest with
           | [] => [[b]]
           | l :: ls => (b :: l) :: ls
           end
  end.

(** [while (len > 0 && (line[len-1] == '\n' || line[len-1] == '\r')) len--;]
    started at [len]. *)
Fixpoint strip_loop (len : nat) (line : list Z) : nat :=
  match len with
  | O => O
  | S len' =>
      match line !! len' with
      | Some b => if decide (b = 10 ∨ b = 13) then strip_loop len' line else len
      | None => len
      end
  end.

(** The body of the reading loop of [editorOpen] for one line. *)
Definition load_line (E : editorConfig) (line : list Z) : editorConfig :=
  editorAppendRow line (Z.of_nat (strip_loop (length line) line)) E.

(** The buffer [editorSave] builds: [size] bytes of each row and a newline. *)
Fixpoint build_buffer (rs : list erow) : option (list Z) :=
  match rs with
  | [] => Some []
  | r :: rs' =>
      if decide (sound r) then
        buf ← build_buffer rs';
        Some (take (Z.to_nat (size r)) (chars r) ++ 10 :: buf)
      else None
  end.

Section Editor.
Variable W : platform.

(** [return c;] with [c] a [char]. *)
Definition char_to_int (b : Z) : Z :=
  if char_is_signed W && bool_decide (128 ≤ b) then b - 256 else b.

Definition editorReadKey : M Z :=
  c ← (λ m, read_loop (stdin m) m);
  if decide (c = 27) then
    r0 ← sys_read;
    match r0 with
    | RByte seq0 =>
        r1 ← sys_read;
        match r1 with
        | RByte seq1 =>
            if decide (seq0 = 91) then
              if decide (48 ≤ seq1 ≤ 57) then
                r2 ← sys_read;
                match r2 with
                | RByte seq2 =>
                    if decide (seq2 = 126) then
                      if decide (seq1 = 51) then mret 127 else mret 27
                    else mret 27
                | _ => mret 27
                end
              else if decide (seq1 = 65) then mret ARROW_UP
              else if decide (seq1 = 66) then mret ARROW_DOWN
              else if decide (seq1 = 67) then mret ARROW_RIGHT
              else if decide (seq1 = 68) then mret ARROW_LEFT
              else mret 27
            else mret 27
        | _ => mret 27
        end
    | _ => mret 27
    end
  else mret (char_to_int c).

Definition status (text : list Z) : M unit :=
  modify (set_statusmsg (snprintf 80 text)).

(** *** File I/O *)

Definition editorOpen (fname : list Z) : M unit :=
  modify editorFreeRows;;
  modify (set_filename (strncpy 511 fname));;
  record_call (SysFopen fname);;
  match sys_fopen W fname with
  | inl err => status (bytes_of_string "Could not open: " ++ err)
  | inr content =>
      modify (λ E, foldl load_line E (getlines content));;
      modify (set_dirty 0);;
      status (bytes_of_string "Opened " ++ fname)
  end.

(** The argument is [None] for a null pointer. *)
Definition editorSave (arg : option (list Z)) : M Z :=
  E ← get_ed;
  let fname :=
    match arg with
    | Some (b :: f) => Some (b :: f)
    | _ => match filename E with [] => None | b :: f => Some (b :: f) end
    end in
  match fname with
  | None => status (bytes_of_string "No filename");; mret 0
  | Some f =>
      record_call (SysOpen f);;
      match sys_open W f with
      | Some err =>
          status (bytes_of_string "Can't save: " ++ err);; mret 0
      | None =>
          (* Build buffer *)
          buf ← (λ m, match build_buffer (rows E) with
                      | Some buf => Ok buf m
                      | None => Undefined
                      end);
          (* write *)
          record_call (SysFtruncate f);;
          if sys_ftruncate W f then
            record_call (SysWrite f buf);;
            match sys_write W f buf with
            | Some err =>
                status (bytes_of_string "Write error: " ++ err);; mret 0
            | None =>
                modify (set_dirty 0);;
                status (bytes_of_string "Saved to " ++ f);;
                mret 1
            end
          else mret 0
      end
  end.

(** *** Input prompt (status line) *)

(** The loop of [editorPrompt]; [buf] is the string in the buffer and
    [buflen] the counter of the C code.  The buffer grows by [realloc]
    before it is full, so its capacity does not show.  What the loop
    writes to the terminal is left out. *)
Fixpoint editorPrompt_loop (fuel : nat) (prompt buf : list Z) (buflen : Z)
  : M (option (list Z)) :=
  match fuel with
  | O => λ _, OutOfFuel
  | S fuel' =>
      status (prompt ++ buf);;
      c ← editorReadKey;
      if decide (c = 13) then
        if decide (buflen ≠ 0) then mret (Some buf) else mret None
      else if decide (c = 127 ∨ c = 8) then
        if decide (buflen ≠ 0) then
          editorPrompt_loop fuel' prompt
            (take (Z.to_nat (buflen - 1)) buf) (buflen - 1)
        else editorPrompt_loop fuel' prompt buf buflen
      else if decide (iscntrl c = false ∧ c < 128) then
        editorPrompt_loop fuel' prompt
          (take (Z.to_nat buflen) buf ++ [to_char c]) (buflen + 1)
      else if decide (c = 27) then mret None
      else editorPrompt_loop fuel' prompt buf buflen
  end.

(** Every turn of the loop takes at least one answer from [stdin] or
    leaves the loop, so one unit of fuel per answer and one more are
    enough.  The buffer starts as [malloc] hands it out. *)
Definition editorPrompt (prompt : list Z) : M (option (list Z)) :=
  λ m, editorPrompt_loop (S (length (stdin m))) prompt (fresh_block W) 0 m.

(** *** Input handling *)

(** The [switch] on the key is a chain of tests in the order of its cases;
    Ctrl-Q (17) returns before it. *)
Definition editorProcessKeypress : M unit :=
  c ← editorReadKey;
  if decide (c = 17) then mret tt
  else if decide (c = 13) then modify_opt editorInsertNewline
  else if decide (c = 127 ∨ c = 8) then modify_opt editorDelChar
  else if decide (c = 19) then
    E ← get_ed;
    match filename E with
    | [] =>
        fn ← editorPrompt (bytes_of_string "Save as: ");
        match fn with
        | Some fn =>
            modify (set_filename (strncpy 511 fn));;
            E ← get_ed;
            editorSave (Some (filename E));; mret tt
        | None => mret tt
        end
    | _ :: _ => editorSave (Some (filename E));; mret tt
    end
  else if decide (c = 15) then
    fn ← editorPrompt (bytes_of_string "Open file: ");
    match fn with
    | Some fn => editorOpen fn;; modify (λ E, set_cx 0 (set_cy 0 E))
    | None => mret tt
    end
  else if decide (c = 24) then
    E ← get_ed;
    (if decide (dirty E ≠ 0) then
       ans ← editorPrompt
               (bytes_of_string "Save changes before exit? (y/N): ");
       match ans with
       | Some (a :: _) =>
           if decide (a = 121 ∨ a = 89) then
             E ← get_ed;
             match filename E with
             | [] =>
                 fn ← editorPrompt (bytes_of_string "Save as: ");
                 match fn with
                 | Some fn =>
                     modify (set_filename (strncpy 511 fn));;
                     E ← get_ed;
                     editorSave (Some (filename E));; exit 0
                 | None => mret tt
                 end
             | _ :: _ => editorSave (Some (filename E));; exit 0
             end
           else exit 0
       | _ => exit 0
       end
     else exit 0)
  else if decide (c = ARROW_UP ∨ c = ARROW_DOWN
                  ∨ c = ARROW_RIGHT ∨ c = ARROW_LEFT) then
    modify_opt (editorMoveCursor c)
  else if decide (iscntrl c = false ∧ c < 128) then
    modify_opt (editorInsertChar c)
  else mret tt.

End Editor.

(** ** Output rendering *)

(** [rowoff], [coloff], [screenrows] and [screencols] of [E]. *)
Record window := mk_window {
  rowoff : Z;
  coloff : Z;
  screenrows : Z;
  screencols : Z
}.

Definition set_rowoff (v : Z) (V : window) : window :=
  mk_window v (coloff V) (screenrows V) (screencols V).
Definition set_coloff (v : Z) (V : window) : window :=
  mk_window (rowoff V) v (screenrows V) (screencols V).

(** The four [if] statements, one after the other. *)
Definition editorScroll (E : editorConfig) (V : window) : window :=
  let V1 := if decide (cy E < rowoff V) then set_rowoff (cy E) V else V in
  let V2 := if decide (cy E >= rowoff V1 + screenrows V1)
            then set_rowoff (cy E - screenrows V1 + 1) V1 else V1 in
  let V3 := if decide (cx E < coloff V2) then set_coloff (cx E) V2 else V2 in
  if decide (cx E >= coloff V3 + screencols V3)
  then set_coloff (cx E - screencols V3 + 1) V3 else V3.

(** [printf]'s [%d]. *)
Definition decimal (n : Z) : list Z :=
  bytes_of_string (NilZero.string_of_int (Z.to_int n)).

Definition welcome : list Z := bytes_of_string "mini_nano -- simple editor".

(** What the turn [y] of the loop of [editorDrawRows] writes before it
    clears the rest of the line.  A [write] with a negative length, and one
    that reads outside the string of a row, give [None]; a [write] of no
    byte reads nothing. *)
Definition draw_row (E : editorConfig) (V : window) (y : Z)
  : option (list Z) :=
  let filerow := y + rowoff V in
  if decide (filerow >= numrows E) then
    if decide (numrows E = 0 ∧ y = screenrows V ÷ 3) then
      let welcomelen := Z.of_nat (length (snprintf 80 welcome)) in
      let welcomelen := if decide (welcomelen > screencols V)
                        then screencols V else welcomelen in
      let padding := (screencols V - welcomelen) ÷ 2 in
      if decide (0 ≤ welcomelen) then
        Some ((if decide (padding ≠ 0)
               then 126 :: replicate (Z.to_nat (padding - 1)) 32
               else replicate (Z.to_nat padding) 32)
              ++ take (Z.to_nat welcomelen) (snprintf 80 welcome))
      else None
    else Some [126]
  else
    row ← row_at (rows E) filerow;
    let len := size row - coloff V in
    let len := if decide (len < 0) then 0 else len in
    let len := if decide (len > screencols V) then screencols V else len in
    if decide (len = 0) then Some []
    else if decide (0 < len ∧ 0 ≤ coloff V ∧ sound row) then
      Some (take (Z.to_nat len) (drop (Z.to_nat (coloff V)) (chars row)))
    else None.

(** The turns [y], [y + 1], ... of the loop, [n] of them: the row, the
    sequence ESC [ K and, but for the last line of the screen, CR LF. *)
Fixpoint draw_rows_from (n : nat) (y : Z) (E : editorConfig) (V : window)
  : option (list Z) :=
  match n with
  | O => Some []
  | S n' =>
      line ← draw_row E V y;
      more ← draw_rows_from n' (y + 1) E V;
      Some (line ++ [27; 91; 75]
            ++ (if decide (y < screenrows V - 1) then [13; 10] else [])
            ++ more)
  end.

Definition editorDrawRows (E : editorConfig) (V : window) : option (list Z) :=
  draw_rows_from (Z.to_nat (screenrows V)) 0 E V.

(** [while (len < E.screencols) ...], with one unit of fuel for each
    column left. *)
Fixpoint status_fill (fuel : nat) (len rlen cols : Z) (rstatus : list Z)
  : list Z :=
  match fuel with
  | O => []
  | S fuel' =>
      if decide (len < cols) then
        if decide (cols - len = rlen) then rstatus
        else 32 :: status_fill fuel' (len + 1) rlen cols rstatus
      else []
  end.

(** The left text of the status bar: at most 20 bytes of the file name, a
    space, and the mark of a dirty buffer. *)
Definition status_text (E : editorConfig) : list Z :=
  snprintf 80
    (take 20 (match filename E with
              | [] => bytes_of_string "[No Name]"
              | _ :: _ => filename E
              end)
     ++ [32]
     ++ (if decide (dirty E ≠ 0) then bytes_of_string " (modified)" else [])).

Definition rstatus_text (E : editorConfig) : list Z :=
  snprintf 80 (decimal (numrows E) ++ bytes_of_string " lines").

(** The status bar of [editorRefreshScreen], between the two sequences
    that switch the colours.  Both texts are shorter than their buffers, so
    what [snprintf] returns is their length. *)
Definition status_bar (E : editorConfig) (V : window) : option (list Z) :=
  let len := Z.of_nat (length (status_text E)) in
  let rlen := Z.of_nat (length (rstatus_text E)) in
  let len := if decide (len > screencols V) then screencols V else len in
  if decide (0 ≤ len) then
    Some (take (Z.to_nat len) (status_text E)
          ++ status_fill (Z.to_nat (screencols V - len)) len rlen
               (screencols V) (rstatus_text E))
  else None.

(** The sequence ESC [ row ; column H. *)
Definition cursor_to (r c : Z) : list Z :=
  snprintf 32 ([27; 91] ++ decimal r ++ [59] ++ decimal c ++ [72]).

(** [age] is [time (NULL) - E.statusmsg_time]; the new window comes with
    the bytes written. *)
Definition editorRefreshScreen (age : Z) (E : editorConfig) (V : window)
  : option (window * list Z) :=
  let V' := editorScroll E V in
  drawn ← editorDrawRows E V';
  bar ← status_bar E V';
  Some (V',
        [27; 91; 63; 50; 53; 108] ++ [27; 91; 72]
        ++ drawn
        ++ [27; 91; 55; 109] ++ bar ++ [27; 91; 109] ++ [13; 10]
        ++ (if decide (age < 5) then strdup (statusmsg E) else [])
        ++ cursor_to (cy E - rowoff V' + 1) (cx E - coloff V' + 1)
        ++ [27; 91; 63; 50; 53; 104]).

(** ** Start *)

(** [initEditor] with the window: [ws] is what [getWindowSize] gives,
    rows and columns, or [None] when it returns -1. *)
Definition initWindow (ws : option (Z * Z)) : M window :=
  modify (λ E, set_filename [] (set_dirty 0 (set_rows [] (set_cy 0 (set_cx 0 E)))));;
  match ws with
  | None => die
  | Some (r, c) => mret (mk_window 0 0 (r - 2) c)
  end.

(** [main] up to its loop, raw mode left out: [argv1] is the argument
    when there is one. *)
Definition main_start (W : platform) (ws : option (Z * Z))
  (argv1 : option (list Z)) : M window :=
  V ← initWindow ws;
  match argv1 with
  | Some f => editorOpen W f;; modify (set_filename (strncpy 511 f))
  | None => mret tt
  end;;
  status (bytes_of_string "Ctrl-S: Save | Ctrl-O: Open | Ctrl-X: Exit");;
  mret V.

(** * What the properties speak of *)

(** The length of row [i]; the row after the last one has length 0. *)
Definition row_len (E : editorConfig) (i : Z) : Z :=
  match row_at (rows E) i with Some r => size r | None => 0 end.

(** The cursor is on a row or just after the last one, and inside it. *)
Definition valid_cursor (E : editorConfig) : Prop :=
  0 ≤ cy E ≤ numrows E ∧ 0 ≤ cx E ≤ row_len E (cy E).

(** Row [i], the empty row when there is none. *)
Definition row_or_empty (E : editorConfig) (i : Z) : erow :=
  default (mk_erow 0 []) (row_at (rows E) i).

(** The cursor is within the rows, and within its row when it is on one. *)
Definition cursor_on_rows (E : editorConfig) : Prop :=
  0 ≤ cy E ≤ numrows E ∧ 0 ≤ cx E ∧
  (cy E < numrows E → cx E ≤ row_len E (cy E)).

(** [editorMoveCursor] for each key of a list in turn. *)
Fixpoint move_all (keys : list Z) (E : editorConfig) : option editorConfig :=
  match keys with
  | [] => Some E
  | key :: keys' => E' ← editorMoveCursor key E; move_all keys' E'
  end.

(** The next [read] gives no byte: a timeout, an error, or the end of the
    script (after which every [read] times out). *)
Definition unavailable (inp : list read_result) : Prop :=
  match inp with
  | RByte _ :: _ => False
  | _ => True
  end.

(** The keys [editorProcessKeypress] has a case for. *)
Definition action_key (c : Z) : Prop :=
  c = 13 ∨ c = 127 ∨ c = 8 ∨ c = 19 ∨ c = 15 ∨ c = 24 ∨
  c = ARROW_UP ∨ c = ARROW_DOWN ∨ c = ARROW_RIGHT ∨ c = ARROW_LEFT.

(** Printable ASCII. *)
Definition printable (b : Z) : Prop := 32 ≤ b ≤ 126.

(** The machine after the prompt has shown [text] in the status line. *)
Definition shown (text : list Z) (m : machine) : machine :=
  mk_machine (set_statusmsg (snprintf 80 text) (ed m)) (stdin m) (calls m).

(** A stored line: its bytes and its terminator. *)
Definition stored_line : Type := list Z * list Z.

(** The bytes of a file made of the given lines. *)
Definition stored (ls : list stored_line) : list Z :=
  mjoin ((λ l, l.1 ++ l.2) <$> ls).

(** A line holds no newline and does not end in a carriage return, and its
    terminator is LF or CR LF. *)
Definition line_ok (l : stored_line) : Prop :=
  Forall (λ b, b ≠ 10) l.1 ∧ last l.1 ≠ Some 13 ∧ (l.2 = [10] ∨ l.2 = [13; 10]).

(** The row a line is stored as. *)
Definition row_of (body : list Z) : erow :=
  mk_erow (Z.of_nat (length body)) body.

(** [n] turns of the loop of [main], the redrawing of the screen left out. *)
Fixpoint process_keys (W : platform) (n : nat) : M unit :=
  match n with
  | O => mret tt
  | S n' => editorProcessKeypress W;; process_keys W n'
  end.

(** A file system in which [fopen] finds the given content, and every call
    of a save succeeds; [char] is signed and fresh blocks hold the empty
    string. *)
Definition platform_with_file (content : list Z) : platform :=
  mk_platform true [] (λ _, inr content) (λ _, None) (λ _, true) (λ _ _, None).

(** A file system in which [fopen] fails. *)
Definition platform_without_file (err : list Z) : platform :=
  mk_platform true [] (λ _, inl err) (λ _, None) (λ _, true) (λ _ _, None).

(** The machine with the given bytes waiting on the terminal and no call
    made yet. *)
Definition machine_of (E : editorConfig) (keys : list Z) : machine :=
  mk_machine E (RByte <$> keys) [].

(** The text of the rows: the bytes of each row and a newline after them. *)
Definition text_of (rs : list erow) : list Z :=
  mjoin ((λ r, chars r ++ [10]) <$> rs).

(** The place of the cursor in the text of the rows. *)
Definition offset (E : editorConfig) : nat :=
  (length (text_of (take (Z.to_nat (cy E)) (rows E))) + Z.to_nat (cx E))%nat.

(** [editorInsertChar] for each byte of a list in turn. *)
Fixpoint insert_all (txt : list Z) (E : editorConfig) : option editorConfig :=
  match txt with
  | [] => Some E
  | c :: txt' => E' ← editorInsertChar c E; insert_all txt' E'
  end.

(** [editorDelChar] [n] times. *)
Fixpoint delete_n (n : nat) (E : editorConfig) : option editorConfig :=
  match n with
  | O => Some E
  | S n' => E' ← editorDelChar E; delete_n n' E'
  end.

(** An answer of [read] that makes the first loop of [editorReadKey] try
    again: a timeout, or an error with [errno] being [EAGAIN]. *)
Definition waiting (r : read_result) : Prop := r = RNone ∨ r = RErr true.

(** What a key typed into the prompt does to the line: 127 and 8 take
    its last byte away, any other byte is added at its end. *)
Definition line_key (line : list Z) (k : Z) : list Z :=
  if decide (k = 127 ∨ k = 8) then removelast line else line ++ [k].

(** The line after the given keys, typed into an empty prompt. *)
Definition typed_line (keys : list Z) : list Z := foldl line_key [] keys.

(** The keys the prompt edits its line with. *)
Definition line_key_ok (k : Z) : Prop := printable k ∨ k = 127 ∨ k = 8.

(** The rows [editorOpen] makes of the content of a file. *)
Definition loaded_rows (content : list Z) : list erow :=
  rows (foldl load_line initEditor (getlines content)).

(** A row that holds no newline and does not end in a carriage return. *)
Definition plain_row (r : erow) : Prop :=
  Forall (λ b, b ≠ 10) (chars r) ∧ last (chars r) ≠ Some 13.

(** The cursor is inside the window. *)
Definition visible (E : editorConfig) (V : window) : Prop :=
  rowoff V ≤ cy E < rowoff V + screenrows V ∧
  coloff V ≤ cx E < coloff V + screencols V.

(** A window that does not start before the text and has room for a byte. *)
Definition window_ok (V : window) : Prop :=
  0 ≤ rowoff V ∧ 0 ≤ coloff V ∧ 0 < screenrows V ∧ 0 < screencols V.

(** The bytes of a line as a row keeps them: no newline among them and no
    carriage return at their end. *)
Definition line_body_ok (body : list Z) : Prop :=
  Forall (λ b, b ≠ 10) body ∧ last body ≠ Some 13.

(** A line of a file that ends in a newline: its bytes, then any number
    of carriage returns, then the newline. *)
Definition line_stored (l : stored_line) : Prop :=
  line_body_ok l.1 ∧ ∃ n, l.2 = replicate n 13 ++ [10].

(** The rows of a file made of the lines [ls] and, where the file does
    not end in a newline, of a last line [body] with the carriage returns
    [crs] behind it: a row for each line, holding the bytes of the line. *)
Definition rows_of_lines (ls : list stored_line) (body crs : list Z)
  : list erow :=
  (row_of ∘ fst <$> ls)
  ++ (if decide (body ++ crs = []) then [] else [row_of body]).

(** A buffer written with string literals, for examples. *)
Definition mkE (x y : Z) (rs : list string) : editorConfig :=
  mk_editorConfig x y
    ((λ s, mk_erow (Z.of_nat (String.length s)) (bytes_of_string s)) <$> rs)
    0 [] [].

(** * Properties *)

(** ** The shifting loops *)

Lemma copy_slot_next (pre : list erow) x y post :
  copy_slot (length pre) (S (length pre)) (pre ++ x :: y :: post)
  = pre ++ y :: y :: post.
Proof.
  unfold copy_slot.
  replace (pre ++ x :: y :: post) with ((pre ++ [x]) ++ y :: post)
    by (rewrite <- app_assoc; done).
  rewrite (list_lookup_middle (pre ++ [x]) post y (S (length pre)))
    by (rewrite length_app; simpl; lia).
  rewrite <- app_assoc. simpl.
  rewrite (insert_app_r_alt pre _ (length pre)) by lia.
  replace (length pre - length pre)%nat with 0%nat by lia. done.
Qed.

Lemma shift_up_spec post : ∀ pre x,
  ∃ z, shift_up (length post) (length pre) (pre ++ x :: post)
       = pre ++ post ++ [z].
Proof.
  induction post as [|y post IH]; intros pre x; simpl.
  - by exists x.
  - rewrite copy_slot_next.
    destruct (IH (pre ++ [y]) y) as [z Hz].
    exists z. rewrite length_app in Hz. simpl in Hz.
    replace (length pre + 1)%nat with (S (length pre)) in Hz by lia.
    rewrite <- !app_assoc in Hz. simpl in Hz. exact Hz.
Qed.

Lemma shift_up_removelast pre x post :
  removelast (shift_up (length post) (length pre) (pre ++ x :: post))
  = pre ++ post.
Proof.
  destruct (shift_up_spec post pre x) as [z ->].
  by rewrite app_assoc, removelast_last.
Qed.

Lemma copy_slot_prev (pre : list erow) mid y junk rest :
  copy_slot (length pre + S (length mid)) (length pre + length mid)
    (pre ++ mid ++ y :: junk :: rest)
  = pre ++ mid ++ y :: y :: rest.
Proof.
  unfold copy_slot.
  rewrite (app_assoc pre mid).
  rewrite (list_lookup_middle (pre ++ mid) (junk :: rest) y)
    by (rewrite length_app; lia).
  replace ((pre ++ mid) ++ y :: junk :: rest)
    with (((pre ++ mid) ++ [y]) ++ junk :: rest)
    by (rewrite <- !app_assoc; done).
  rewrite (insert_app_r_alt ((pre ++ mid) ++ [y]))
    by (rewrite !length_app; simpl; lia).
  replace (length pre + S (length mid) - length ((pre ++ mid) ++ [y]))%nat
    with 0%nat by (rewrite !length_app; simpl; lia).
  simpl. rewrite <- !app_assoc. done.
Qed.

Lemma shift_down_S n lo rs :
  shift_down (S n) lo rs
  = shift_down n lo (copy_slot (lo + S n) (lo + n) rs).
Proof. reflexivity. Qed.

Lemma shift_down_spec bs : ∀ pre b0 junk rest,
  shift_down (S (length bs)) (length pre) (pre ++ (b0 :: bs) ++ junk :: rest)
  = pre ++ b0 :: b0 :: bs ++ rest.
Proof.
  induction bs as [|y bs IH] using rev_ind; intros pre b0 junk rest.
  - simpl. replace (length pre + 0)%nat with (length pre + length (@nil erow))%nat
      by (simpl; lia).
    replace (length pre + 1)%nat with (length pre + S (length (@nil erow)))%nat
      by (simpl; lia).
    apply (copy_slot_prev pre [] b0 junk rest).
  - rewrite length_app. simpl length.
    replace (S (length bs + 1)) with (S (S (length bs))) by lia.
    rewrite shift_down_S.
    replace (pre ++ (b0 :: bs ++ [y]) ++ junk :: rest)
      with (pre ++ (b0 :: bs) ++ y :: junk :: rest)
      by (simpl; rewrite <- !app_assoc; done).
    replace (length pre + S (S (length bs)))%nat
      with (length pre + S (length (b0 :: bs)))%nat by (simpl; lia).
    replace (length pre + S (length bs))%nat
      with (length pre + length (b0 :: bs))%nat by (simpl; lia).
    rewrite copy_slot_prev.
    rewrite (IH pre b0 y (y :: rest)).
    rewrite <- !app_assoc. done.
Qed.

(** ** Reading rows *)

Lemma row_at_nat (rs : list erow) (i : nat) :
  row_at rs (Z.of_nat i) = rs !! i.
Proof.
  unfold row_at. rewrite decide_True by lia. by rewrite Nat2Z.id.
Qed.

Lemma row_at_middle (pre : list erow) r post :
  row_at (pre ++ r :: post) (Z.of_nat (length pre)) = Some r.
Proof. rewrite row_at_nat. by apply list_lookup_middle. Qed.

Lemma row_set_middle (pre : list erow) r r' post :
  row_set (pre ++ r :: post) (Z.of_nat (length pre)) r' = pre ++ r' :: post.
Proof.
  unfold row_set. rewrite Nat2Z.id.
  rewrite (insert_app_r_alt pre) by lia.
  by replace (length pre - length pre)%nat with 0%nat by lia.
Qed.

(** A list cut around the slot [i]. *)
Lemma list_cut (rs : list erow) (i : Z) :
  0 ≤ i < Z.of_nat (length rs) →
  ∃ pre r post, rs = pre ++ r :: post ∧ Z.of_nat (length pre) = i
                ∧ pre = take (Z.to_nat i) rs
                ∧ post = drop (Z.to_nat (i + 1)) rs.
Proof.
  intros Hi.
  destruct (lookup_lt_is_Some_2 rs (Z.to_nat i)) as [r Hr]; [lia|].
  exists (take (Z.to_nat i) rs), r, (drop (S (Z.to_nat i)) rs).
  split; [by rewrite take_drop_middle|].
  split; [rewrite length_take; lia|].
  split; [done|]. f_equal. lia.
Qed.

(** ** Backspace at the start of a line *)

(** C4: with the cursor at column 0 of a row [cy] that has a row above it,
    [editorDelChar] appends row [cy] to row [cy - 1], removes row [cy] (one row
    less) and leaves the cursor on row [cy - 1] at the old length of that
    row.  The rows are those of a well-formed buffer: [size] is the number
    of bytes of each. *)
Theorem editorDelChar_joins_rows (E : editorConfig) :
  Forall sound (rows E) → cx E = 0 → 0 < cy E < numrows E →
  ∃ prev row E',
    row_at (rows E) (cy E - 1) = Some prev ∧
    row_at (rows E) (cy E) = Some row ∧
    editorDelChar E = Some E' ∧
    rows E' = take (Z.to_nat (cy E - 1)) (rows E)
              ++ mk_erow (size prev + size row) (chars prev ++ chars row)
              :: drop (Z.to_nat (cy E + 1)) (rows E) ∧
    numrows E' = numrows E - 1 ∧
    cy E' = cy E - 1 ∧ cx E' = size prev ∧ dirty E' = 1.
Proof.
  destruct E as [x y rs d f s]. unfold numrows. simpl.
  intros Hsound -> Hy.
  destruct (list_cut rs (y - 1)) as (pre & prev & post0 & Hrs & Hpre & Htake & _);
    [lia|].
  destruct post0 as [|row post].
  { exfalso. rewrite Hrs, length_app in Hy. simpl in Hy. lia. }
  assert (Hdrop : drop (Z.to_nat (y + 1)) rs = post).
  { rewrite Hrs. replace (pre ++ prev :: row :: post)
      with ((pre ++ [prev; row]) ++ post) by (rewrite <- app_assoc; done).
    apply drop_app_length'. rewrite length_app. simpl. lia. }
  assert (Hprev : row_at rs (y - 1) = Some prev).
  { rewrite Hrs, <- Hpre. apply row_at_middle. }
  assert (Hrow : row_at rs y = Some row).
  { rewrite Hrs. replace y with (Z.of_nat (length (pre ++ [prev])))
      by (rewrite length_app; simpl; lia).
    replace (pre ++ prev :: row :: post) with ((pre ++ [prev]) ++ row :: post)
      by (rewrite <- app_assoc; done).
    apply row_at_middle. }
  assert (Hs : sound prev ∧ sound row).
  { rewrite Hrs in Hsound. apply Forall_app in Hsound as [_ Hsound].
    inversion Hsound as [|? ? Hp Hsound']. inversion Hsound'. done. }
  exists prev, row. eexists.
  split; [done|]. split; [done|].
  unfold editorDelChar, numrows. simpl.
  rewrite decide_False by lia. rewrite decide_False by lia.
  rewrite Hrow. simpl.
  rewrite Hprev. simpl. rewrite decide_True by done.
  split; [reflexivity|]. simpl.
  assert (Hshift :
    removelast
      (shift_up (Z.to_nat (Z.of_nat (length rs) - 1 - y)) (Z.to_nat y)
         (row_set rs (y - 1)
            (mk_erow (size prev + size row) (chars prev ++ chars row))))
    = take (Z.to_nat (y - 1)) rs
      ++ mk_erow (size prev + size row) (chars prev ++ chars row)
      :: drop (Z.to_nat (y + 1)) rs).
  { rewrite Hdrop, <- Htake.
    set (joined := mk_erow _ _).
    replace (row_set rs (y - 1) joined) with (pre ++ joined :: row :: post)
      by (rewrite Hrs, <- Hpre, row_set_middle; done).
    replace (pre ++ joined :: row :: post)
      with ((pre ++ [joined]) ++ row :: post) by (rewrite <- app_assoc; done).
    replace (Z.to_nat y) with (length (pre ++ [joined]))
      by (rewrite length_app; simpl; lia).
    replace (Z.to_nat (Z.of_nat (length rs) - 1 - y)) with (length post)
      by (rewrite Hrs, length_app; simpl; lia).
    rewrite shift_up_removelast. rewrite <- app_assoc. done. }
  rewrite Hshift.
  repeat split; try done.
  rewrite length_app, length_take. simpl. rewrite length_drop. lia.
Qed.

(** The scenario of C4: rows "foo" and "bar", cursor (1,0), Backspace. *)
Lemma editorDelChar_foo_bar :
  let E := mkE 0 1 ["foo"; "bar"]%string in
  ∃ E', editorDelChar E = Some E' ∧
        rows E' = [mk_erow 6 (bytes_of_string "foobar")] ∧
        cy E' = 0 ∧ cx E' = 3.
Proof.
  intros E.
  destruct (editorDelChar_joins_rows E) as (prev & row & E' & Hp & Hr & HE & Hrows & _ & Hcy & Hcx & _).
  - unfold E, mkE. simpl. repeat constructor.
  - reflexivity.
  - unfold E, mkE, numrows. simpl. lia.
  - exists E'. vm_compute in Hp, Hr.
    injection Hp as <-. injection Hr as <-.
    split; [exact HE|]. split; [exact Hrows|]. split; [exact Hcy | exact Hcx].
Defined.

(** ** Typing a byte and deleting it again *)

Lemma take_insert_byte (l : list Z) (k : nat) (c : Z) :
  (k ≤ length l)%nat →
  take k (take k l ++ c :: drop k l) ++ drop (S k) (take k l ++ c :: drop k l)
  = l.
Proof.
  intros Hk.
  rewrite take_app_length' by (rewrite length_take; lia).
  replace (take k l ++ c :: drop k l) with ((take k l ++ [c]) ++ drop k l)
    by (rewrite <- app_assoc; done).
  rewrite drop_app_length' by (rewrite length_app, length_take; simpl; lia).
  apply take_drop.
Qed.

Lemma row_at_None_ge (rs : list erow) (i : Z) :
  Z.of_nat (length rs) ≤ i → row_at rs i = None.
Proof.
  intros Hi. unfold row_at. case_decide; [|done].
  apply lookup_ge_None. lia.
Qed.

(** C5: at every valid cursor of a well-formed buffer, [editorInsertChar]
    followed by [editorDelChar] gives back the cursor and the content of the
    cursor's row; on a row of the buffer it gives back all the rows. *)
Theorem insert_then_delete_restores (c : Z) (E : editorConfig) :
  Forall sound (rows E) → valid_cursor E →
  ∃ E1 E2,
    editorInsertChar c E = Some E1 ∧ editorDelChar E1 = Some E2 ∧
    cx E2 = cx E ∧ cy E2 = cy E ∧
    row_or_empty E2 (cy E) = row_or_empty E (cy E) ∧
    (cy E < numrows E → rows E2 = rows E).
Proof.
  destruct E as [x y rs d f s].
  unfold valid_cursor, row_len, row_or_empty, numrows. simpl.
  intros Hsound [Hy Hx].
  destruct (decide (y = Z.of_nat (length rs))) as [Heq|Hne].
  - (* typing after the last row *)
    rewrite row_at_None_ge in Hx by lia.
    assert (x = 0) as -> by lia.
    unfold editorInsertChar, numrows. simpl.
    rewrite decide_True by done. simpl. subst y.
    rewrite (row_at_middle rs (mk_erow 0 []) []). simpl. 
    rewrite (row_set_middle rs (mk_erow 0 []) _ []).
    eexists. eexists. split; [reflexivity|].
    unfold editorDelChar, numrows. simpl.
    rewrite length_app. simpl.
    rewrite decide_False by lia.
    rewrite (row_at_middle rs _ []). simpl.
    rewrite (row_set_middle rs _ _ []).
    split; [reflexivity|]. simpl.
    rewrite (row_at_middle rs _ []), row_at_None_ge by lia.
    repeat split; try done. lia.
  - (* typing on a row *)
    destruct (list_cut rs y) as (pre & row & post & Hrs & Hpre & _ & _); [lia|].
    assert (Hrow : row_at rs y = Some row).
    { rewrite Hrs, <- Hpre. apply row_at_middle. }
    assert (Hs : sound row).
    { rewrite Hrs in Hsound. apply Forall_app in Hsound as [_ Hsound].
      by inversion Hsound. }
    rewrite Hrow in Hx. unfold sound in Hs.
    unfold editorInsertChar, numrows. simpl.
    rewrite decide_False by done. simpl.
    rewrite Hrow. simpl.
    rewrite decide_True by (unfold sound; split; [done | lia]).
    eexists. eexists. split; [reflexivity|].
    unfold editorDelChar, numrows. simpl.
    set (row' := mk_erow _ _).
    assert (Hset : row_set rs y row' = pre ++ row' :: post).
    { rewrite Hrs, <- Hpre. apply row_set_middle. }
    rewrite Hset.
    assert (Hlen : length (pre ++ row' :: post) = length rs).
    { rewrite Hrs, !length_app. done. }
    rewrite Hlen.
    rewrite decide_False by done.
    rewrite decide_False by lia.
    rewrite <- Hpre at 1. rewrite row_at_middle. simpl.
    rewrite decide_True by lia.
    assert (Hs' : sound row').
    { unfold sound, row'. simpl.
      rewrite length_app, length_take. simpl. rewrite length_drop. lia. }
    rewrite decide_True by (split; [done | simpl; lia]).
    assert (Hback :
      mk_erow (size row' - 1)
        (take (Z.to_nat (x + 1) - 1) (chars row')
         ++ drop (Z.to_nat (x + 1)) (chars row')) = row).
    { unfold row'. simpl.
      replace (Z.to_nat (x + 1) - 1)%nat with (Z.to_nat x) by lia.
      replace (Z.to_nat (x + 1)) with (S (Z.to_nat x)) by lia.
      rewrite take_insert_byte by lia.
      destruct row as [sz ch]. simpl. f_equal. lia. }
    unfold row' in Hback. simpl in Hback. rewrite Hback.
    assert (Hrestored : row_set (pre ++ row' :: post) y row = rs).
    { rewrite <- Hpre, row_set_middle. done. }
    rewrite Hrestored.
    split; [reflexivity|]. simpl.
    rewrite Hrow. repeat split; try done; lia.
Qed.

(** C5 at the end of the row "ab", and on the empty buffer. *)
Lemma insert_then_delete_ab :
  valid_cursor (mkE 2 0 ["ab"]%string) ∧
  ∃ E1 E2,
    editorInsertChar 120 (mkE 2 0 ["ab"]%string) = Some E1 ∧
    editorDelChar E1 = Some E2 ∧
    cx E2 = 2 ∧ cy E2 = 0 ∧
    row_or_empty E2 0 = mk_erow 2 [97; 98] ∧
    (0 < 1 → rows E2 = [mk_erow 2 [97; 98]]).
Proof.
  assert (Hv : valid_cursor (mkE 2 0 ["ab"]%string)) by (vm_compute; intuition discriminate).
  split; [exact Hv|].
  apply (insert_then_delete_restores 120 (mkE 2 0 ["ab"]%string)).
  - repeat constructor.
  - exact Hv.
Defined.

(** ** Enter *)

(** C6 fails on the code at a row that holds a NUL byte: the file with the
    bytes 'a', NUL, 'b', newline loads as the row 'a' NUL 'b' of size 3;
    Enter at (0,0) puts an empty row first, but the row moved down is copied
    with [strdup]: it keeps [size] 3 and holds the byte 'a' only, so the
    content did not move down, and the row is not well formed any more
    (building the buffer of a save then reads outside its string). *)
Lemma editorInsertNewline_strdup_cuts_row :
  let E := mk_editorConfig 0 0 [mk_erow 3 [97; 0; 98]] 0 [] [] in
  (∃ m', editorOpen (platform_with_file [97; 0; 98; 10]) [102]
           (machine_of initEditor []) = Ok tt m'
         ∧ rows (ed m') = rows E) ∧
  valid_cursor E ∧ Forall sound (rows E) ∧
  editorInsertNewline E
  = Some (mk_editorConfig 0 1 [mk_erow 0 []; mk_erow 3 [97]] 1 [] []) ∧
  build_buffer [mk_erow 0 []; mk_erow 3 [97]] = None.
Proof.
  intros E. split; [eexists; split; reflexivity|].
  split; [vm_compute; intuition discriminate|].
  split; [repeat constructor|].
  split; reflexivity.
Qed.

(** ** Cursor keys *)

(** C2 fails on the code at the last row: from (0,3) on the only row "abc",
    Down moves to the row after the last one and leaves [cx] at 3, though
    that row has length 0; a byte typed there is then inserted outside the
    string of the new row. *)
Lemma editorMoveCursor_down_keeps_cx :
  let E := mkE 3 0 ["abc"]%string in
  valid_cursor E ∧
  editorMoveCursor ARROW_DOWN E = Some (set_cy 1 E) ∧
  numrows (set_cy 1 E) = 1 ∧ cy (set_cy 1 E) = 1 ∧ cx (set_cy 1 E) = 3 ∧
  row_len (set_cy 1 E) 1 = 0 ∧
  editorInsertChar 120 (set_cy 1 E) = None.
Proof.
  intros E. split; [vm_compute; intuition discriminate|].
  repeat split; reflexivity.
Qed.

(** ** Opening a file that cannot be opened *)

(** C1, amended: when [fopen] fails, [editorOpen] returns with the message
    "Could not open: ..." in the status line; the rows were freed before
    the attempt, so the buffer is empty afterwards, the file name is the
    path, and the cursor and the dirty flag are as before. *)
Theorem editorOpen_failure (W : platform) (fname err : list Z) (m : machine) :
  sys_fopen W fname = inl err →
  ∃ m',
    editorOpen W fname m = Ok tt m' ∧
    statusmsg (ed m')
    = snprintf 80 (bytes_of_string "Could not open: " ++ err) ∧
    rows (ed m') = [] ∧ numrows (ed m') = 0 ∧
    filename (ed m') = strncpy 511 fname ∧
    cx (ed m') = cx (ed m) ∧ cy (ed m') = cy (ed m) ∧
    dirty (ed m') = dirty (ed m) ∧
    stdin m' = stdin m ∧ calls m' = calls m ++ [SysFopen fname].
Proof.
  intros Hfail. eexists.
  unfold editorOpen, mbind, M_bind, modify, record_call, status. simpl.
  rewrite Hfail. simpl.
  split; [reflexivity|]. simpl. repeat split; reflexivity.
Qed.

Lemma editorOpen_failure_on_ab :
  ∃ m',
    editorOpen (platform_without_file (bytes_of_string "No such file"))
      [120] (machine_of (mkE 1 0 ["ab"]%string) []) = Ok tt m' ∧
    statusmsg (ed m') = bytes_of_string "Could not open: No such file" ∧
    rows (ed m') = [] ∧ numrows (ed m') = 0 ∧
    filename (ed m') = [120] ∧
    cx (ed m') = 1 ∧ cy (ed m') = 0 ∧ dirty (ed m') = 0 ∧
    stdin m' = [] ∧ calls m' = [SysFopen [120]].
Proof.
  apply (editorOpen_failure
           (platform_without_file (bytes_of_string "No such file"))
           [120] (bytes_of_string "No such file")
           (machine_of (mkE 1 0 ["ab"]%string) [])).
  reflexivity.
Defined.

(** C1 as stated fails: a failed [editorOpen] on the buffer with the row
    "ab" leaves no row. *)
Lemma editorOpen_failure_empties_buffer :
  let m := machine_of (mkE 1 0 ["ab"]%string) [] in
  ∃ m',
    editorOpen (platform_without_file (bytes_of_string "No such file"))
      [120] m = Ok tt m' ∧
    rows (ed m) = [mk_erow 2 [97; 98]] ∧ numrows (ed m) = 1 ∧
    rows (ed m') = [] ∧ numrows (ed m') = 0 ∧
    rows (ed m') ≠ rows (ed m).
Proof.
  intros m. eexists. split; [reflexivity|].
  repeat split; try reflexivity. discriminate.
Qed.

(** ** The key decoder *)

(** C8, amended: ESC '[' and a letter A to D decode to the arrow keys up,
    down, right and left; ESC '[' '3' '~' decodes to Delete (127), while
    ESC '[' with any other digit, or with another byte than '~' after the
    digit, decodes to a plain ESC; and whenever a byte that should follow is
    not there at the next [read], the decoder returns ESC at once. *)
Theorem editorReadKey_escape_sequences
  (W : platform) (E : editorConfig) (cs : list sys_call) :
  (∀ rest,
     editorReadKey W (mk_machine E (RByte 27 :: RByte 91 :: RByte 65 :: rest) cs)
     = Ok ARROW_UP (mk_machine E rest cs) ∧
     editorReadKey W (mk_machine E (RByte 27 :: RByte 91 :: RByte 66 :: rest) cs)
     = Ok ARROW_DOWN (mk_machine E rest cs) ∧
     editorReadKey W (mk_machine E (RByte 27 :: RByte 91 :: RByte 67 :: rest) cs)
     = Ok ARROW_RIGHT (mk_machine E rest cs) ∧
     editorReadKey W (mk_machine E (RByte 27 :: RByte 91 :: RByte 68 :: rest) cs)
     = Ok ARROW_LEFT (mk_machine E rest cs)) ∧
  (∀ rest,
     editorReadKey W
       (mk_machine E (RByte 27 :: RByte 91 :: RByte 51 :: RByte 126 :: rest) cs)
     = Ok 127 (mk_machine E rest cs)) ∧
  (∀ d b rest,
     48 ≤ d ≤ 57 → ¬ (d = 51 ∧ b = 126) →
     editorReadKey W
       (mk_machine E (RByte 27 :: RByte 91 :: RByte d :: RByte b :: rest) cs)
     = Ok 27 (mk_machine E rest cs)) ∧
  (∀ inp,
     unavailable inp →
     editorReadKey W (mk_machine E (RByte 27 :: inp) cs)
     = Ok 27 (mk_machine E (tail inp) cs)) ∧
  (∀ s0 inp,
     unavailable inp →
     editorReadKey W (mk_machine E (RByte 27 :: RByte s0 :: inp) cs)
     = Ok 27 (mk_machine E (tail inp) cs)) ∧
  (∀ d inp,
     48 ≤ d ≤ 57 → unavailable inp →
     editorReadKey W (mk_machine E (RByte 27 :: RByte 91 :: RByte d :: inp) cs)
     = Ok 27 (mk_machine E (tail inp) cs)).
Proof.
  split; [intros rest; repeat split; reflexivity|].
  split; [reflexivity|].
  split; [|split; [|split]].
  - intros d b rest Hd Hnot.
    unfold editorReadKey, mbind, M_bind, sys_read, set_stdin. simpl.
    rewrite (decide_True (P := 48 ≤ d ≤ 57)) by done. simpl.
    repeat case_decide; try reflexivity. exfalso. tauto.
  - intros inp Hinp. destruct inp as [|[b| |e] inp]; try done; reflexivity.
  - intros s0 inp Hinp. destruct inp as [|[b| |e] inp]; try done; reflexivity.
  - intros d inp Hd Hinp.
    destruct inp as [|[b| |e] inp]; try done;
      unfold editorReadKey, mbind, M_bind, sys_read, set_stdin; simpl;
      rewrite (decide_True (P := 48 ≤ d ≤ 57)) by done; reflexivity.
Qed.

(** C8 at ESC '[' '5' '~' (Page Up) and at an ESC that nothing follows. *)
Lemma editorReadKey_escape_examples :
  editorReadKey (platform_with_file []) (machine_of initEditor [27; 91; 53; 126])
  = Ok 27 (machine_of initEditor []) ∧
  editorReadKey (platform_with_file []) (mk_machine initEditor [RByte 27; RNone] [])
  = Ok 27 (machine_of initEditor []).
Proof.
  destruct (editorReadKey_escape_sequences (platform_with_file []) initEditor [])
    as (_ & _ & Hdigit & Hnone & _).
  split.
  - apply (Hdigit 53 126 []); lia.
  - apply (Hnone [RNone]). exact I.
Defined.

(** C8 as stated fails: ESC '[' '5' '~' has a digit and '~' but decodes to
    ESC (27), not to Delete (127). *)
Lemma editorReadKey_digit_5_is_not_delete :
  editorReadKey (platform_with_file []) (machine_of initEditor [27; 91; 53; 126])
  = Ok 27 (machine_of initEditor []) ∧
  editorReadKey (platform_with_file []) (machine_of initEditor [27; 91; 53; 126])
  ≠ Ok 127 (machine_of initEditor []).
Proof. split; [reflexivity | discriminate]. Qed.

(** ** What reading a key and prompting leave alone *)

Lemma read_loop_frame inp : ∀ m c m',
  read_loop inp m = Ok c m' →
  ed m' = ed m ∧ calls m' = calls m ∧ (length (stdin m') < length inp)%nat.
Proof.
  induction inp as [|r inp IH]; intros m c m' H; simpl in H; [done|].
  destruct r as [b| |[|]].
  - injection H as <- <-. simpl. repeat split; lia.
  - apply IH in H. simpl. intuition lia.
  - apply IH in H. simpl. intuition lia.
  - done.
Qed.

Lemma sys_read_frame m r m' :
  sys_read m = Ok r m' →
  ed m' = ed m ∧ calls m' = calls m ∧ (length (stdin m') ≤ length (stdin m))%nat.
Proof.
  unfold sys_read. destruct (stdin m) as [|r0 inp] eqn:Hin; intros H;
    injection H as <- <-; simpl; rewrite ?Hin; simpl; repeat split; lia.
Qed.

Lemma bind_Ok_inv {A B} (c : M A) (f : A → M B) m b m' :
  (x ← c; f x) m = Ok b m' →
  ∃ a m1, c m = Ok a m1 ∧ f a m1 = Ok b m'.
Proof.
  unfold mbind, M_bind. destruct (c m) as [a m1| | | |]; try done. eauto.
Qed.

Lemma mret_Ok_inv {A} (a b : A) m m' :
  (mret a : M A) m = Ok b m' → a = b ∧ m = m'.
Proof. unfold mret, M_ret. intros H. by injection H. Qed.

(** [editorReadKey] changes nothing but the input, and takes at least one
    answer from it. *)
Lemma editorReadKey_frame W m c m' :
  editorReadKey W m = Ok c m' →
  ed m' = ed m ∧ calls m' = calls m ∧ (length (stdin m') < length (stdin m))%nat.
Proof.
  unfold editorReadKey. intros H.
  apply bind_Ok_inv in H as (b & m1 & Hrl & H).
  apply read_loop_frame in Hrl as (He1 & Hc1 & Hl1).
  assert (Hdone : ∀ k m2, ed m2 = ed m → calls m2 = calls m →
                    (length (stdin m2) < length (stdin m))%nat →
                    (mret k : M Z) m2 = Ok c m' →
                    ed m' = ed m ∧ calls m' = calls m
                    ∧ (length (stdin m') < length (stdin m))%nat).
  { intros k m2 ? ? ? Hk. apply mret_Ok_inv in Hk as [_ <-]. done. }
  case_decide; [|by eapply Hdone].
  apply bind_Ok_inv in H as (r0 & m2 & Hra & H).
  apply sys_read_frame in Hra as (He2 & Hc2 & Hl2).
  assert (Hm2 : ed m2 = ed m ∧ calls m2 = calls m
                ∧ (length (stdin m2) < length (stdin m))%nat)
    by (repeat split; [congruence | congruence | lia]).
  destruct Hm2 as (? & ? & ?).
  destruct r0 as [seq0| |e0]; [|by eapply Hdone..].
  apply bind_Ok_inv in H as (r1 & m3 & Hrb & H).
  apply sys_read_frame in Hrb as (He3 & Hc3 & Hl3).
  assert (Hm3 : ed m3 = ed m ∧ calls m3 = calls m
                ∧ (length (stdin m3) < length (stdin m))%nat)
    by (repeat split; [congruence | congruence | lia]).
  destruct Hm3 as (? & ? & ?).
  destruct r1 as [seq1| |e1]; [|by eapply Hdone..].
  case_decide; [|by eapply Hdone].
  case_decide.
  - apply bind_Ok_inv in H as (r2 & m4 & Hrc & H).
    apply sys_read_frame in Hrc as (He4 & Hc4 & Hl4).
    assert (Hm4 : ed m4 = ed m ∧ calls m4 = calls m
                  ∧ (length (stdin m4) < length (stdin m))%nat)
      by (repeat split; [congruence | congruence | lia]).
    destruct Hm4 as (? & ? & ?).
    destruct r2 as [seq2| |e2]; [|by eapply Hdone..].
    repeat case_decide; by eapply Hdone.
  - repeat case_decide; by eapply Hdone.
Qed.

(** ** Keys without an action *)

Lemma bind_Ok {A B} (c : M A) (f : A → M B) m a m1 :
  c m = Ok a m1 → (x ← c; f x) m = f a m1.
Proof. unfold mbind, M_bind. by intros ->. Qed.

(** The tests of [editorProcessKeypress] that a key without a case fails. *)
Ltac skip_cases k :=
  rewrite (decide_False (P := k = 13)) by tauto;
  rewrite (decide_False (P := k = 127 ∨ k = 8)) by tauto;
  rewrite (decide_False (P := k = 19)) by tauto;
  rewrite (decide_False (P := k = 15)) by tauto;
  rewrite (decide_False (P := k = 24)) by tauto;
  rewrite (decide_False (P := k = ARROW_UP ∨ k = ARROW_DOWN
                               ∨ k = ARROW_RIGHT ∨ k = ARROW_LEFT)) by tauto.

(** The default case of the [switch], on the value of the key as
    [editorReadKey] returns it: a key without a case of its own is inserted
    only if it is no control character and below 128; a control character
    or a value of 128 or more leaves the editor state (rows, cursor, dirty
    flag and all the rest) as it was. *)
Theorem editorProcessKeypress_unbound_key (W : platform) (m m1 : machine) (c : Z) :
  editorReadKey W m = Ok c m1 → ¬ action_key c →
  (iscntrl c = false ∧ c < 128 →
     editorProcessKeypress W m = modify_opt (editorInsertChar c) m1) ∧
  (iscntrl c = true ∨ 128 ≤ c →
     editorProcessKeypress W m = Ok tt m1 ∧
     rows (ed m1) = rows (ed m) ∧ cx (ed m1) = cx (ed m) ∧
     cy (ed m1) = cy (ed m) ∧ dirty (ed m1) = dirty (ed m) ∧
     ed m1 = ed m ∧ calls m1 = calls m).
Proof.
  intros Hkey Hnot.
  pose proof (editorReadKey_frame W m c m1 Hkey) as (Hed & Hcalls & _).
  unfold action_key in Hnot.
  unfold editorProcessKeypress.
  rewrite (bind_Ok _ _ m c m1 Hkey). cbv beta.
  split.
  - intros [Hc Hlt].
    assert (c ≠ 17).
    { intros ->. by vm_compute in Hc. }
    rewrite (decide_False (P := c = 17)) by done.
    skip_cases c.
    rewrite (decide_True (P := iscntrl c = false ∧ c < 128)) by done.
    reflexivity.
  - intros Hc.
    assert (Hno : ¬ (iscntrl c = false ∧ c < 128)).
    { intros [Hf Hlt]. destruct Hc as [Ht|Hge]; [congruence | lia]. }
    rewrite Hed. repeat split; try done.
    destruct (decide (c = 17)) as [->|H17]; [reflexivity|].
    skip_cases c.
    rewrite (decide_False (P := iscntrl c = false ∧ c < 128)) by done.
    reflexivity.
Qed.

(** The default case on the row "ab": the control byte 1 and, where [char]
    is unsigned, the byte 233 change nothing; the letter 'x' is inserted. *)
Lemma editorProcessKeypress_unbound_examples :
  let W := mk_platform false [] (λ _, inl []) (λ _, None) (λ _, true)
             (λ _ _, None) in
  let E := mkE 1 0 ["ab"]%string in
  editorProcessKeypress W (machine_of E [1]) = Ok tt (machine_of E []) ∧
  editorProcessKeypress W (machine_of E [233]) = Ok tt (machine_of E []) ∧
  editorProcessKeypress W (machine_of E [120])
  = Ok tt (machine_of (set_dirty 1 (mkE 2 0 ["axb"]%string)) []).
Proof.
  intros W E.
  assert (Hn : ∀ c, c = 1 ∨ c = 233 ∨ c = 120 → ¬ action_key c).
  { intros c Hc Ha. unfold action_key, ARROW_UP, ARROW_DOWN, ARROW_RIGHT,
      ARROW_LEFT in Ha. lia. }
  split; [|split].
  - apply (editorProcessKeypress_unbound_key W (machine_of E [1])
             (machine_of E []) 1); [reflexivity | apply Hn; lia |].
    left. reflexivity.
  - apply (editorProcessKeypress_unbound_key W (machine_of E [233])
             (machine_of E []) 233); [reflexivity | apply Hn; lia |].
    right. lia.
  - rewrite (proj1 (editorProcessKeypress_unbound_key W (machine_of E [120])
                      (machine_of E []) 120 eq_refl (Hn 120 ltac:(lia)))).
    + reflexivity.
    + split; [reflexivity | lia].
Defined.

(** ** The prompt *)

Lemma editorPrompt_loop_key W fuel prompt buf buflen m c m1 :
  editorReadKey W (shown (prompt ++ buf) m) = Ok c m1 →
  editorPrompt_loop W (S fuel) prompt buf buflen m
  = (if decide (c = 13) then
       if decide (buflen ≠ 0) then mret (Some buf) else mret None
     else if decide (c = 127 ∨ c = 8) then
       if decide (buflen ≠ 0) then
         editorPrompt_loop W fuel prompt
           (take (Z.to_nat (buflen - 1)) buf) (buflen - 1)
       else editorPrompt_loop W fuel prompt buf buflen
     else if decide (iscntrl c = false ∧ c < 128) then
       editorPrompt_loop W fuel prompt
         (take (Z.to_nat buflen) buf ++ [to_char c]) (buflen + 1)
     else if decide (c = 27) then mret None
     else editorPrompt_loop W fuel prompt buf buflen) m1.
Proof.
  intros Hkey. cbn [editorPrompt_loop].
  rewrite (bind_Ok _ _ m tt (shown (prompt ++ buf) m) eq_refl). cbv beta.
  rewrite (bind_Ok _ _ _ c m1 Hkey). reflexivity.
Qed.

(** A byte other than ESC is the key as it is read. *)
Lemma editorReadKey_plain W (E : editorConfig) b inp cs :
  b ≠ 27 →
  editorReadKey W (mk_machine E (RByte b :: inp) cs)
  = Ok (char_to_int W b) (mk_machine E inp cs).
Proof.
  intros Hb. unfold editorReadKey, mbind, M_bind. simpl.
  rewrite decide_False by done. reflexivity.
Qed.

(** An ESC that no byte follows is the key ESC. *)
Lemma editorReadKey_lone_escape W (E : editorConfig) inp cs :
  unavailable inp →
  editorReadKey W (mk_machine E (RByte 27 :: inp) cs)
  = Ok 27 (mk_machine E (tail inp) cs).
Proof. intros Hinp. destruct inp as [|[b| |e] inp]; try done; reflexivity. Qed.

Lemma printable_key W b :
  printable b →
  char_to_int W b = b ∧ to_char b = b ∧ b ≠ 27 ∧ b ≠ 13 ∧ ¬ (b = 127 ∨ b = 8)
  ∧ iscntrl b = false ∧ b < 128.
Proof.
  unfold printable, char_to_int, to_char, iscntrl. intros Hb.
  rewrite (bool_decide_eq_false_2 (128 ≤ b)) by lia.
  rewrite andb_false_r.
  rewrite (bool_decide_eq_false_2 (0 ≤ b ≤ 31 ∨ b = 127)) by lia.
  rewrite Z.mod_small by lia. repeat split; lia.
Qed.

(** Typing printable text into the prompt and then pressing Escape ends
    the prompt with no answer; only the status line has changed. *)
Lemma editorPrompt_loop_text_escape W prompt rest cs txt :
  Forall printable txt → unavailable rest →
  ∀ fuel buf buflen (E : editorConfig),
    (length txt < fuel)%nat →
    ∃ msg,
      editorPrompt_loop W fuel prompt buf buflen
        (mk_machine E ((RByte <$> txt) ++ RByte 27 :: rest) cs)
      = Ok None (mk_machine (set_statusmsg msg E) (tail rest) cs).
Proof.
  intros Htxt Hrest.
  induction Htxt as [|b txt Hb Htxt IH]; intros fuel buf buflen E Hfuel;
    (destruct fuel as [|fuel]; [simpl in Hfuel; lia|]).
  - eexists. simpl fmap. simpl app.
    erewrite editorPrompt_loop_key
      by (unfold shown; simpl; by apply editorReadKey_lone_escape).
    reflexivity.
  - destruct (printable_key W b Hb) as (Hc & Ht & H27 & H13 & Hbs & Hpr & Hlt).
    simpl fmap. simpl app.
    erewrite editorPrompt_loop_key
      by (unfold shown; simpl; by apply editorReadKey_plain).
    rewrite Hc.
    rewrite (decide_False (P := b = 13)) by done.
    rewrite (decide_False (P := b = 127 ∨ b = 8)) by done.
    rewrite (decide_True (P := iscntrl b = false ∧ b < 128)) by done.
    destruct (IH fuel (take (Z.to_nat buflen) buf ++ [to_char b]) (buflen + 1)
                (set_statusmsg (snprintf 80 (prompt ++ buf)) E))
      as [msg Hmsg]; [simpl in Hfuel; lia|].
    exists msg. exact Hmsg.
Qed.

(** C9: with no file name bound, Ctrl-S, printable text and Escape leave
    the file name unbound, the rows, the cursor and the dirty flag as they
    were, and call nothing of the file system; only the status line shows
    what the prompt wrote.  In the prompt, the key Escape ends it with no
    answer whatever was typed, and Enter gives the typed text when there is
    some and no answer otherwise. *)
Theorem editorPrompt_escape_and_enter (W : platform) :
  (∀ (E : editorConfig) txt rest cs,
     filename E = [] → Forall printable txt → unavailable rest →
     ∃ msg,
       editorProcessKeypress W
         (mk_machine E (RByte 19 :: (RByte <$> txt) ++ RByte 27 :: rest) cs)
       = Ok tt (mk_machine (set_statusmsg msg E) (tail rest) cs) ∧
       filename (set_statusmsg msg E) = [] ∧
       rows (set_statusmsg msg E) = rows E ∧
       dirty (set_statusmsg msg E) = dirty E ∧
       cx (set_statusmsg msg E) = cx E ∧ cy (set_statusmsg msg E) = cy E) ∧
  (∀ fuel prompt buf buflen m m1,
     editorReadKey W (shown (prompt ++ buf) m) = Ok 27 m1 →
     editorPrompt_loop W (S fuel) prompt buf buflen m = Ok None m1) ∧
  (∀ fuel prompt buf buflen m m1,
     editorReadKey W (shown (prompt ++ buf) m) = Ok 13 m1 →
     editorPrompt_loop W (S fuel) prompt buf buflen m
     = Ok (if decide (buflen ≠ 0) then Some buf else None) m1).
Proof.
  split; [|split].
  - intros E txt rest cs Hf Htxt Hrest.
    destruct (editorPrompt_loop_text_escape W (bytes_of_string "Save as: ")
                rest cs txt Htxt Hrest
                (S (length ((RByte <$> txt) ++ RByte 27 :: rest)))
                (fresh_block W) 0 E) as [msg Hmsg].
    { rewrite length_app, length_fmap. simpl. lia. }
    exists msg. split; [|by destruct E].
    unfold editorProcessKeypress.
    erewrite bind_Ok by (by apply editorReadKey_plain).
    cbv beta. replace (char_to_int W 19) with 19
      by (unfold char_to_int; by rewrite andb_false_r).
    rewrite (decide_False (P := 19 = 17)) by done.
    rewrite (decide_False (P := 19 = 13)) by done.
    rewrite (decide_False (P := 19 = 127 ∨ 19 = 8)) by lia.
    rewrite (decide_True (P := 19 = 19)) by done.
    erewrite bind_Ok by reflexivity. cbv beta. cbn [ed]. rewrite Hf.
    erewrite bind_Ok by exact Hmsg. reflexivity.
  - intros fuel prompt buf buflen m m1 Hkey.
    rewrite (editorPrompt_loop_key _ _ _ _ _ _ _ _ Hkey). reflexivity.
  - intros fuel prompt buf buflen m m1 Hkey.
    rewrite (editorPrompt_loop_key _ _ _ _ _ _ _ _ Hkey).
    simpl. by case_decide.
Qed.

(** C9 with the text "out.txt" typed into the "Save as: " prompt of an
    unsaved buffer. *)
Lemma save_prompt_out_txt_escape :
  let E := set_dirty 1 (mkE 2 0 ["ab"]%string) in
  ∃ msg,
    editorProcessKeypress (platform_with_file [])
      (machine_of E (19 :: bytes_of_string "out.txt" ++ [27]))
    = Ok tt (machine_of (set_statusmsg msg E) []) ∧
    filename (set_statusmsg msg E) = [] ∧
    rows (set_statusmsg msg E) = rows E ∧
    dirty (set_statusmsg msg E) = 1 ∧
    cx (set_statusmsg msg E) = 2 ∧ cy (set_statusmsg msg E) = 0.
Proof.
  intros E.
  apply (proj1 (editorPrompt_escape_and_enter (platform_with_file []))
           E (bytes_of_string "out.txt") [] []).
  - reflexivity.
  - replace (bytes_of_string "out.txt") with [111; 117; 116; 46; 116; 120; 116]
      by reflexivity.
    unfold printable. repeat (constructor; [lia|]). constructor.
  - exact I.
Defined.

(** ** Bytes of 128 and more *)

(** The byte a negative key is stored as. *)
Lemma to_char_signed b : 128 ≤ b ≤ 255 → to_char (b - 256) = b.
Proof.
  intros Hb. unfold to_char. symmetry.
  apply (Z.mod_unique (b - 256) 256 (-1) b); lia.
Qed.

(** C10: a byte of 128 or more is left out only where [char] is unsigned.
    Where [char] is signed, [editorReadKey] returns it as the negative key
    [b - 256], which has no case of its own, is no control character and
    is below 128: the test [!iscntrl (c) && c < 128] lets it through and
    [editorInsertChar] stores the byte at the cursor, moves the cursor on
    and sets the dirty flag. *)
Theorem editorProcessKeypress_inserts_high_byte
  (W : platform) (E : editorConfig) (b : Z) (rest : list read_result)
  (cs : list sys_call) :
  128 ≤ b ≤ 255 →
  (char_is_signed W = false →
   editorProcessKeypress W (mk_machine E (RByte b :: rest) cs)
   = Ok tt (mk_machine E rest cs)) ∧
  (char_is_signed W = true →
   editorReadKey W (mk_machine E (RByte b :: rest) cs)
   = Ok (b - 256) (mk_machine E rest cs) ∧
   ¬ action_key (b - 256) ∧
   ∀ row,
     row_at (rows E) (cy E) = Some row → sound row → 0 ≤ cx E ≤ size row →
     editorProcessKeypress W (mk_machine E (RByte b :: rest) cs)
     = Ok tt
         (mk_machine
            (set_dirty 1
               (set_cx (cx E + 1)
                  (set_rows
                     (row_set (rows E) (cy E)
                        (mk_erow (size row + 1)
                           (take (Z.to_nat (cx E)) (chars row)
                            ++ b :: drop (Z.to_nat (cx E)) (chars row))))
                     E)))
            rest cs)).
Proof.
  intros Hb. split.
  - intros Hsigned.
    assert (Hnot : ¬ action_key b).
    { unfold action_key, ARROW_UP, ARROW_DOWN, ARROW_RIGHT, ARROW_LEFT. lia. }
    unfold action_key in Hnot.
    unfold editorProcessKeypress.
    erewrite bind_Ok by (apply editorReadKey_plain; lia). cbv beta.
    replace (char_to_int W b) with b
      by (unfold char_to_int; by rewrite Hsigned).
    rewrite (decide_False (P := b = 17)) by lia.
    skip_cases b.
    rewrite (decide_False (P := iscntrl b = false ∧ b < 128)) by lia.
    reflexivity.
  - intros Hsigned.
    assert (Hkey : char_to_int W b = b - 256).
    { unfold char_to_int. rewrite Hsigned.
      by rewrite (bool_decide_eq_true_2 (128 ≤ b)) by lia. }
    assert (Hnot : ¬ action_key (b - 256)).
    { unfold action_key, ARROW_UP, ARROW_DOWN, ARROW_RIGHT, ARROW_LEFT. lia. }
    split; [|split; [done|]].
    { rewrite editorReadKey_plain by lia. by rewrite Hkey. }
    intros row Hrow Hs Hx.
    unfold action_key in Hnot.
    unfold editorProcessKeypress.
    erewrite bind_Ok by (apply editorReadKey_plain; lia). cbv beta.
    rewrite Hkey.
    rewrite (decide_False (P := b - 256 = 17)) by lia.
    skip_cases (b - 256).
    assert (Hprint : iscntrl (b - 256) = false).
    { unfold iscntrl. apply bool_decide_eq_false_2. lia. }
    rewrite (decide_True (P := iscntrl (b - 256) = false ∧ b - 256 < 128))
      by (split; [done | lia]).
    assert (Hy : cy E ≠ numrows E).
    { unfold row_at in Hrow. case_decide; [|done].
      apply lookup_lt_Some in Hrow. unfold numrows. lia. }
    unfold modify_opt, editorInsertChar. cbn [ed stdin calls].
    rewrite (decide_False (P := cy E = numrows E)) by done.
    rewrite Hrow. simpl.
    rewrite decide_True by done.
    by rewrite to_char_signed.
Qed.

(** C10 on the row "ab" with the cursor after the 'a', [char] being signed:
    the byte 233 is inserted. *)
Lemma editorProcessKeypress_inserts_byte_233 :
  editorProcessKeypress (platform_with_file [])
    (machine_of (mkE 1 0 ["ab"]%string) [233])
  = Ok tt
      (machine_of
         (mk_editorConfig 2 0 [mk_erow 3 [97; 233; 98]] 1 [] []) []).
Proof.
  apply (proj2 (proj2 (proj2 (editorProcessKeypress_inserts_high_byte
                         (platform_with_file []) (mkE 1 0 ["ab"]%string) 233
                         [] [] ltac:(lia)) eq_refl))
           (mk_erow 2 [97; 98])).
  - reflexivity.
  - reflexivity.
  - simpl. lia.
Defined.

Lemma set_statusmsg_twice s1 s2 E :
  set_statusmsg s2 (set_statusmsg s1 E) = set_statusmsg s2 E.
Proof. reflexivity. Qed.

(** The prompt changes the status line and takes input; nothing else. *)
Lemma editorPrompt_loop_frame W fuel : ∀ prompt buf buflen m r m',
  editorPrompt_loop W fuel prompt buf buflen m = Ok r m' →
  ∃ msg, ed m' = set_statusmsg msg (ed m) ∧ calls m' = calls m.
Proof.
  induction fuel as [|fuel IH]; intros prompt buf buflen m r m' H; [done|].
  cbn [editorPrompt_loop] in H.
  apply bind_Ok_inv in H as ([] & m0 & Hshow & H).
  injection Hshow as <-.
  apply bind_Ok_inv in H as (c & m1 & Hkey & H).
  apply editorReadKey_frame in Hkey as (Hed & Hcalls & _).
  simpl in Hed, Hcalls.
  assert (Hhere : ∀ m2 : machine, m2 = m1 →
            ∃ msg, ed m2 = set_statusmsg msg (ed m) ∧ calls m2 = calls m).
  { intros m2 ->. rewrite Hed, Hcalls. eauto. }
  assert (Hrec : ∀ buf' buflen',
            editorPrompt_loop W fuel prompt buf' buflen' m1 = Ok r m' →
            ∃ msg, ed m' = set_statusmsg msg (ed m) ∧ calls m' = calls m).
  { intros buf' buflen' Hloop. apply IH in Hloop as (msg & -> & ->).
    rewrite Hed, Hcalls, set_statusmsg_twice. eauto. }
  repeat case_decide;
    first [ by eapply Hrec
          | apply mret_Ok_inv in H as [_ Hm]; by apply Hhere ].
Qed.

Lemma editorPrompt_frame W prompt m r m' :
  editorPrompt W prompt m = Ok r m' →
  ∃ msg, ed m' = set_statusmsg msg (ed m) ∧ calls m' = calls m.
Proof. apply editorPrompt_loop_frame. Qed.

(** *** The fuel of the prompt is enough *)

Lemma read_loop_not_OutOfFuel inp : ∀ m, read_loop inp m ≠ OutOfFuel.
Proof.
  induction inp as [|[b| |[|]] inp IH]; intros m; simpl; try done; apply IH.
Qed.

Lemma editorReadKey_not_OutOfFuel W m : editorReadKey W m ≠ OutOfFuel.
Proof.
  unfold editorReadKey, mbind, M_bind, sys_read, mret, M_ret.
  pose proof (read_loop_not_OutOfFuel (stdin m) m) as Hloop.
  destruct (read_loop (stdin m) m) as [c m1| | | |]; try done.
  case_decide; [|done].
  destruct (stdin m1) as [|[s0| |e0] inp1]; try done. simpl.
  destruct inp1 as [|[s1| |e1] inp2]; try done. simpl.
  case_decide; [|done].
  case_decide; [|by repeat case_decide].
  destruct inp2 as [|[s2| |e2] inp3]; try done. simpl.
  by repeat case_decide.
Qed.

(** With more fuel than answers on the terminal, the prompt loop ends by
    itself: in a return, in [exit], or waiting for a key when the answers
    are used up. *)
Lemma editorPrompt_loop_not_OutOfFuel W fuel : ∀ prompt buf buflen m,
  (length (stdin m) < fuel)%nat →
  editorPrompt_loop W fuel prompt buf buflen m ≠ OutOfFuel.
Proof.
  induction fuel as [|fuel IH]; intros prompt buf buflen m Hfuel; [lia|].
  destruct (editorReadKey W (shown (prompt ++ buf) m)) as [c m1| | | |] eqn:Hkey.
  - rewrite (editorPrompt_loop_key _ _ _ _ _ _ _ _ Hkey).
    apply editorReadKey_frame in Hkey as (_ & _ & Hlen). simpl in Hlen.
    repeat case_decide; try done; apply IH; lia.
  - cbn [editorPrompt_loop]. unfold mbind, M_bind. simpl.
    unfold shown in Hkey. by rewrite Hkey.
  - cbn [editorPrompt_loop]. unfold mbind, M_bind. simpl.
    unfold shown in Hkey. by rewrite Hkey.
  - cbn [editorPrompt_loop]. unfold mbind, M_bind. simpl.
    unfold shown in Hkey. by rewrite Hkey.
  - by apply editorReadKey_not_OutOfFuel in Hkey.
Qed.

Lemma editorPrompt_not_OutOfFuel W prompt m :
  editorPrompt W prompt m ≠ OutOfFuel.
Proof. apply editorPrompt_loop_not_OutOfFuel. lia. Qed.

(** ** The dirty flag *)

(** C7, amended: [editorInsertChar], [editorInsertNewline] and
    [editorAppendRow] set the dirty flag, and so does [editorDelChar]
    whenever it changes anything; moving the cursor and prompting keep it;
    [editorOpen] clears it when the file was opened and keeps it otherwise;
    [editorSave] clears it when it returns 1, which it does only after a
    write that succeeded, and keeps it when it returns 0.  (Nothing ties
    the flag to a comparison of the rows with what was saved.) *)
Theorem dirty_flag_discipline (W : platform) :
  (∀ c E E', editorInsertChar c E = Some E' → dirty E' = 1) ∧
  (∀ E E', editorDelChar E = Some E' → E' = E ∨ dirty E' = 1) ∧
  (∀ E E', editorInsertNewline E = Some E' → dirty E' = 1) ∧
  (∀ s len E, dirty (editorAppendRow s len E) = 1) ∧
  (∀ key E E', editorMoveCursor key E = Some E' → dirty E' = dirty E) ∧
  (∀ prompt m r m',
     editorPrompt W prompt m = Ok r m' → dirty (ed m') = dirty (ed m)) ∧
  (∀ fname m m',
     editorOpen W fname m = Ok tt m' →
     (∃ content, sys_fopen W fname = inr content ∧ dirty (ed m') = 0) ∨
     (∃ err, sys_fopen W fname = inl err ∧ dirty (ed m') = dirty (ed m))) ∧
  (∀ arg m r m',
     editorSave W arg m = Ok r m' →
     (r = 1 ∧ dirty (ed m') = 0 ∧
      ∃ f buf, sys_write W f buf = None ∧
               calls m' = calls m ++ [SysOpen f; SysFtruncate f; SysWrite f buf])
     ∨ (r = 0 ∧ dirty (ed m') = dirty (ed m))).
Proof.
  repeat apply conj.
  - intros c E E'. unfold editorInsertChar.
    destruct (row_at _ _); simpl; [|done].
    case_decide; [|done]. by intros [= <-].
  - intros E E'. unfold editorDelChar.
    repeat case_decide; try (intros [= <-]; by left).
    + destruct (row_at _ _); simpl; [|done].
      case_decide; [|done]. intros [= <-]. by right.
    + destruct (row_at (rows E) (cy E)); simpl; [|done].
      destruct (row_at (rows E) (cy E - 1)); simpl; [|done].
      case_decide; [|done]. intros [= <-]. by right.
  - intros E E'. unfold editorInsertNewline.
    destruct (if decide (cx E = 0) then _ else _); simpl; [|done].
    by intros [= <-].
  - done.
  - intros key E E'. unfold editorMoveCursor, clamp_cx.
    repeat case_decide;
      repeat match goal with
        | |- context [row_at ?rs ?i] => destruct (row_at rs i); simpl
        end;
      try done; intros [= <-]; by repeat case_decide.
  - intros prompt m r m' H.
    apply editorPrompt_frame in H as (msg & -> & _). reflexivity.
  - intros fname m m'. unfold editorOpen, mbind, M_bind. simpl.
    destruct (sys_fopen W fname) as [err|content]; simpl; intros [= <-];
      [right | left]; eauto.
  - intros arg m r m'. unfold editorSave, mbind, M_bind. simpl.
    destruct (match arg with Some (b :: f) => _ | _ => _ end) as [f|];
      simpl; [|intros [= <- <-]; by right].
    destruct (sys_open W f); simpl; [intros [= <- <-]; by right|].
    destruct (build_buffer (rows (ed m))) as [buf|]; simpl; [|done].
    destruct (sys_ftruncate W f); simpl; [|intros [= <- <-]; by right].
    destruct (sys_write W f buf) eqn:Hw; simpl; intros [= <- <-];
      [by right | left].
    repeat split; try done. exists f, buf. split; [done|].
    rewrite <- !app_assoc. reflexivity.
Qed.

(** C7 on the row "ab" with unsaved changes: a save that cannot open its
    file returns 0 and leaves the flag set. *)
Lemma dirty_flag_after_failed_save :
  let W := mk_platform true [] (λ _, inl []) (λ _, Some [69]) (λ _, true)
             (λ _ _, None) in
  let m := mk_machine (mk_editorConfig 2 0 [mk_erow 2 [97; 98]] 1 [102] [])
             [] [] in
  ∃ m', editorSave W (Some [102]) m = Ok 0 m' ∧ dirty (ed m') = 1.
Proof.
  intros W m. eexists. split; [lazy; reflexivity|].
  destruct (proj2 (proj2 (proj2 (proj2 (proj2 (proj2 (proj2
              (dirty_flag_discipline W)))))))
              (Some [102]) m 0 _ eq_refl) as [(Hr & _) | (_ & Hd)].
  - discriminate Hr.
  - exact Hd.
Defined.

(** C7 as stated fails: right after a successful save the flag is clear;
    typing 'x' and deleting it again gives back the rows that were saved,
    and the flag is set. *)
Lemma dirty_after_insert_and_delete :
  let m0 := mk_machine
              (mk_editorConfig 2 0 [mk_erow 2 [97; 98]] 1 [102] []) [] [] in
  ∃ m1 E1 E2,
    editorSave (platform_with_file []) (Some [102]) m0 = Ok 1 m1 ∧
    calls m1 = [SysOpen [102]; SysFtruncate [102]; SysWrite [102] [97; 98; 10]] ∧
    dirty (ed m1) = 0 ∧
    editorInsertChar 120 (ed m1) = Some E1 ∧ editorDelChar E1 = Some E2 ∧
    rows E2 = rows (ed m1) ∧ dirty E2 = 1 ∧
    ¬ (dirty E2 ≠ 0 ↔ rows E2 ≠ rows (ed m1)).
Proof.
  intros m0. eexists. eexists. eexists.
  split; [lazy; reflexivity|]. split; [reflexivity|]. split; [reflexivity|].
  split; [lazy; reflexivity|]. split; [lazy; reflexivity|].
  split; [reflexivity|]. split; [reflexivity|].
  intros [Hdiff _]. apply Hdiff; [discriminate | reflexivity].
Qed.

(** ** Loading a file and writing it back *)

Lemma getlines_line body rest :
  Forall (λ b, b ≠ 10) body →
  getlines (body ++ 10 :: rest) = (body ++ [10]) :: getlines rest.
Proof.
  induction 1 as [|b body Hb Hbody IH]; simpl.
  - reflexivity.
  - rewrite decide_False by done. by rewrite IH.
Qed.

Lemma getlines_stored ls :
  Forall line_ok ls → getlines (stored ls) = (λ l, l.1 ++ l.2) <$> ls.
Proof.
  unfold stored.
  induction 1 as [|[body term] ls (Hbody & _ & Hterm) Hls IH]; [done|].
  csimpl in *.
  destruct Hterm as [-> | ->].
  - rewrite <- app_assoc. simpl. rewrite getlines_line by done. by rewrite IH.
  - replace ((body ++ [13; 10]) ++ mjoin ((λ l, l.1 ++ l.2) <$> ls))
      with ((body ++ [13]) ++ 10 :: mjoin ((λ l, l.1 ++ l.2) <$> ls))
      by (rewrite <- !app_assoc; done).
    rewrite getlines_line.
    + rewrite IH. by rewrite <- app_assoc.
    + apply Forall_app. split; [done|]. by repeat constructor.
Qed.

Lemma strip_loop_app n : ∀ l extra,
  (n ≤ length l)%nat → strip_loop n (l ++ extra) = strip_loop n l.
Proof.
  induction n as [|n IH]; intros l extra Hn; simpl; [done|].
  rewrite lookup_app_l by lia.
  destruct (l !! n); [|done].
  case_decide; [|done]. apply IH. lia.
Qed.

Lemma strip_loop_terminator term : ∀ body,
  Forall (λ b, b = 10 ∨ b = 13) term →
  strip_loop (length (body ++ term)) (body ++ term)
  = strip_loop (length body) body.
Proof.
  induction term as [|b term IH] using rev_ind; intros body Hterm.
  - by rewrite app_nil_r.
  - apply Forall_app in Hterm as [Hterm Hb].
    apply Forall_inv in Hb.
    rewrite app_assoc, length_app. simpl.
    replace (length (body ++ term) + 1)%nat with (S (length (body ++ term)))
      by lia.
    simpl. rewrite (list_lookup_middle (body ++ term) [] b _ eq_refl).
    rewrite decide_True by exact Hb.
    rewrite strip_loop_app by done. by apply IH.
Qed.

Lemma strip_loop_body body :
  Forall (λ b, b ≠ 10) body → last body ≠ Some 13 →
  strip_loop (length body) body = length body.
Proof.
  intros Hbody Hlast.
  destruct body as [|b body] using rev_ind; [done|].
  rewrite last_snoc in Hlast.
  apply Forall_app in Hbody as [_ Hb]. apply Forall_inv in Hb.
  rewrite length_app. simpl.
  replace (length body + 1)%nat with (S (length body)) by lia.
  simpl. rewrite (list_lookup_middle body [] b _ eq_refl).
  rewrite decide_False; [done|]. intros [? | ?]; congruence.
Qed.

Lemma load_line_stored E (l : stored_line) :
  line_ok l → load_line E (l.1 ++ l.2) = editorAppendRow l.1 (Z.of_nat (length l.1)) E.
Proof.
  intros (Hbody & Hlast & Hterm). unfold load_line.
  rewrite strip_loop_terminator, strip_loop_body by
    (try done; destruct Hterm as [-> | ->]; repeat constructor; auto).
  unfold editorAppendRow. rewrite Nat2Z.id.
  by rewrite take_app_length, firstn_all.
Qed.

Lemma foldl_load_line ls : ∀ E,
  Forall line_ok ls →
  rows (foldl load_line E ((λ l, l.1 ++ l.2) <$> ls))
  = rows E ++ (row_of ∘ fst <$> ls).
Proof.
  induction ls as [|l ls IH]; intros E Hls; simpl.
  - by rewrite app_nil_r.
  - apply Forall_cons in Hls as [Hl Hls].
    rewrite IH by done. rewrite load_line_stored by done.
    unfold editorAppendRow, row_of. simpl.
    rewrite Nat2Z.id, firstn_all, <- app_assoc. done.
Qed.

Lemma build_buffer_rows (bodies : list (list Z)) :
  build_buffer (row_of <$> bodies) = Some (mjoin ((λ b, b ++ [10]) <$> bodies)).
Proof.
  induction bodies as [|b bodies IH]; [done|].
  rewrite !fmap_cons. cbn [build_buffer].
  rewrite decide_True by done.
  rewrite IH. unfold row_of. simpl. rewrite Nat2Z.id, firstn_all.
  by rewrite <- app_assoc.
Qed.

(** C3, amended: when no stored line ends in a carriage return (and each
    is terminated by LF or CR LF), [editorOpen] stores the lines as the rows
    and the buffer a save builds right after, and hands to [write], is the
    lines each followed by one LF: the content of the file with every
    terminator turned into LF. *)
Theorem load_then_serialize
  (W : platform) (fname : list Z) (ls : list stored_line) (m : machine) :
  Forall line_ok ls → sys_fopen W fname = inr (stored ls) →
  ∃ m1,
    editorOpen W fname m = Ok tt m1 ∧
    rows (ed m1) = row_of ∘ fst <$> ls ∧
    build_buffer (rows (ed m1)) = Some (mjoin ((λ l, l.1 ++ [10]) <$> ls)) ∧
    (∀ f, f ≠ [] → sys_open W f = None → sys_ftruncate W f = true →
       ∃ r m2,
         editorSave W (Some f) m1 = Ok r m2 ∧
         calls m2 = calls m1 ++ [SysOpen f; SysFtruncate f;
                                 SysWrite f (mjoin ((λ l, l.1 ++ [10]) <$> ls))]).
Proof.
  intros Hls Hopen. eexists.
  assert (Hrows :
    rows (foldl load_line
            (set_filename (strncpy 511 fname) (editorFreeRows (ed m)))
            (getlines (stored ls)))
    = row_of ∘ fst <$> ls).
  { rewrite getlines_stored, foldl_load_line by done. done. }
  assert (Hbuf :
    build_buffer (row_of ∘ fst <$> ls)
    = Some (mjoin ((λ l, l.1 ++ [10]) <$> ls))).
  { rewrite (list_fmap_compose fst row_of), build_buffer_rows.
    by rewrite <- list_fmap_compose. }
  split; [|split; [|split]].
  - unfold editorOpen, mbind, M_bind, modify, record_call, status. simpl.
    rewrite Hopen. simpl. reflexivity.
  - simpl. exact Hrows.
  - simpl. rewrite Hrows. exact Hbuf.
  - intros f Hf Ho Ht.
    unfold editorSave, mbind, M_bind, get_ed, record_call, status, modify.
    destruct f as [|b f]; [done|]. simpl.
    rewrite Ho. simpl. rewrite Hrows, Hbuf. simpl. rewrite Ht. simpl.
    destruct (sys_write W (b :: f) _); simpl; eexists; eexists;
      (split; [reflexivity|]); simpl; rewrite <- !app_assoc; reflexivity.
Qed.

(** C3 on a file of two lines, "ab" ended by CR LF and "c" ended by LF. *)
Lemma load_then_serialize_ab_c :
  let W := platform_with_file [97; 98; 13; 10; 99; 10] in
  ∃ m1,
    editorOpen W [102] (machine_of initEditor []) = Ok tt m1 ∧
    rows (ed m1) = [mk_erow 2 [97; 98]; mk_erow 1 [99]] ∧
    build_buffer (rows (ed m1)) = Some [97; 98; 10; 99; 10] ∧
    (∀ f, f ≠ [] → sys_open W f = None → sys_ftruncate W f = true →
       ∃ r m2,
         editorSave W (Some f) m1 = Ok r m2 ∧
         calls m2 = calls m1 ++ [SysOpen f; SysFtruncate f;
                                 SysWrite f [97; 98; 10; 99; 10]]).
Proof.
  intros W.
  apply (load_then_serialize W [102] [([97; 98], [13; 10]); ([99], [10])]
           (machine_of initEditor [])).
  - repeat constructor; simpl; auto; discriminate.
  - reflexivity.
Defined.

(** C3 as stated fails: the file 'a' CR CR LF, the line 'a' CR with the
    terminator CR LF, is written back as 'a' LF; the CR of the line is
    gone with the terminator (nor is the result the line 'a' CR CR with LF). *)
Lemma load_then_serialize_drops_cr :
  let W := platform_with_file (stored [([97; 13], [13; 10])]) in
  stored [([97; 13], [13; 10])] = [97; 13; 13; 10] ∧
  ∃ m1,
    editorOpen W [102] (machine_of initEditor []) = Ok tt m1 ∧
    build_buffer (rows (ed m1)) = Some [97; 10] ∧
    build_buffer (rows (ed m1))
    ≠ Some (mjoin ((λ l : stored_line, l.1 ++ [10]) <$> [([97; 13], [13; 10])])) ∧
    build_buffer (rows (ed m1)) ≠ Some [97; 13; 13; 10].
Proof.
  intros W. split; [reflexivity|]. eexists.
  split; [lazy; reflexivity|].
  split; [reflexivity|]. split; discriminate.
Qed.

(** ** What holds of Enter and of the cursor keys *)

(** Enter inside or at the end of a row of a well-formed buffer: the row
    keeps its first [cx] bytes, a new row right after it holds the rest,
    and the cursor goes to the start of the new row. *)
Theorem editorInsertNewline_splits (E : editorConfig) (row : erow) :
  Forall sound (rows E) → row_at (rows E) (cy E) = Some row →
  0 < cx E ≤ size row →
  ∃ E',
    editorInsertNewline E = Some E' ∧
    rows E' = take (Z.to_nat (cy E)) (rows E)
              ++ mk_erow (cx E) (take (Z.to_nat (cx E)) (chars row))
              :: mk_erow (size row - cx E) (drop (Z.to_nat (cx E)) (chars row))
              :: drop (Z.to_nat (cy E + 1)) (rows E) ∧
    cy E' = cy E + 1 ∧ cx E' = 0 ∧ dirty E' = 1.
Proof.
  destruct E as [x y rs d f s]. simpl. intros Hsound Hrow Hx.
  assert (Hy : 0 ≤ y < Z.of_nat (length rs)).
  { unfold row_at in Hrow. case_decide; [|done].
    apply lookup_lt_Some in Hrow. lia. }
  destruct (list_cut rs y Hy) as (pre & r & post & Hrs & Hpre & Htake & Hdrop).
  assert (r = row) as ->.
  { rewrite Hrs, <- Hpre, row_at_middle in Hrow. congruence. }
  assert (Hs : sound row).
  { rewrite Hrs in Hsound. apply Forall_app in Hsound as [_ Hsound].
    by inversion Hsound. }
  rewrite <- Htake, <- Hdrop.
  unfold editorInsertNewline, numrows. simpl.
  rewrite decide_False by lia. rewrite Hrow. simpl.
  rewrite decide_True by (split; [done | lia]).
  simpl. eexists. split; [reflexivity|]. simpl.
  split; [|done].
  set (row' := mk_erow x _).
  unfold sound in Hs.
  assert (Htk : take (Z.to_nat (size row - x)) (drop (Z.to_nat x) (chars row))
                = drop (Z.to_nat x) (chars row))
    by (apply take_ge; rewrite length_drop; lia).
  rewrite !Htk.
  set (new := mk_erow (size row - x) _).
  replace (row_set rs y row') with (pre ++ row' :: post)
    by (rewrite Hrs, <- Hpre, row_set_middle; done).
  assert (Hlo : Z.to_nat (y + 1) = length (pre ++ [row']))
    by (rewrite length_app; simpl; lia).
  rewrite Hlo.
  replace (Z.to_nat (Z.of_nat (length ((pre ++ row' :: post) ++ [new])) - 1
                     - (y + 1)))
    with (length post) by (rewrite !length_app; simpl; lia).
  replace (y + 1) with (Z.of_nat (length (pre ++ [row']))) by lia.
  destruct post as [|b0 bs].
  - simpl shift_down.
    replace ((pre ++ [row']) ++ [new]) with ((pre ++ [row']) ++ new :: [])
      by done.
    rewrite row_set_middle. by rewrite <- app_assoc.
  - replace ((pre ++ row' :: b0 :: bs) ++ [new])
      with ((pre ++ [row']) ++ (b0 :: bs) ++ new :: [])
      by (rewrite <- !app_assoc; done).
    simpl length. rewrite shift_down_spec.
    rewrite row_set_middle. rewrite app_nil_r, <- app_assoc. done.
Qed.

(** Enter at column 0 of a row that holds no NUL byte: an empty row takes
    the place of the row, which moves down one line with its content. *)
Theorem editorInsertNewline_at_column_0 (E : editorConfig) (row : erow) :
  row_at (rows E) (cy E) = Some row → cx E = 0 →
  strdup (chars row) = chars row →
  ∃ E',
    editorInsertNewline E = Some E' ∧
    rows E' = take (Z.to_nat (cy E)) (rows E)
              ++ mk_erow 0 [] :: row :: drop (Z.to_nat (cy E + 1)) (rows E) ∧
    cy E' = cy E + 1 ∧ cx E' = 0 ∧ dirty E' = 1.
Proof.
  destruct E as [x y rs d f s]. simpl. intros Hrow -> Hnul.
  assert (Hy : 0 ≤ y < Z.of_nat (length rs)).
  { unfold row_at in Hrow. case_decide; [|done].
    apply lookup_lt_Some in Hrow. lia. }
  destruct (list_cut rs y Hy) as (pre & r & post & Hrs & Hpre & Htake & Hdrop).
  assert (r = row) as ->.
  { rewrite Hrs, <- Hpre, row_at_middle in Hrow. congruence. }
  rewrite <- Htake, <- Hdrop.
  unfold editorInsertNewline, numrows. simpl.
  set (junk := mk_erow 0 []).
  replace (Z.to_nat (Z.of_nat (length (rs ++ [junk])) - 1 - y))
    with (S (length post)) by (rewrite Hrs, !length_app; simpl; lia).
  replace (Z.to_nat y) with (length pre) by lia.
  replace (rs ++ [junk]) with (pre ++ (row :: post) ++ junk :: [])
    by (rewrite Hrs, <- !app_assoc; done).
  rewrite shift_down_spec, app_nil_r.
  assert (Hcur : row_at (pre ++ row :: row :: post) y = Some row)
    by (rewrite <- Hpre; apply row_at_middle).
  assert (Hy1 : y + 1 = Z.of_nat (length (pre ++ [row])))
    by (rewrite length_app; simpl; lia).
  assert (Hnext : row_at (pre ++ row :: row :: post) (y + 1) = Some row).
  { rewrite Hy1. 
    replace (pre ++ row :: row :: post) with ((pre ++ [row]) ++ row :: post)
      by (rewrite <- app_assoc; done).
    apply row_at_middle. }
  rewrite Hcur. simpl. rewrite Hnext. simpl.
  set (moved := mk_erow (size row) (strdup (chars row))).
  assert (Hset1 : row_set (pre ++ row :: row :: post) (y + 1) moved
                  = pre ++ row :: moved :: post).
  { rewrite Hy1.
    replace (pre ++ row :: row :: post) with ((pre ++ [row]) ++ row :: post)
      by (rewrite <- app_assoc; done).
    rewrite row_set_middle. by rewrite <- app_assoc. }
  rewrite Hset1.
  assert (Hset2 : row_set (pre ++ row :: moved :: post) y junk
                  = pre ++ junk :: moved :: post)
    by (rewrite <- Hpre; apply row_set_middle).
  rewrite Hset2.
  eexists. split; [reflexivity|]. simpl.
  unfold moved. rewrite Hnul. destruct row. repeat split; try done.
Qed.

(** Enter inside the first of the rows "ab", "cd". *)
Lemma editorInsertNewline_inside_ab :
  ∃ E', editorInsertNewline (mkE 1 0 ["ab"; "cd"]%string) = Some E' ∧
        rows E' = [mk_erow 1 [97]; mk_erow 1 [98]; mk_erow 2 [99; 100]] ∧
        cy E' = 1 ∧ cx E' = 0 ∧ dirty E' = 1.
Proof.
  apply (editorInsertNewline_splits (mkE 1 0 ["ab"; "cd"]%string)
           (mk_erow 2 [97; 98])).
  - repeat constructor.
  - reflexivity.
  - simpl. lia.
Defined.

(** Enter at the start of the second of the rows "ab", "cd". *)
Lemma editorInsertNewline_before_cd :
  ∃ E', editorInsertNewline (mkE 0 1 ["ab"; "cd"]%string) = Some E' ∧
        rows E' = [mk_erow 2 [97; 98]; mk_erow 0 []; mk_erow 2 [99; 100]] ∧
        cy E' = 2 ∧ cx E' = 0 ∧ dirty E' = 1.
Proof.
  apply (editorInsertNewline_at_column_0 (mkE 0 1 ["ab"; "cd"]%string)
           (mk_erow 2 [99; 100])); reflexivity.
Defined.

Lemma row_at_Some (rs : list erow) i r :
  Forall sound rs → row_at rs i = Some r →
  0 ≤ i < Z.of_nat (length rs) ∧ 0 ≤ size r.
Proof.
  intros Hsound Hrow. unfold row_at in Hrow. case_decide; [|done].
  pose proof (lookup_lt_Some _ _ _ Hrow).
  assert (Hs : sound r).
  { rewrite Forall_lookup in Hsound. by eapply Hsound. }
  unfold sound in Hs. lia.
Qed.

Lemma row_at_None (rs : list erow) i :
  row_at rs i = None → i < 0 ∨ Z.of_nat (length rs) ≤ i.
Proof.
  unfold row_at. case_decide; [|lia].
  intros Hnone. apply lookup_ge_None in Hnone. lia.
Qed.

(** Case analysis on every row the goal reads, with what each answer says
    about the index. *)
Ltac row_cases Hsound :=
  repeat match goal with
    | |- context [row_at ?rs ?i] =>
        let Hrow := fresh "Hrow" in
        destruct (row_at rs i) eqn:Hrow;
        [ pose proof (row_at_Some _ _ _ Hsound Hrow)
        | pose proof (row_at_None _ _ Hrow) ]
    end.

(** Every test and every row read of the goal decided, the impossible
    cases closed. *)
Ltac cursor_cases Hsound :=
  repeat (unfold numrows in *; simpl in *;
          first [ progress row_cases Hsound | case_decide ]);
  unfold numrows in *; simpl in *; try (exfalso; lia).

(** One cursor key keeps the rows, keeps [cy] between 0 and [numrows] and
    [cx] at 0 or more, and keeps [cx] within the row whenever the cursor is
    on a row of the buffer. *)
Lemma editorMoveCursor_cursor_on_rows (key : Z) (E : editorConfig) :
  Forall sound (rows E) → cursor_on_rows E →
  ∃ E', editorMoveCursor key E = Some E' ∧ rows E' = rows E ∧
        cursor_on_rows E'.
Proof.
  destruct E as [x y rs d f s].
  unfold cursor_on_rows, row_len, numrows, editorMoveCursor, clamp_cx.
  simpl. intros Hsound (Hy & Hx & Hxr).
  cursor_cases Hsound;
    (eexists; split; [reflexivity|]; simpl; split; [reflexivity|]);
    cursor_cases Hsound; repeat split; intros; simplify_eq; lia.
Qed.

(** The part of C2 that holds: after any sequence of cursor keys on a
    well-formed buffer the rows are the same, [cy] is between 0 and
    [numrows], [cx] is 0 or more, and [cx] is within the row whenever the
    cursor is on a row of the buffer. *)
Theorem move_all_cursor_on_rows (keys : list Z) : ∀ E,
  Forall sound (rows E) → cursor_on_rows E →
  ∃ E', move_all keys E = Some E' ∧ rows E' = rows E ∧ cursor_on_rows E'.
Proof.
  induction keys as [|key keys IH]; intros E Hsound HE; simpl.
  - eauto.
  - destruct (editorMoveCursor_cursor_on_rows key E Hsound HE)
      as (E1 & -> & Hrows & HE1). simpl.
    destruct (IH E1) as (E' & -> & Hrows' & HE'); [by rewrite Hrows | done |].
    exists E'. rewrite Hrows', Hrows. done.
Qed.

(** Up, Left and Right keep a valid cursor valid. *)
Theorem editorMoveCursor_valid_cursor (key : Z) (E : editorConfig) :
  key ≠ ARROW_DOWN → Forall sound (rows E) → valid_cursor E →
  ∃ E', editorMoveCursor key E = Some E' ∧ rows E' = rows E ∧
        valid_cursor E'.
Proof.
  destruct E as [x y rs d f s].
  unfold valid_cursor, row_len, numrows, editorMoveCursor, clamp_cx.
  simpl. intros Hkey Hsound (Hy & Hx).
  rewrite (decide_False (P := key = ARROW_DOWN)) by done.
  revert Hx. cursor_cases Hsound; intros Hx; cursor_cases Hsound;
    (eexists; split; [reflexivity|]; simpl; split; [reflexivity|]);
    cursor_cases Hsound; repeat split; intros; simplify_eq; lia.
Qed.

(** Down, Down, Up from the end of "abc" on the rows "abc" and "d". *)
Lemma move_all_down_down_up :
  ∃ E', move_all [ARROW_DOWN; ARROW_DOWN; ARROW_UP]
          (mkE 3 0 ["abc"; "d"]%string) = Some E' ∧
        rows E' = rows (mkE 3 0 ["abc"; "d"]%string) ∧ cursor_on_rows E'.
Proof.
  apply (move_all_cursor_on_rows [ARROW_DOWN; ARROW_DOWN; ARROW_UP]
           (mkE 3 0 ["abc"; "d"]%string)).
  - repeat constructor.
  - vm_compute. intuition discriminate.
Defined.

(** Right from the end of "abc" on the rows "abc" and "d". *)
Lemma editorMoveCursor_right_at_end :
  ∃ E', editorMoveCursor ARROW_RIGHT (mkE 3 0 ["abc"; "d"]%string) = Some E' ∧
        rows E' = rows (mkE 3 0 ["abc"; "d"]%string) ∧ valid_cursor E'.
Proof.
  apply (editorMoveCursor_valid_cursor ARROW_RIGHT
           (mkE 3 0 ["abc"; "d"]%string)).
  - discriminate.
  - repeat constructor.
  - vm_compute. intuition discriminate.
Defined.

(** ** Scenarios *)

(** The scenario of C6: on the empty buffer, typing "hi", Enter and "x"
    gives the rows "hi" and "x" and the cursor (1,1). *)
Lemma typing_hi_enter_x :
  process_keys (platform_with_file []) 4
    (machine_of initEditor [104; 105; 13; 120])
  = Ok tt (machine_of (set_dirty 1 (mkE 1 1 ["hi"; "x"]%string)) []).
Proof. reflexivity. Qed.

(** On the row "abc" with the cursor at its end, three Backspaces empty
    the row, put the cursor at (0,0) and set the dirty flag. *)
Lemma three_backspaces_on_abc :
  process_keys (platform_with_file []) 3
    (machine_of (mkE 3 0 ["abc"]%string) [127; 127; 127])
  = Ok tt (machine_of (set_dirty 1 (mkE 0 0 [EmptyString])) []).
Proof. reflexivity. Qed.

(** * The buffer as a text *)

(** ** The operations on a buffer cut around the cursor's row *)

Lemma editorInsertChar_on_row c x (pre : list erow) row post d f s :
  sound row → 0 ≤ x ≤ size row →
  editorInsertChar c
    (mk_editorConfig x (Z.of_nat (length pre)) (pre ++ row :: post) d f s)
  = Some (mk_editorConfig (x + 1) (Z.of_nat (length pre))
            (pre ++ mk_erow (size row + 1)
                      (take (Z.to_nat x) (chars row)
                       ++ to_char c :: drop (Z.to_nat x) (chars row))
                 :: post) 1 f s).
Proof.
  intros Hs Hx. unfold editorInsertChar, numrows. simpl.
  rewrite decide_False by (rewrite length_app; simpl; lia). simpl.
  rewrite row_at_middle. simpl.
  rewrite decide_True by done. by rewrite row_set_middle.
Qed.

Lemma editorInsertChar_after_rows c (rs : list erow) d f s :
  editorInsertChar c (mk_editorConfig 0 (Z.of_nat (length rs)) rs d f s)
  = Some (mk_editorConfig 1 (Z.of_nat (length rs))
            (rs ++ [mk_erow 1 [to_char c]]) 1 f s).
Proof.
  unfold editorInsertChar, numrows. simpl.
  rewrite decide_True by done. simpl.
  rewrite (row_at_middle rs _ []). simpl.
  by rewrite (row_set_middle rs _ _ []).
Qed.

Lemma editorDelChar_on_row x (pre : list erow) row post d f s :
  sound row → 0 < x ≤ size row →
  editorDelChar
    (mk_editorConfig x (Z.of_nat (length pre)) (pre ++ row :: post) d f s)
  = Some (mk_editorConfig (x - 1) (Z.of_nat (length pre))
            (pre ++ mk_erow (size row - 1)
                      (take (Z.to_nat x - 1) (chars row)
                       ++ drop (Z.to_nat x) (chars row))
                 :: post) 1 f s).
Proof.
  intros Hs Hx. unfold editorDelChar, numrows. simpl.
  rewrite decide_False by (rewrite length_app; simpl; lia).
  rewrite decide_False by lia.
  rewrite row_at_middle. simpl.
  rewrite decide_True by lia.
  rewrite decide_True by (split; [done | lia]).
  by rewrite row_set_middle.
Qed.

Lemma editorDelChar_joins (pre : list erow) prev row post d f s :
  sound prev → sound row →
  editorDelChar
    (mk_editorConfig 0 (Z.of_nat (length pre) + 1)
       (pre ++ prev :: row :: post) d f s)
  = Some (mk_editorConfig (size prev) (Z.of_nat (length pre))
            (pre ++ mk_erow (size prev + size row) (chars prev ++ chars row)
                 :: post) 1 f s).
Proof.
  intros Hp Hr. unfold editorDelChar, numrows. simpl.
  rewrite decide_False by (rewrite length_app; simpl; lia).
  rewrite decide_False by lia.
  assert (Hy : Z.of_nat (length pre) + 1 = Z.of_nat (length (pre ++ [prev])))
    by (rewrite length_app; simpl; lia).
  assert (Hrow : row_at (pre ++ prev :: row :: post) (Z.of_nat (length pre) + 1)
                 = Some row).
  { rewrite Hy.
    replace (pre ++ prev :: row :: post) with ((pre ++ [prev]) ++ row :: post)
      by (rewrite <- app_assoc; done).
    apply row_at_middle. }
  rewrite Hrow. simpl.
  replace (Z.of_nat (length pre) + 1 - 1) with (Z.of_nat (length pre)) by lia.
  rewrite row_at_middle. simpl.
  rewrite decide_True by done.
  rewrite row_set_middle.
  set (joined := mk_erow _ _).
  replace (pre ++ joined :: row :: post)
    with ((pre ++ [joined]) ++ row :: post) by (rewrite <- app_assoc; done).
  replace (Z.to_nat (Z.of_nat (length pre) + 1))
    with (length (pre ++ [joined])) by (rewrite length_app; simpl; lia).
  replace (Z.to_nat (Z.of_nat (length (pre ++ prev :: row :: post)) - 1
                     - (Z.of_nat (length pre) + 1)))
    with (length post) by (rewrite !length_app; simpl; lia).
  rewrite shift_up_removelast, <- app_assoc. done.
Qed.

Lemma editorInsertNewline_on_row x (pre : list erow) row post d f s :
  sound row → 0 < x ≤ size row →
  editorInsertNewline
    (mk_editorConfig x (Z.of_nat (length pre)) (pre ++ row :: post) d f s)
  = Some (mk_editorConfig 0 (Z.of_nat (length pre) + 1)
            (pre ++ mk_erow x (take (Z.to_nat x) (chars row))
                 :: mk_erow (size row - x) (drop (Z.to_nat x) (chars row))
                 :: post) 1 f s).
Proof.
  intros Hs Hx. unfold editorInsertNewline, numrows. simpl.
  rewrite decide_False by lia. rewrite row_at_middle. simpl.
  rewrite decide_True by (split; [done | lia]). simpl.
  unfold sound in Hs.
  assert (Htk : take (Z.to_nat (size row - x)) (drop (Z.to_nat x) (chars row))
                = drop (Z.to_nat x) (chars row))
    by (apply take_ge; rewrite length_drop; lia).
  rewrite !Htk. rewrite row_set_middle.
  set (row' := mk_erow x _). set (new := mk_erow (size row - x) _).
  assert (Hy : Z.of_nat (length pre) + 1 = Z.of_nat (length (pre ++ [row'])))
    by (rewrite length_app; simpl; lia).
  replace (Z.to_nat (Z.of_nat (length pre) + 1))
    with (length (pre ++ [row'])) by lia.
  replace (Z.to_nat (Z.of_nat (length ((pre ++ row' :: post) ++ [new])) - 1
                     - (Z.of_nat (length pre) + 1)))
    with (length post) by (rewrite !length_app; simpl; lia).
  rewrite Hy.
  destruct post as [|b0 bs].
  - simpl shift_down.
    replace ((pre ++ [row']) ++ [new]) with ((pre ++ [row']) ++ new :: [])
      by done.
    rewrite row_set_middle, <- app_assoc. done.
  - replace ((pre ++ row' :: b0 :: bs) ++ [new])
      with ((pre ++ [row']) ++ (b0 :: bs) ++ new :: [])
      by (rewrite <- !app_assoc; done).
    simpl length. rewrite shift_down_spec, row_set_middle.
    rewrite app_nil_r, <- app_assoc. done.
Qed.

Lemma editorInsertNewline_on_column_0 (pre : list erow) row post d f s :
  editorInsertNewline
    (mk_editorConfig 0 (Z.of_nat (length pre)) (pre ++ row :: post) d f s)
  = Some (mk_editorConfig 0 (Z.of_nat (length pre) + 1)
            (pre ++ mk_erow 0 []
                 :: mk_erow (size row) (strdup (chars row)) :: post) 1 f s).
Proof.
  unfold editorInsertNewline, numrows. simpl.
  set (junk := mk_erow 0 []).
  replace (Z.to_nat (Z.of_nat (length ((pre ++ row :: post) ++ [junk])) - 1
                     - Z.of_nat (length pre)))
    with (S (length post)) by (rewrite !length_app; simpl; lia).
  rewrite Nat2Z.id.
  replace ((pre ++ row :: post) ++ [junk])
    with (pre ++ (row :: post) ++ junk :: []) by (rewrite <- !app_assoc; done).
  rewrite shift_down_spec, app_nil_r.
  rewrite row_at_middle. simpl.
  assert (Hy : Z.of_nat (length pre) + 1 = Z.of_nat (length (pre ++ [row])))
    by (rewrite length_app; simpl; lia).
  replace (pre ++ row :: row :: post) with ((pre ++ [row]) ++ row :: post)
    by (rewrite <- app_assoc; done).
  rewrite Hy, row_at_middle. simpl. rewrite row_set_middle.
  rewrite <- app_assoc. simpl. rewrite row_set_middle.
  rewrite <- Hy. done.
Qed.

(** ** The text and the cursor's place in it *)

Lemma text_of_app (a b : list erow) : text_of (a ++ b) = text_of a ++ text_of b.
Proof. unfold text_of. by rewrite fmap_app, join_app. Qed.

Lemma text_of_cons r (rs : list erow) :
  text_of (r :: rs) = chars r ++ 10 :: text_of rs.
Proof. unfold text_of. simpl. by rewrite <- app_assoc. Qed.

Lemma text_of_middle (pre : list erow) r post :
  text_of (pre ++ r :: post) = text_of pre ++ chars r ++ 10 :: text_of post.
Proof. by rewrite text_of_app, text_of_cons. Qed.

Lemma build_buffer_text (rs : list erow) :
  Forall sound rs → build_buffer rs = Some (text_of rs).
Proof.
  induction 1 as [|r rs Hr Hrs IH]; [done|].
  cbn [build_buffer]. rewrite decide_True by done. rewrite IH. simpl.
  unfold sound in Hr. rewrite Hr, Nat2Z.id, firstn_all.
  by rewrite text_of_cons.
Qed.

(** A state whose cursor is on a row, written around that row. *)
Lemma cut_at_cursor (E : editorConfig) :
  0 ≤ cy E < numrows E →
  ∃ pre row post,
    E = mk_editorConfig (cx E) (Z.of_nat (length pre)) (pre ++ row :: post)
          (dirty E) (filename E) (statusmsg E).
Proof.
  destruct E as [x y rs d f s]. unfold numrows. simpl. intros Hy.
  destruct (list_cut rs y Hy) as (pre & row & post & -> & <- & _).
  by exists pre, row, post.
Qed.

Lemma offset_on_row x (pre : list erow) row post d f s :
  offset (mk_editorConfig x (Z.of_nat (length pre)) (pre ++ row :: post) d f s)
  = (length (text_of pre) + Z.to_nat x)%nat.
Proof. unfold offset. simpl. by rewrite Nat2Z.id, take_app_length. Qed.

Lemma take_text_on_row (pre : list erow) row post (k : nat) :
  (k ≤ length (chars row))%nat →
  take (length (text_of pre) + k) (text_of (pre ++ row :: post))
  = text_of pre ++ take k (chars row).
Proof.
  intros Hk. rewrite text_of_middle, take_app_add.
  by rewrite take_app_le.
Qed.

Lemma drop_text_on_row (pre : list erow) row post (k : nat) :
  (k ≤ length (chars row))%nat →
  drop (length (text_of pre) + k) (text_of (pre ++ row :: post))
  = drop k (chars row) ++ 10 :: text_of post.
Proof.
  intros Hk. rewrite text_of_middle, drop_app_add.
  by rewrite drop_app_le.
Qed.

Lemma Forall_sound_middle (pre : list erow) r post :
  Forall sound (pre ++ r :: post) ↔
  Forall sound pre ∧ sound r ∧ Forall sound post.
Proof. by rewrite Forall_app, Forall_cons. Qed.

Lemma row_len_on_row x (pre : list erow) row post d f s :
  row_len (mk_editorConfig x (Z.of_nat (length pre)) (pre ++ row :: post) d f s)
    (Z.of_nat (length pre)) = size row.
Proof. unfold row_len. simpl. by rewrite row_at_middle. Qed.

Lemma valid_cursor_on_row x (pre : list erow) row post d f s :
  0 ≤ x ≤ size row →
  valid_cursor
    (mk_editorConfig x (Z.of_nat (length pre)) (pre ++ row :: post) d f s).
Proof.
  intros Hx. unfold valid_cursor, numrows. simpl.
  rewrite row_len_on_row, length_app. simpl. lia.
Qed.

(** Typing a byte at a valid cursor of a well-formed buffer is defined and
    keeps the buffer well formed and the cursor valid.  On a row of the
    buffer it puts the byte into the text at the cursor's place and the
    number of rows stays; after the last row it adds the byte and a newline
    at the end of the text, as one more row.  The cursor's place moves on
    by one. *)
Theorem editorInsertChar_in_text (c : Z) (E : editorConfig) :
  Forall sound (rows E) → valid_cursor E →
  ∃ E',
    editorInsertChar c E = Some E' ∧
    Forall sound (rows E') ∧ valid_cursor E' ∧
    text_of (rows E')
    = take (offset E) (text_of (rows E))
      ++ to_char c :: (if decide (cy E = numrows E) then [10]
                       else drop (offset E) (text_of (rows E))) ∧
    offset E' = S (offset E) ∧
    numrows E' = (if decide (cy E = numrows E) then numrows E + 1
                  else numrows E).
Proof.
  intros Hsound [Hy Hx].
  destruct (decide (cy E = numrows E)) as [Hlast|Hrow].
  - destruct E as [x y rs d f s]. unfold numrows, row_len in *. simpl in *.
    subst y. rewrite row_at_None_ge in Hx by lia.
    assert (x = 0) as -> by lia.
    rewrite editorInsertChar_after_rows. eexists. split; [reflexivity|].
    unfold offset, numrows. simpl. rewrite Nat2Z.id, firstn_all.
    rewrite Nat.add_0_r, firstn_all.
    split; [|split; [|split; [|split]]].
    + apply Forall_app. split; [done|]. by repeat constructor.
    + replace (rs ++ [mk_erow 1 [to_char c]])
        with (rs ++ mk_erow 1 [to_char c] :: []) by done.
      apply valid_cursor_on_row. simpl. lia.
    + by rewrite text_of_app.
    + rewrite take_app_length. lia.
    + rewrite length_app. simpl. lia.
  - destruct (cut_at_cursor E) as (pre & row & post & HE); [lia|].
    rewrite HE in Hsound, Hx |- *. simpl in Hsound, Hx.
    rewrite row_len_on_row in Hx.
    apply Forall_sound_middle in Hsound as (Hpre & Hs & Hpost).
    rewrite editorInsertChar_on_row by done.
    eexists. split; [reflexivity|].
    rewrite !offset_on_row. simpl rows. unfold sound in Hs.
    rewrite take_text_on_row, drop_text_on_row by lia.
    split; [|split; [|split; [|split]]].
    + apply Forall_sound_middle. repeat split; try done.
      unfold sound. simpl. rewrite length_app, length_take. simpl.
      rewrite length_drop. lia.
    + apply valid_cursor_on_row. simpl. lia.
    + rewrite text_of_middle. simpl. by rewrite <- !app_assoc.
    + lia.
    + unfold numrows. simpl. by rewrite !length_app.
Qed.

Lemma editorInsertChar_in_text_ab :
  ∃ E',
    editorInsertChar 120 (mkE 1 0 ["ab"; "c"]%string) = Some E' ∧
    Forall sound (rows E') ∧ valid_cursor E' ∧
    text_of (rows E') = [97; 120; 98; 10; 99; 10] ∧
    offset E' = 2%nat ∧ numrows E' = 2.
Proof.
  apply (editorInsertChar_in_text 120 (mkE 1 0 ["ab"; "c"]%string)).
  - repeat constructor.
  - vm_compute. intuition discriminate.
Defined.

(** Backspace at a valid cursor of a well-formed buffer is defined and
    keeps the buffer well formed and the cursor valid.  After the last row
    and at the very start it changes nothing; everywhere else it takes out
    of the text the one byte before the cursor's place, a byte of the row
    or the newline before it, and the cursor's place moves back by one. *)
Theorem editorDelChar_in_text (E : editorConfig) :
  Forall sound (rows E) → valid_cursor E →
  ∃ E',
    editorDelChar E = Some E' ∧
    Forall sound (rows E') ∧ valid_cursor E' ∧
    (cy E = numrows E ∨ (cx E = 0 ∧ cy E = 0) → E' = E) ∧
    (cy E < numrows E → ¬ (cx E = 0 ∧ cy E = 0) →
       text_of (rows E')
       = take (offset E - 1) (text_of (rows E))
         ++ drop (offset E) (text_of (rows E)) ∧
       S (offset E') = offset E ∧ dirty E' = 1).
Proof.
  intros Hsound Hvalid. pose proof Hvalid as [Hy Hx].
  destruct (decide (cy E = numrows E)) as [Hlast|Hrow].
  { exists E. unfold editorDelChar. rewrite decide_True by done.
    repeat split; try done; lia. }
  destruct (decide (cx E = 0 ∧ cy E = 0)) as [Hstart|Hin].
  { exists E. unfold editorDelChar.
    rewrite decide_False by done. rewrite decide_True by done.
    split; [done|]. split; [done|]. split; [done|]. split; [done|].
    intros _ Hn. by destruct Hn. }
  destruct (cut_at_cursor E) as (pre & row & post & HE); [lia|].
  rewrite HE in Hsound, Hx, Hin |- *. simpl in Hsound, Hx, Hin.
  rewrite row_len_on_row in Hx.
  apply Forall_sound_middle in Hsound as (Hpre & Hs & Hpost).
  pose proof Hs as Hlen. unfold sound in Hlen.
  destruct (decide (cx E = 0)) as [Hx0|Hxpos].
  - (* the newline before the row goes *)
    destruct pre as [|prev pre _] using rev_ind; [simpl in Hin; tauto|].
    apply Forall_app in Hpre as [Hpre Hprev].
    apply Forall_inv in Hprev. pose proof Hprev as Hplen. unfold sound in Hplen.
    rewrite Hx0. rewrite <- !app_assoc. simpl.
    replace (Z.of_nat (length (pre ++ [prev]))) with (Z.of_nat (length pre) + 1)
      by (rewrite length_app; simpl; lia).
    rewrite editorDelChar_joins by done.
    eexists. split; [reflexivity|]. simpl.
    split; [|split; [|split]].
    + apply Forall_sound_middle. repeat split; try done.
      unfold sound. simpl. rewrite length_app. lia.
    + apply valid_cursor_on_row. simpl. lia.
    + intros [Hc | [_ Hc]]; exfalso; unfold numrows in Hc; simpl in Hc;
        rewrite ?length_app in Hc; simpl in Hc; lia.
    + intros _ _.
      replace (Z.of_nat (length pre) + 1)
        with (Z.of_nat (length (pre ++ [prev])))
        by (rewrite length_app; simpl; lia).
      replace (pre ++ prev :: row :: post) with ((pre ++ [prev]) ++ row :: post)
        by (rewrite <- app_assoc; done).
      rewrite !offset_on_row. simpl.
      rewrite Nat.add_0_r.
      rewrite (text_of_middle (pre ++ [prev])), drop_app_length.
      assert (Htp : text_of (pre ++ [prev]) = (text_of pre ++ chars prev) ++ [10]).
      { rewrite text_of_app, text_of_cons. simpl. by rewrite <- app_assoc. }
      rewrite Htp. rewrite (text_of_middle pre). simpl.
      replace (length ((text_of pre ++ chars prev) ++ [10%Z]) - 1)%nat
        with (length (text_of pre ++ chars prev))
        by (rewrite (length_app _ [10]); simpl; lia).
      rewrite <- (app_assoc _ [10]), take_app_length.
      rewrite <- !app_assoc.
      repeat split; try done.
      rewrite !length_app. simpl. lia.
  - (* a byte of the row goes *)
    assert (0 < cx E) by lia.
    rewrite editorDelChar_on_row by (try done; lia).
    eexists. split; [reflexivity|]. simpl.
    split; [|split; [|split]].
    + apply Forall_sound_middle. repeat split; try done.
      unfold sound. simpl. rewrite length_app, length_take, length_drop. lia.
    + apply valid_cursor_on_row. simpl. lia.
    + intros [Hc | [Hc _]]; [|done].
      exfalso. unfold numrows in Hc. simpl in Hc.
      rewrite length_app in Hc. simpl in Hc. lia.
    + intros _ _. rewrite !offset_on_row.
      replace (length (text_of pre) + Z.to_nat (cx E) - 1)%nat
        with (length (text_of pre) + (Z.to_nat (cx E) - 1))%nat by lia.
      rewrite take_text_on_row, drop_text_on_row by lia.
      rewrite text_of_middle. simpl. rewrite <- !app_assoc.
      repeat split; try done. lia.
Qed.

Lemma editorDelChar_in_text_ab_c :
  ∃ E',
    editorDelChar (mkE 0 1 ["ab"; "c"]%string) = Some E' ∧
    Forall sound (rows E') ∧ valid_cursor E' ∧
    (1 = 2 ∨ (0 = 0 ∧ 1 = 0) → E' = mkE 0 1 ["ab"; "c"]%string) ∧
    (1 < 2 → ¬ (0 = 0 ∧ 1 = 0) →
       text_of (rows E') = [97; 98; 99; 10] ∧
       S (offset E') = 3%nat ∧ dirty E' = 1).
Proof.
  apply (editorDelChar_in_text (mkE 0 1 ["ab"; "c"]%string)).
  - repeat constructor.
  - vm_compute. intuition discriminate.
Defined.

(** Enter at a cursor on a row of a well-formed buffer, the row holding no
    NUL byte when the cursor is at column 0, is defined, keeps the buffer
    well formed, puts one newline into the text at the cursor's place and
    leaves the cursor right after it, at the start of the next row; there
    is one row more. *)
Theorem editorInsertNewline_in_text (E : editorConfig) (row : erow) :
  Forall sound (rows E) → row_at (rows E) (cy E) = Some row →
  0 ≤ cx E ≤ size row → (cx E = 0 → strdup (chars row) = chars row) →
  ∃ E',
    editorInsertNewline E = Some E' ∧
    Forall sound (rows E') ∧ valid_cursor E' ∧
    text_of (rows E')
    = take (offset E) (text_of (rows E))
      ++ 10 :: drop (offset E) (text_of (rows E)) ∧
    offset E' = S (offset E) ∧
    numrows E' = numrows E + 1 ∧ cy E' = cy E + 1 ∧ cx E' = 0.
Proof.
  intros Hsound Hrow Hx Hnul.
  destruct (row_at_Some _ _ _ Hsound Hrow) as [Hy _].
  destruct (cut_at_cursor E) as (pre & r & post & HE); [done|].
  rewrite HE in Hsound, Hrow, Hx, Hnul |- *. simpl in Hsound, Hrow, Hx, Hnul.
  rewrite row_at_middle in Hrow. injection Hrow as ->.
  apply Forall_sound_middle in Hsound as (Hpre & Hs & Hpost).
  pose proof Hs as Hlen. unfold sound in Hlen.
  assert (Hnext : ∀ a b : erow,
            Z.of_nat (length pre) + 1 = Z.of_nat (length (pre ++ [a]))
            ∧ pre ++ a :: b :: post = (pre ++ [a]) ++ b :: post).
  { intros a b. rewrite length_app, <- app_assoc. simpl. split; [lia | done]. }
  destruct (decide (cx E = 0)) as [Hx0|Hxpos].
  - rewrite Hx0, editorInsertNewline_on_column_0, (Hnul Hx0).
    eexists. split; [reflexivity|].
    destruct (Hnext (mk_erow 0 []) (mk_erow (size row) (chars row)))
      as [Hy1 Hrs1].
    simpl. rewrite Hy1, Hrs1.
    split; [|split; [|split; [|split; [|split]]]].
    + apply Forall_sound_middle. repeat split; try done.
      apply Forall_app. split; [done|]. by repeat constructor.
    + apply valid_cursor_on_row. simpl. lia.
    + rewrite offset_on_row. simpl. rewrite Nat.add_0_r.
      rewrite (text_of_middle pre row), take_app_length, drop_app_length.
      rewrite text_of_middle, text_of_app, text_of_cons. simpl.
      by rewrite <- !app_assoc.
    + rewrite !offset_on_row. simpl.
      rewrite text_of_app, text_of_cons, length_app. simpl. lia.
    + unfold numrows. simpl. rewrite !length_app. simpl.
      rewrite ?length_app. simpl. lia.
    + simpl. rewrite ?length_app. simpl. split; lia.
  - rewrite editorInsertNewline_on_row by (try done; lia).
    eexists. split; [reflexivity|].
    set (r1 := mk_erow (cx E) _). set (r2 := mk_erow (size row - cx E) _).
    destruct (Hnext r1 r2) as [Hy1 Hrs1].
    simpl. rewrite Hy1, Hrs1.
    assert (Hr1 : sound r1)
      by (unfold sound, r1; simpl; rewrite length_take; lia).
    assert (Hr2 : sound r2)
      by (unfold sound, r2; simpl; rewrite length_drop; lia).
    split; [|split; [|split; [|split; [|split]]]].
    + apply Forall_sound_middle. repeat split; try done.
      apply Forall_app. split; [done|]. by repeat constructor.
    + apply valid_cursor_on_row. simpl. lia.
    + rewrite offset_on_row.
      rewrite take_text_on_row, drop_text_on_row by lia.
      rewrite text_of_middle, text_of_app, text_of_cons. simpl.
      by rewrite <- !app_assoc.
    + rewrite !offset_on_row. simpl.
      rewrite text_of_app, text_of_cons, length_app. simpl.
      rewrite length_app, length_take. simpl. lia.
    + unfold numrows. simpl. rewrite !length_app. simpl.
      rewrite ?length_app. simpl. lia.
    + simpl. rewrite ?length_app. simpl. split; lia.
Qed.

Lemma editorInsertNewline_in_text_ab :
  ∃ E',
    editorInsertNewline (mkE 1 0 ["ab"; "c"]%string) = Some E' ∧
    Forall sound (rows E') ∧ valid_cursor E' ∧
    text_of (rows E') = [97; 10; 98; 10; 99; 10] ∧
    offset E' = 2%nat ∧ numrows E' = 3 ∧ cy E' = 1 ∧ cx E' = 0.
Proof.
  apply (editorInsertNewline_in_text (mkE 1 0 ["ab"; "c"]%string)
           (mk_erow 2 [97; 98])).
  - repeat constructor.
  - reflexivity.
  - simpl. lia.
  - discriminate.
Defined.

(** ** How the operations compose *)

(** Enter and then Backspace give back the rows and the cursor, at any
    cursor on a row of a well-formed buffer (the row holding no NUL byte
    when the cursor is at column 0). *)
Theorem split_then_join_restores (E : editorConfig) (row : erow) :
  Forall sound (rows E) → row_at (rows E) (cy E) = Some row →
  0 ≤ cx E ≤ size row → (cx E = 0 → strdup (chars row) = chars row) →
  ∃ E1 E2,
    editorInsertNewline E = Some E1 ∧ editorDelChar E1 = Some E2 ∧
    rows E2 = rows E ∧ cx E2 = cx E ∧ cy E2 = cy E.
Proof.
  intros Hsound Hrow Hx Hnul.
  destruct (row_at_Some _ _ _ Hsound Hrow) as [Hy _].
  destruct (cut_at_cursor E) as (pre & r & post & HE); [done|].
  rewrite HE in Hsound, Hrow, Hx, Hnul |- *. simpl in Hsound, Hrow, Hx, Hnul.
  rewrite row_at_middle in Hrow. injection Hrow as ->.
  apply Forall_sound_middle in Hsound as (Hpre & Hs & Hpost).
  pose proof Hs as Hlen. unfold sound in Hlen.
  destruct (decide (cx E = 0)) as [Hx0|Hxpos].
  - rewrite Hx0, editorInsertNewline_on_column_0, (Hnul Hx0).
    eexists. eexists. split; [reflexivity|].
    rewrite editorDelChar_joins by done.
    split; [reflexivity|]. simpl. destruct row. done.
  - rewrite editorInsertNewline_on_row by (try done; lia).
    eexists. eexists. split; [reflexivity|].
    rewrite editorDelChar_joins
      by (unfold sound; simpl; rewrite ?length_take, ?length_drop; lia).
    split; [reflexivity|]. simpl. rewrite take_drop.
    destruct row as [sz ch]. simpl.
    replace (cx E + (sz - cx E)) with sz by lia. done.
Qed.

Lemma split_then_join_on_ab :
  ∃ E1 E2,
    editorInsertNewline (mkE 1 0 ["ab"; "c"]%string) = Some E1 ∧
    editorDelChar E1 = Some E2 ∧
    rows E2 = rows (mkE 1 0 ["ab"; "c"]%string) ∧ cx E2 = 1 ∧ cy E2 = 0.
Proof.
  apply (split_then_join_restores (mkE 1 0 ["ab"; "c"]%string)
           (mk_erow 2 [97; 98])).
  - repeat constructor.
  - reflexivity.
  - simpl. lia.
  - discriminate.
Defined.

(** Enter on the row after the last one, so also on the empty buffer,
    stores into the slot [cy + 1] of a row array that has [cy + 1] slots:
    outside the array. *)
Theorem editorInsertNewline_after_last_row (E : editorConfig) :
  cy E = numrows E → editorInsertNewline E = None.
Proof.
  destruct E as [x y rs d f s]. unfold numrows. simpl. intros ->.
  unfold editorInsertNewline, numrows. simpl.
  case_decide.
  - replace (Z.to_nat (Z.of_nat (length (rs ++ [mk_erow 0 []])) - 1
                       - Z.of_nat (length rs))) with 0%nat
      by (rewrite length_app; simpl; lia).
    simpl. rewrite (row_at_middle rs _ []). simpl.
    rewrite row_at_None_ge by (rewrite length_app; simpl; lia). done.
  - rewrite row_at_None_ge by lia. done.
Qed.

Lemma editorInsertNewline_on_empty_buffer :
  editorInsertNewline initEditor = None.
Proof. apply (editorInsertNewline_after_last_row initEditor). reflexivity. Defined.

Lemma insert_all_on_row txt : ∀ x (pre : list erow) row post d f s,
  sound row → 0 ≤ x ≤ size row →
  insert_all txt
    (mk_editorConfig x (Z.of_nat (length pre)) (pre ++ row :: post) d f s)
  = Some (mk_editorConfig (x + Z.of_nat (length txt)) (Z.of_nat (length pre))
            (pre ++ mk_erow (size row + Z.of_nat (length txt))
                      (take (Z.to_nat x) (chars row) ++ (to_char <$> txt)
                       ++ drop (Z.to_nat x) (chars row))
                 :: post)
            (match txt with [] => d | _ => 1 end) f s).
Proof.
  induction txt as [|c txt IH]; intros x pre row post d f s Hs Hx.
  - simpl. rewrite take_drop, !Z.add_0_r. destruct row. done.
  - cbn [insert_all]. rewrite editorInsertChar_on_row by done. simpl.
    set (row' := mk_erow _ _).
    assert (Hlen : size row = Z.of_nat (length (chars row))) by done.
    rewrite (IH (x + 1) pre row' post 1 f s).
    + assert (Hchars :
        take (Z.to_nat (x + 1)) (chars row') ++ (to_char <$> txt)
        ++ drop (Z.to_nat (x + 1)) (chars row')
        = take (Z.to_nat x) (chars row) ++ (to_char <$> c :: txt)
          ++ drop (Z.to_nat x) (chars row)).
      { unfold row'. simpl.
        replace (Z.to_nat (x + 1)) with (S (Z.to_nat x)) by lia.
        replace (take (Z.to_nat x) (chars row) ++ to_char c
                 :: drop (Z.to_nat x) (chars row))
          with ((take (Z.to_nat x) (chars row) ++ [to_char c])
                ++ drop (Z.to_nat x) (chars row))
          by (rewrite <- app_assoc; done).
        rewrite take_app_length', drop_app_length'
          by (rewrite length_app, length_take; simpl; lia).
        by rewrite <- !app_assoc. }
      rewrite Hchars.
      replace (x + 1 + Z.of_nat (length txt))
        with (x + Z.of_nat (length (c :: txt))) by (simpl; lia).
      replace (size row' + Z.of_nat (length txt))
        with (size row + Z.of_nat (length (c :: txt)))
        by (unfold row'; simpl; lia).
      by destruct txt.
    + unfold sound, row'. simpl.
      rewrite length_app, length_take. simpl. rewrite length_drop. lia.
    + simpl. lia.
Qed.

(** Typing a text, byte by byte, at a cursor on a row of a well-formed
    buffer puts the text into the row at the cursor, in order, moves the
    cursor to its end and leaves the other rows as they were. *)
Theorem insert_all_inserts_text (txt : list Z) (E : editorConfig) (row : erow) :
  Forall sound (rows E) → row_at (rows E) (cy E) = Some row →
  0 ≤ cx E ≤ size row →
  ∃ E',
    insert_all txt E = Some E' ∧
    rows E' = take (Z.to_nat (cy E)) (rows E)
              ++ mk_erow (size row + Z.of_nat (length txt))
                   (take (Z.to_nat (cx E)) (chars row) ++ (to_char <$> txt)
                    ++ drop (Z.to_nat (cx E)) (chars row))
              :: drop (Z.to_nat (cy E + 1)) (rows E) ∧
    cx E' = cx E + Z.of_nat (length txt) ∧ cy E' = cy E ∧
    (txt ≠ [] → dirty E' = 1).
Proof.
  intros Hsound Hrow Hx.
  destruct (row_at_Some _ _ _ Hsound Hrow) as [Hy _].
  destruct (cut_at_cursor E) as (pre & r & post & HE); [done|].
  rewrite HE in Hsound, Hrow, Hx |- *. simpl in Hsound, Hrow, Hx.
  rewrite row_at_middle in Hrow. injection Hrow as ->.
  apply Forall_sound_middle in Hsound as (_ & Hs & _).
  rewrite (insert_all_on_row txt (cx E) pre row post (dirty E) (filename E)
             (statusmsg E) Hs Hx).
  eexists. split; [reflexivity|]. simpl.
  split; [|split; [done|split; [done|by destruct txt]]].
  rewrite Nat2Z.id, take_app_length.
  replace (Z.to_nat (Z.of_nat (length pre) + 1)) with (S (length pre)) by lia.
  replace (pre ++ row :: post) with ((pre ++ [row]) ++ post)
    by (rewrite <- app_assoc; done).
  rewrite drop_app_length' by (rewrite length_app; simpl; lia).
  done.
Qed.

Lemma insert_all_xy_in_ab :
  ∃ E',
    insert_all [120; 121] (mkE 1 0 ["ab"; "c"]%string) = Some E' ∧
    rows E' = [mk_erow 4 [97; 120; 121; 98]; mk_erow 1 [99]] ∧
    cx E' = 3 ∧ cy E' = 0 ∧ ([120; 121] ≠ [] → dirty E' = 1).
Proof.
  apply (insert_all_inserts_text [120; 121] (mkE 1 0 ["ab"; "c"]%string)
           (mk_erow 2 [97; 98])).
  - repeat constructor.
  - reflexivity.
  - simpl. lia.
Defined.

Lemma delete_n_on_row n : ∀ x (pre : list erow) row post d f s,
  sound row → Z.of_nat n ≤ x ≤ size row →
  delete_n n
    (mk_editorConfig x (Z.of_nat (length pre)) (pre ++ row :: post) d f s)
  = Some (mk_editorConfig (x - Z.of_nat n) (Z.of_nat (length pre))
            (pre ++ mk_erow (size row - Z.of_nat n)
                      (take (Z.to_nat x - n) (chars row)
                       ++ drop (Z.to_nat x) (chars row))
                 :: post)
            (match n with O => d | _ => 1 end) f s).
Proof.
  induction n as [|n IH]; intros x pre row post d f s Hs Hx.
  - simpl. rewrite Nat.sub_0_r, take_drop, !Z.sub_0_r. destruct row. done.
  - cbn [delete_n]. rewrite editorDelChar_on_row by (try done; lia). simpl.
    set (row' := mk_erow _ _).
    assert (Hlen : size row = Z.of_nat (length (chars row))) by done.
    rewrite (IH (x - 1) pre row' post 1 f s).
    + assert (Hchars :
        take (Z.to_nat (x - 1) - n) (chars row')
        ++ drop (Z.to_nat (x - 1)) (chars row')
        = take (Z.to_nat x - S n) (chars row) ++ drop (Z.to_nat x) (chars row)).
      { unfold row'. simpl.
        replace (Z.to_nat (x - 1)) with (Z.to_nat x - 1)%nat by lia.
        rewrite take_app_le by (rewrite length_take; lia).
        rewrite take_take.
        rewrite drop_app_length' by (rewrite length_take; lia).
        f_equal. f_equal. lia. }
      rewrite Hchars.
      replace (x - 1 - Z.of_nat n) with (x - Z.of_nat (S n)) by lia.
      replace (size row' - Z.of_nat n) with (size row - Z.of_nat (S n))
        by (unfold row'; simpl; lia).
      by destruct n.
    + unfold sound, row'. simpl.
      rewrite length_app, length_take, length_drop. lia.
    + simpl. lia.
Qed.

(** [n] Backspaces with at least [n] bytes of the row before the cursor
    take exactly these [n] bytes out of the row, move the cursor back by
    [n] and leave the other rows as they were. *)
Theorem delete_n_removes_bytes (n : nat) (E : editorConfig) (row : erow) :
  Forall sound (rows E) → row_at (rows E) (cy E) = Some row →
  Z.of_nat n ≤ cx E ≤ size row →
  ∃ E',
    delete_n n E = Some E' ∧
    rows E' = take (Z.to_nat (cy E)) (rows E)
              ++ mk_erow (size row - Z.of_nat n)
                   (take (Z.to_nat (cx E) - n) (chars row)
                    ++ drop (Z.to_nat (cx E)) (chars row))
              :: drop (Z.to_nat (cy E + 1)) (rows E) ∧
    cx E' = cx E - Z.of_nat n ∧ cy E' = cy E ∧
    (n ≠ 0%nat → dirty E' = 1).
Proof.
  intros Hsound Hrow Hx.
  destruct (row_at_Some _ _ _ Hsound Hrow) as [Hy _].
  destruct (cut_at_cursor E) as (pre & r & post & HE); [done|].
  rewrite HE in Hsound, Hrow, Hx |- *. simpl in Hsound, Hrow, Hx.
  rewrite row_at_middle in Hrow. injection Hrow as ->.
  apply Forall_sound_middle in Hsound as (_ & Hs & _).
  rewrite (delete_n_on_row n (cx E) pre row post (dirty E) (filename E)
             (statusmsg E) Hs Hx).
  eexists. split; [reflexivity|]. simpl.
  split; [|split; [done|split; [done|by destruct n]]].
  rewrite Nat2Z.id, take_app_length.
  replace (Z.to_nat (Z.of_nat (length pre) + 1)) with (S (length pre)) by lia.
  replace (pre ++ row :: post) with ((pre ++ [row]) ++ post)
    by (rewrite <- app_assoc; done).
  rewrite drop_app_length' by (rewrite length_app; simpl; lia).
  done.
Qed.

Lemma delete_n_two_of_abc :
  ∃ E',
    delete_n 2 (mkE 3 0 ["abc"]%string) = Some E' ∧
    rows E' = [mk_erow 1 [97]] ∧ cx E' = 1 ∧ cy E' = 0 ∧
    (2%nat ≠ 0%nat → dirty E' = 1).
Proof.
  apply (delete_n_removes_bytes 2 (mkE 3 0 ["abc"]%string) (mk_erow 3 [97; 98; 99])).
  - repeat constructor.
  - reflexivity.
  - simpl. lia.
Defined.

(** * More of the key decoder and of the dispatcher *)

Lemma read_loop_stdin inp : ∀ (E : editorConfig) s1 s2 cs,
  read_loop inp (mk_machine E s1 cs) = read_loop inp (mk_machine E s2 cs).
Proof.
  induction inp as [|[b| |[|]] inp IH]; intros E s1 s2 cs; simpl; try done;
    apply IH.
Qed.

Lemma read_loop_waiting waits : ∀ inp m,
  Forall waiting waits → read_loop (waits ++ inp) m = read_loop inp m.
Proof.
  induction waits as [|r waits IH]; intros inp m Hw; [done|].
  apply Forall_cons in Hw as [[-> | ->] Hw]; simpl; by apply IH.
Qed.

(** The first loop of [editorReadKey] reads on through timeouts and
    [EAGAIN]: the key is the one decoded from what follows them.  Any other
    read error ends the program with status 1, and when nothing but
    timeouts comes the function never returns. *)
Theorem editorReadKey_waits
  (W : platform) (E : editorConfig) (cs : list sys_call)
  (waits : list read_result) :
  Forall waiting waits →
  (∀ inp, editorReadKey W (mk_machine E (waits ++ inp) cs)
          = editorReadKey W (mk_machine E inp cs)) ∧
  (∀ inp, editorReadKey W (mk_machine E (waits ++ RErr false :: inp) cs)
          = Exit 1 (mk_machine E inp cs)) ∧
  editorReadKey W (mk_machine E waits cs) = Starved.
Proof.
  intros Hw. split; [|split].
  - intros inp. unfold editorReadKey, mbind, M_bind. simpl.
    rewrite read_loop_waiting by done.
    by rewrite (read_loop_stdin inp E (waits ++ inp) inp cs).
  - intros inp. unfold editorReadKey, mbind, M_bind. simpl.
    rewrite read_loop_waiting by done. reflexivity.
  - unfold editorReadKey, mbind, M_bind. simpl.
    rewrite <- (app_nil_r waits) at 1.
    rewrite read_loop_waiting by done. reflexivity.
Qed.

Lemma editorReadKey_waits_then_x :
  (∀ inp, editorReadKey (platform_with_file [])
            (mk_machine initEditor ([RNone; RErr true; RNone] ++ inp) [])
          = editorReadKey (platform_with_file []) (mk_machine initEditor inp []))
  ∧ (∀ inp, editorReadKey (platform_with_file [])
              (mk_machine initEditor
                 ([RNone; RErr true; RNone] ++ RErr false :: inp) [])
            = Exit 1 (mk_machine initEditor inp []))
  ∧ editorReadKey (platform_with_file [])
      (mk_machine initEditor [RNone; RErr true; RNone] []) = Starved.
Proof.
  apply (editorReadKey_waits (platform_with_file []) initEditor []
           [RNone; RErr true; RNone]).
  repeat (constructor; [unfold waiting; auto|]). constructor.
Defined.

(** After ESC the decoder takes two more bytes when they are there,
    whatever they are: when they begin no sequence it knows, both are
    dropped and the key is ESC. *)
Theorem editorReadKey_swallows_two_bytes
  (W : platform) (E : editorConfig) (cs : list sys_call) :
  (∀ a b rest,
     a ≠ 91 →
     editorReadKey W (mk_machine E (RByte 27 :: RByte a :: RByte b :: rest) cs)
     = Ok 27 (mk_machine E rest cs)) ∧
  (∀ b rest,
     ¬ 48 ≤ b ≤ 57 → ¬ 65 ≤ b ≤ 68 →
     editorReadKey W (mk_machine E (RByte 27 :: RByte 91 :: RByte b :: rest) cs)
     = Ok 27 (mk_machine E rest cs)).
Proof.
  split.
  - intros a b rest Ha.
    unfold editorReadKey, mbind, M_bind, sys_read, set_stdin. simpl.
    rewrite decide_False by done. reflexivity.
  - intros b rest Hd Hl.
    unfold editorReadKey, mbind, M_bind, sys_read, set_stdin. simpl.
    rewrite (decide_False (P := 48 ≤ b ≤ 57)) by done.
    rewrite (decide_False (P := b = 65)) by lia.
    rewrite (decide_False (P := b = 66)) by lia.
    rewrite (decide_False (P := b = 67)) by lia.
    rewrite (decide_False (P := b = 68)) by lia.
    reflexivity.
Qed.

Lemma editorReadKey_swallows_examples :
  editorReadKey (platform_with_file []) (machine_of initEditor [27; 97; 98; 99])
  = Ok 27 (machine_of initEditor [99]) ∧
  editorReadKey (platform_with_file []) (machine_of initEditor [27; 91; 72; 99])
  = Ok 27 (machine_of initEditor [99]).
Proof.
  destruct (editorReadKey_swallows_two_bytes (platform_with_file [])
              initEditor []) as [Hother Hbracket].
  split.
  - apply (Hother 97 98 [RByte 99]). lia.
  - apply (Hbracket 72 [RByte 99]); lia.
Defined.

(** The Delete key (ESC '[' '3' '~') and the bytes 127 and 8 all do what
    Backspace does: [editorDelChar], which takes out the byte before the
    cursor. *)
Theorem delete_key_is_backspace
  (W : platform) (E : editorConfig) (rest : list read_result)
  (cs : list sys_call) :
  editorProcessKeypress W
    (mk_machine E (RByte 27 :: RByte 91 :: RByte 51 :: RByte 126 :: rest) cs)
  = modify_opt editorDelChar (mk_machine E rest cs) ∧
  editorProcessKeypress W (mk_machine E (RByte 127 :: rest) cs)
  = modify_opt editorDelChar (mk_machine E rest cs) ∧
  editorProcessKeypress W (mk_machine E (RByte 8 :: rest) cs)
  = modify_opt editorDelChar (mk_machine E rest cs).
Proof.
  split; [|split].
  - reflexivity.
  - unfold editorProcessKeypress.
    rewrite (bind_Ok _ _ _ _ _ (editorReadKey_plain W E 127 rest cs ltac:(lia))).
    unfold char_to_int. rewrite andb_false_r. reflexivity.
  - unfold editorProcessKeypress.
    rewrite (bind_Ok _ _ _ _ _ (editorReadKey_plain W E 8 rest cs ltac:(lia))).
    unfold char_to_int. rewrite andb_false_r. reflexivity.
Qed.

(** ** The prompt as a line editor *)

Lemma editorPrompt_loop_line W prompt rest cs keys :
  Forall line_key_ok keys →
  ∀ fuel buf buflen (E : editorConfig),
    (length keys < fuel)%nat →
    buflen = 0 ∨ Z.of_nat (length buf) = buflen →
    ∃ msg,
      editorPrompt_loop W fuel prompt buf buflen
        (mk_machine E ((RByte <$> keys) ++ RByte 13 :: rest) cs)
      = Ok (if decide (foldl line_key (take (Z.to_nat buflen) buf) keys = [])
            then None
            else Some (foldl line_key (take (Z.to_nat buflen) buf) keys))
          (mk_machine (set_statusmsg msg E) rest cs).
Proof.
  intros Hkeys.
  induction Hkeys as [|k keys Hk Hkeys IH]; intros fuel buf buflen E Hfuel Hbuf;
    (destruct fuel as [|fuel]; [simpl in Hfuel; lia|]).
  - eexists. simpl fmap. simpl app.
    erewrite editorPrompt_loop_key
      by (unfold shown; simpl; apply editorReadKey_plain; lia).
    unfold char_to_int. rewrite andb_false_r.
    rewrite (decide_True (P := 13 = 13)) by done. simpl foldl.
    destruct Hbuf as [-> | Hlen].
    + rewrite decide_False by lia. simpl. reflexivity.
    + destruct (decide (buflen = 0)) as [-> | Hne].
      * rewrite decide_False by lia. simpl. reflexivity.
      * rewrite decide_True by done.
        rewrite take_ge by lia.
        rewrite decide_False by (destruct buf; [simpl in Hlen; lia | done]).
        reflexivity.
  - assert (Hplain : k ≠ 27 ∧ char_to_int W k = k ∧ k ≠ 13).
    { unfold char_to_int.
      destruct Hk as [Hp | [-> | ->]];
        [unfold printable in Hp|..];
        rewrite (bool_decide_eq_false_2 (128 ≤ _)) by lia;
        rewrite andb_false_r; lia. }
    destruct Hplain as (H27 & Hc & H13).
    simpl fmap. simpl app.
    erewrite editorPrompt_loop_key
      by (unfold shown; simpl; by apply editorReadKey_plain).
    rewrite Hc. rewrite (decide_False (P := k = 13)) by done.
    cbn [foldl].
    destruct (decide (k = 127 ∨ k = 8)) as [Hbs | Hnbs].
    + (* a byte goes *)
      replace (line_key (take (Z.to_nat buflen) buf) k)
        with (removelast (take (Z.to_nat buflen) buf))
        by (unfold line_key; by rewrite decide_True).
      destruct (decide (buflen = 0)) as [-> | Hne].
      * rewrite decide_False by lia.
        destruct (IH fuel buf 0 (set_statusmsg (snprintf 80 (prompt ++ buf)) E))
          as [msg Hmsg]; [simpl in Hfuel; lia | by left |].
        exists msg. simpl take in *. exact Hmsg.
      * destruct Hbuf as [? | Hlen]; [done|].
        rewrite decide_True by done.
        destruct (IH fuel (take (Z.to_nat (buflen - 1)) buf) (buflen - 1)
                    (set_statusmsg (snprintf 80 (prompt ++ buf)) E))
          as [msg Hmsg]; [simpl in Hfuel; lia | |].
        { right. rewrite length_take. lia. }
        exists msg.
        rewrite take_take, Nat.min_id in Hmsg.
        rewrite (take_ge buf (Z.to_nat buflen)) by lia.
        rewrite removelast_firstn_len.
        replace (Init.Nat.pred (length buf)) with (Z.to_nat (buflen - 1)) by lia.
        exact Hmsg.
    + (* a byte comes *)
      replace (line_key (take (Z.to_nat buflen) buf) k)
        with (take (Z.to_nat buflen) buf ++ [k])
        by (unfold line_key; by rewrite decide_False).
      destruct Hk as [Hp | Hbs]; [|tauto].
      destruct (printable_key W k Hp) as (_ & Ht & _ & _ & _ & Hpr & Hlt).
      rewrite (decide_True (P := iscntrl k = false ∧ k < 128)) by done.
      rewrite Ht.
      destruct (IH fuel (take (Z.to_nat buflen) buf ++ [k]) (buflen + 1)
                  (set_statusmsg (snprintf 80 (prompt ++ buf)) E))
        as [msg Hmsg]; [simpl in Hfuel; lia | |].
      { right. rewrite length_app, length_take. simpl.
        destruct Hbuf as [-> | Hlen]; simpl; lia. }
      exists msg.
      rewrite (take_ge (take (Z.to_nat buflen) buf ++ [k])) in Hmsg
        by (rewrite length_app, length_take; simpl; lia).
      exact Hmsg.
Qed.

(** The prompt is a line editor: the keys before Enter, printable bytes
    and Backspaces (127 or 8), are applied in order to an empty line, a
    Backspace on the empty line doing nothing; Enter answers with the line
    when it is not empty and with no answer when it is.  Only the status
    line of the editor has changed. *)
Theorem editorPrompt_edits_line
  (W : platform) (prompt keys : list Z) (E : editorConfig)
  (rest : list read_result) (cs : list sys_call) :
  Forall line_key_ok keys →
  ∃ msg,
    editorPrompt W prompt
      (mk_machine E ((RByte <$> keys) ++ RByte 13 :: rest) cs)
    = Ok (if decide (typed_line keys = []) then None
          else Some (typed_line keys))
        (mk_machine (set_statusmsg msg E) rest cs).
Proof.
  intros Hkeys. unfold editorPrompt. simpl stdin.
  destruct (editorPrompt_loop_line W prompt rest cs keys Hkeys
              (S (length ((RByte <$> keys) ++ RByte 13 :: rest)))
              (fresh_block W) 0 E) as [msg Hmsg].
  - rewrite length_app, length_fmap. simpl. lia.
  - by left.
  - exists msg. exact Hmsg.
Qed.

Lemma editorPrompt_edits_line_example :
  ∃ msg,
    editorPrompt (platform_with_file []) (bytes_of_string "Open file: ")
      (machine_of initEditor [97; 120; 127; 98; 13; 99])
    = Ok (Some [97; 98]) (machine_of (set_statusmsg msg initEditor) [99]).
Proof.
  apply (editorPrompt_edits_line (platform_with_file [])
           (bytes_of_string "Open file: ") [97; 120; 127; 98] initEditor
           [RByte 99] []).
  repeat (constructor; [unfold line_key_ok, printable; lia|]). constructor.
Defined.

(** Whenever [editorPrompt] returns, it has changed nothing of the editor
    but the status message and has called nothing of the file system; and
    the loop is never cut short by the fuel of the model. *)
Theorem editorPrompt_changes_status_only
  (W : platform) (prompt : list Z) (m : machine) :
  editorPrompt W prompt m ≠ OutOfFuel ∧
  ∀ r m',
    editorPrompt W prompt m = Ok r m' →
    ∃ msg, ed m' = set_statusmsg msg (ed m) ∧ calls m' = calls m ∧
           (length (stdin m') < length (stdin m))%nat.
Proof.
  split; [apply editorPrompt_not_OutOfFuel|].
  intros r m' H.
  destruct (editorPrompt_frame W prompt m r m' H) as (msg & Hed & Hcalls).
  exists msg. repeat split; try done.
  unfold editorPrompt in H. cbn [editorPrompt_loop] in H.
  apply bind_Ok_inv in H as ([] & m0 & Hshow & H).
  injection Hshow as <-.
  apply bind_Ok_inv in H as (c & m1 & Hkey & H).
  apply editorReadKey_frame in Hkey as (_ & _ & Hlen). simpl in Hlen.
  clear Hed Hcalls.
  assert (Hmono : ∀ fuel buf buflen m2 r2 m3,
            editorPrompt_loop W fuel prompt buf buflen m2 = Ok r2 m3 →
            (length (stdin m3) < length (stdin m2))%nat).
  { clear. induction fuel as [|fuel IH]; intros buf buflen m2 r2 m3 H; [done|].
    cbn [editorPrompt_loop] in H.
    apply bind_Ok_inv in H as ([] & m0 & Hshow & H).
    injection Hshow as <-.
    apply bind_Ok_inv in H as (c & m1 & Hkey & H).
    apply editorReadKey_frame in Hkey as (_ & _ & Hlen). simpl in Hlen.
    repeat case_decide;
      first [ apply mret_Ok_inv in H as [_ <-]; lia
            | apply IH in H; lia ]. }
  repeat case_decide;
    first [ apply mret_Ok_inv in H as [_ <-]; lia
          | apply Hmono in H; lia ].
Qed.

(** ** Saving *)

Lemma editorSave_steps W b f (m : machine) :
  Forall sound (rows (ed m)) →
  editorSave W (Some (b :: f)) m
  = match sys_open W (b :: f) with
    | Some err =>
        Ok 0 (mk_machine
                (set_statusmsg
                   (snprintf 80 (bytes_of_string "Can't save: " ++ err)) (ed m))
                (stdin m) (calls m ++ [SysOpen (b :: f)]))
    | None =>
        if sys_ftruncate W (b :: f) then
          match sys_write W (b :: f) (text_of (rows (ed m))) with
          | Some err =>
              Ok 0 (mk_machine
                      (set_statusmsg
                         (snprintf 80 (bytes_of_string "Write error: " ++ err))
                         (ed m))
                      (stdin m)
                      (calls m ++ [SysOpen (b :: f); SysFtruncate (b :: f);
                                   SysWrite (b :: f) (text_of (rows (ed m)))]))
          | None =>
              Ok 1 (mk_machine
                      (set_statusmsg
                         (snprintf 80 (bytes_of_string "Saved to " ++ b :: f))
                         (set_dirty 0 (ed m)))
                      (stdin m)
                      (calls m ++ [SysOpen (b :: f); SysFtruncate (b :: f);
                                   SysWrite (b :: f) (text_of (rows (ed m)))]))
          end
        else
          Ok 0 (mk_machine (ed m) (stdin m)
                  (calls m ++ [SysOpen (b :: f); SysFtruncate (b :: f)]))
    end.
Proof.
  intros Hsound.
  unfold editorSave, mbind, M_bind, get_ed, record_call, status, modify. simpl.
  destruct (sys_open W (b :: f)); simpl; [done|].
  rewrite build_buffer_text by done. simpl.
  destruct (sys_ftruncate W (b :: f)); simpl.
  - destruct (sys_write W (b :: f) _); simpl; by rewrite <- !app_assoc.
  - by rewrite <- !app_assoc.
Qed.

(** A save whose calls all succeed writes the text of the rows, each row
    and a newline after it, to the file, clears the dirty flag, reports
    "Saved to" with the name and returns 1; the rows, the cursor and the
    file name stay. *)
Theorem editorSave_writes_text (W : platform) (f : list Z) (m : machine) :
  f ≠ [] → Forall sound (rows (ed m)) →
  sys_open W f = None → sys_ftruncate W f = true →
  sys_write W f (text_of (rows (ed m))) = None →
  ∃ m',
    editorSave W (Some f) m = Ok 1 m' ∧
    calls m' = calls m ++ [SysOpen f; SysFtruncate f;
                           SysWrite f (text_of (rows (ed m)))] ∧
    dirty (ed m') = 0 ∧
    statusmsg (ed m') = snprintf 80 (bytes_of_string "Saved to " ++ f) ∧
    rows (ed m') = rows (ed m) ∧ cx (ed m') = cx (ed m) ∧
    cy (ed m') = cy (ed m) ∧ filename (ed m') = filename (ed m) ∧
    stdin m' = stdin m.
Proof.
  intros Hf Hsound Ho Ht Hw. destruct f as [|b f]; [done|].
  rewrite editorSave_steps by done. rewrite Ho, Ht, Hw.
  eexists. split; [reflexivity|]. done.
Qed.

Lemma editorSave_writes_text_ab :
  let m := mk_machine (mk_editorConfig 1 1 [mk_erow 2 [97; 98]; mk_erow 1 [99]]
                         1 [102] []) [] [] in
  ∃ m',
    editorSave (platform_with_file []) (Some [102]) m = Ok 1 m' ∧
    calls m' = [SysOpen [102]; SysFtruncate [102];
                SysWrite [102] [97; 98; 10; 99; 10]] ∧
    dirty (ed m') = 0 ∧
    statusmsg (ed m') = bytes_of_string "Saved to f" ∧
    rows (ed m') = rows (ed m) ∧ cx (ed m') = 1 ∧ cy (ed m') = 1 ∧
    filename (ed m') = [102] ∧ stdin m' = [].
Proof.
  intros m.
  apply (editorSave_writes_text (platform_with_file []) [102] m);
    try reflexivity; [discriminate | repeat constructor].
Defined.

(** How a save fails.  When the file cannot be opened, nothing is
    truncated or written and the status line says "Can't save"; when the
    truncation fails, nothing is written and the editor state, status line
    included, is as before; when the write falls short, the file has been
    truncated already and the status line says "Write error".  Each time
    the function returns 0 and the rows, the cursor, the file name and the
    dirty flag are as before. *)
Theorem editorSave_failures (W : platform) (f : list Z) (m : machine) :
  f ≠ [] → Forall sound (rows (ed m)) →
  (∀ err,
     sys_open W f = Some err →
     editorSave W (Some f) m
     = Ok 0 (mk_machine
               (set_statusmsg
                  (snprintf 80 (bytes_of_string "Can't save: " ++ err)) (ed m))
               (stdin m) (calls m ++ [SysOpen f]))) ∧
  (sys_open W f = None → sys_ftruncate W f = false →
     editorSave W (Some f) m
     = Ok 0 (mk_machine (ed m) (stdin m)
               (calls m ++ [SysOpen f; SysFtruncate f]))) ∧
  (∀ err,
     sys_open W f = None → sys_ftruncate W f = true →
     sys_write W f (text_of (rows (ed m))) = Some err →
     editorSave W (Some f) m
     = Ok 0 (mk_machine
               (set_statusmsg
                  (snprintf 80 (bytes_of_string "Write error: " ++ err)) (ed m))
               (stdin m)
               (calls m ++ [SysOpen f; SysFtruncate f;
                            SysWrite f (text_of (rows (ed m)))]))).
Proof.
  intros Hf Hsound. destruct f as [|b f]; [done|].
  rewrite editorSave_steps by done.
  split; [|split].
  - by intros err ->.
  - by intros -> ->.
  - by intros err -> -> ->.
Qed.

Lemma editorSave_failures_example :
  let W := mk_platform true [] (λ _, inl []) (λ _, None) (λ _, false)
             (λ _ _, None) in
  let m := mk_machine (mk_editorConfig 0 0 [mk_erow 1 [97]] 1 [102] [33])
             [] [] in
  editorSave W (Some [102]) m
  = Ok 0 (mk_machine (ed m) [] [SysOpen [102]; SysFtruncate [102]]).
Proof.
  intros W m.
  apply (proj1 (proj2 (editorSave_failures W [102] m ltac:(discriminate)
                         ltac:(repeat constructor))));
    reflexivity.
Defined.

(** With a null or empty argument [editorSave] saves under the file name of
    the editor; when there is none either, it returns 0 with the message
    "No filename" and calls nothing. *)
Theorem editorSave_without_name (W : platform) (m : machine) :
  editorSave W None m = editorSave W (Some (filename (ed m))) m ∧
  editorSave W (Some []) m = editorSave W (Some (filename (ed m))) m ∧
  (filename (ed m) = [] →
   editorSave W None m
   = Ok 0 (mk_machine
             (set_statusmsg (snprintf 80 (bytes_of_string "No filename")) (ed m))
             (stdin m) (calls m))).
Proof.
  unfold editorSave, mbind, M_bind, get_ed. simpl.
  repeat split.
  - by destruct (filename (ed m)).
  - by destruct (filename (ed m)).
  - intros ->. reflexivity.
Qed.

Lemma editorSave_without_name_example :
  editorSave (platform_with_file []) None (machine_of initEditor [])
  = Ok 0 (machine_of (set_statusmsg (bytes_of_string "No filename") initEditor) []).
Proof.
  apply (proj2 (proj2 (editorSave_without_name (platform_with_file [])
                         (machine_of initEditor [])))).
  reflexivity.
Defined.

(** [editorSave] on a well-formed buffer always returns, with the rows, the
    cursor and the file name as before and the input untouched. *)
Lemma editorSave_returns W f (m : machine) :
  f ≠ [] → Forall sound (rows (ed m)) →
  ∃ r m',
    editorSave W (Some f) m = Ok r m' ∧
    rows (ed m') = rows (ed m) ∧ cx (ed m') = cx (ed m) ∧
    cy (ed m') = cy (ed m) ∧ filename (ed m') = filename (ed m) ∧
    stdin m' = stdin m ∧
    (∃ more, calls m' = calls m ++ SysOpen f :: more) ∧
    (r = 1 ∧ dirty (ed m') = 0 ∨ r = 0 ∧ dirty (ed m') = dirty (ed m)).
Proof.
  intros Hf Hsound. destruct f as [|b f]; [done|].
  rewrite editorSave_steps by done.
  destruct (sys_open W (b :: f)); [|destruct (sys_ftruncate W (b :: f));
    [destruct (sys_write W (b :: f) _)|]];
    eexists; eexists; (split; [reflexivity|]); simpl;
    (split; [done|]); (split; [done|]); (split; [done|]); (split; [done|]);
    (split; [done|]); (split; [eexists; reflexivity|]); auto.
Qed.

(** ** The control keys: Ctrl-S, Ctrl-X, Ctrl-O *)

Lemma line_key_printable line k :
  Forall printable line → line_key_ok k → Forall printable (line_key line k).
Proof.
  intros Hline Hk. unfold line_key. case_decide as Hbs.
  - rewrite removelast_firstn_len. by apply Forall_take.
  - apply Forall_app. split; [done|].
    destruct Hk as [Hp | Hk]; [|tauto]. constructor; [done | constructor].
Qed.

Lemma typed_line_printable keys :
  Forall line_key_ok keys → Forall printable (typed_line keys).
Proof.
  unfold typed_line.
  assert (H : ∀ acc, Forall printable acc → Forall line_key_ok keys →
                     Forall printable (foldl line_key acc keys)).
  { induction keys as [|k keys IH]; intros acc Hacc Hkeys; [done|].
    apply Forall_cons in Hkeys as [Hk Hkeys]. simpl.
    apply IH; [by apply line_key_printable | done]. }
  by apply H.
Qed.

Lemma strncpy_nonempty (l : list Z) : l ≠ [] → strncpy 511 l ≠ [].
Proof.
  unfold strncpy. destruct l as [|b l]; [done|]. intros _.
  destruct (Z.to_nat 511) eqn:Hn; [lia | done].
Qed.

(** The prompt answered with a line and Enter. *)
Lemma editorPrompt_typed W prompt keys (E : editorConfig) rest cs :
  Forall line_key_ok keys →
  ∃ msg,
    editorPrompt W prompt
      (mk_machine E ((RByte <$> keys) ++ RByte 13 :: rest) cs)
    = Ok (match typed_line keys with [] => None | b :: l => Some (b :: l) end)
        (mk_machine (set_statusmsg msg E) rest cs).
Proof.
  intros Hkeys. unfold editorPrompt. simpl stdin.
  destruct (editorPrompt_loop_line W prompt rest cs keys Hkeys
              (S (length ((RByte <$> keys) ++ RByte 13 :: rest)))
              (fresh_block W) 0 E) as [msg Hmsg].
  - rewrite length_app, length_fmap. simpl. lia.
  - by left.
  - exists msg. rewrite Hmsg.
    change (take (Z.to_nat 0) (fresh_block W)) with (@nil Z).
    fold (typed_line keys).
    destruct (typed_line keys); [by rewrite decide_True | by rewrite decide_False].
Qed.

Lemma editorPrompt_loop_keys_escape W prompt rest cs keys :
  Forall line_key_ok keys → unavailable rest →
  ∀ fuel buf buflen (E : editorConfig),
    (length keys < fuel)%nat →
    ∃ msg,
      editorPrompt_loop W fuel prompt buf buflen
        (mk_machine E ((RByte <$> keys) ++ RByte 27 :: rest) cs)
      = Ok None (mk_machine (set_statusmsg msg E) (tail rest) cs).
Proof.
  intros Hkeys Hrest.
  induction Hkeys as [|k keys Hk Hkeys IH]; intros fuel buf buflen E Hfuel;
    (destruct fuel as [|fuel]; [simpl in Hfuel; lia|]).
  - eexists. simpl fmap. simpl app.
    erewrite editorPrompt_loop_key
      by (unfold shown; simpl; by apply editorReadKey_lone_escape).
    reflexivity.
  - assert (Hplain : k ≠ 27 ∧ char_to_int W k = k ∧ k ≠ 13).
    { unfold char_to_int.
      destruct Hk as [Hp | [-> | ->]];
        [unfold printable in Hp|..];
        rewrite (bool_decide_eq_false_2 (128 ≤ _)) by lia;
        rewrite andb_false_r; lia. }
    destruct Hplain as (H27 & Hc & H13).
    simpl fmap. simpl app.
    erewrite editorPrompt_loop_key
      by (unfold shown; simpl; by apply editorReadKey_plain).
    rewrite Hc. rewrite (decide_False (P := k = 13)) by done.
    assert (Hfuel' : (length keys < fuel)%nat) by (simpl in Hfuel; lia).
    destruct (decide (k = 127 ∨ k = 8)) as [Hbs | Hnbs].
    + destruct (decide (buflen ≠ 0));
        (edestruct IH as [msg Hmsg]; [exact Hfuel'|]; exists msg; exact Hmsg).
    + destruct Hk as [Hp | Hbs]; [|tauto].
      destruct (printable_key W k Hp) as (_ & _ & _ & _ & _ & Hpr & Hlt).
      rewrite (decide_True (P := iscntrl k = false ∧ k < 128)) by done.
      edestruct IH as [msg Hmsg]; [exact Hfuel'|]. exists msg. exact Hmsg.
Qed.

(** The prompt left with Escape. *)
Lemma editorPrompt_escaped W prompt keys (E : editorConfig) rest cs :
  Forall line_key_ok keys → unavailable rest →
  ∃ msg,
    editorPrompt W prompt
      (mk_machine E ((RByte <$> keys) ++ RByte 27 :: rest) cs)
    = Ok None (mk_machine (set_statusmsg msg E) (tail rest) cs).
Proof.
  intros Hkeys Hrest. unfold editorPrompt. simpl stdin.
  apply editorPrompt_loop_keys_escape; try done.
  rewrite length_app, length_fmap. simpl. lia.
Qed.

Ltac key_test P :=
  first [ rewrite (decide_True (P := P)) by lia
        | rewrite (decide_False (P := P)) by lia ].

(** [editorProcessKeypress] reads the control byte [b] and reaches its case. *)
Ltac dispatch W b :=
  unfold editorProcessKeypress;
  erewrite bind_Ok by (apply editorReadKey_plain; lia);
  cbv beta;
  replace (char_to_int W b) with b
    by (unfold char_to_int; by rewrite andb_false_r);
  key_test (b = 17); key_test (b = 13); key_test (b = 127 ∨ b = 8);
  key_test (b = 19); try key_test (b = 15); try key_test (b = 24);
  try (erewrite (bind_Ok get_ed) by reflexivity; cbv beta; cbn [ed]).

(** Ctrl-S on a well-formed buffer.  With a file name bound it saves under
    that name without asking.  With none it asks "Save as: "; a line typed
    and Enter bind the line, cut to 511 bytes, as the file name and save
    under it, and the name stays bound whether or not the save succeeds;
    Enter on an empty line changes the status line only. *)
Theorem ctrl_s_saves
  (W : platform) (E : editorConfig) (rest : list read_result)
  (cs : list sys_call) :
  Forall sound (rows E) →
  (filename E ≠ [] →
   ∃ r m',
     editorSave W (Some (filename E)) (mk_machine E rest cs) = Ok r m' ∧
     editorProcessKeypress W (mk_machine E (RByte 19 :: rest) cs) = Ok tt m') ∧
  (∀ keys,
     filename E = [] → Forall line_key_ok keys → typed_line keys ≠ [] →
     ∃ msg r m',
       editorSave W (Some (strncpy 511 (typed_line keys)))
         (mk_machine (set_filename (strncpy 511 (typed_line keys))
                        (set_statusmsg msg E)) rest cs)
       = Ok r m' ∧
       editorProcessKeypress W
         (mk_machine E (RByte 19 :: (RByte <$> keys) ++ RByte 13 :: rest) cs)
       = Ok tt m' ∧
       filename (ed m') = strncpy 511 (typed_line keys) ∧
       rows (ed m') = rows E) ∧
  (∀ keys,
     filename E = [] → Forall line_key_ok keys → typed_line keys = [] →
     ∃ msg,
       editorProcessKeypress W
         (mk_machine E (RByte 19 :: (RByte <$> keys) ++ RByte 13 :: rest) cs)
       = Ok tt (mk_machine (set_statusmsg msg E) rest cs)).
Proof.
  intros Hsound. split; [|split].
  - intros Hf.
    destruct (editorSave_returns W (filename E) (mk_machine E rest cs) Hf Hsound)
      as (r & m' & Hsave & _).
    exists r, m'. split; [done|].
    dispatch W 19.
    destruct (filename E) as [|b f] eqn:Hname; [done|].
    by erewrite bind_Ok by exact Hsave.
  - intros keys Hf Hkeys Hline.
    destruct (editorPrompt_typed W (bytes_of_string "Save as: ") keys E rest cs
                Hkeys) as [msg Hmsg].
    pose proof (strncpy_nonempty _ Hline) as Hname.
    destruct (editorSave_returns W (strncpy 511 (typed_line keys))
                (mk_machine (set_filename (strncpy 511 (typed_line keys))
                               (set_statusmsg msg E)) rest cs) Hname Hsound)
      as (r & m' & Hsave & Hrows & _ & _ & Hfn & _).
    exists msg, r, m'. split; [done|]. split; [|done].
    dispatch W 19. rewrite Hf.
    erewrite bind_Ok by exact Hmsg. cbv beta.
    destruct (typed_line keys) as [|b l] eqn:Hl; [done|].
    erewrite bind_Ok by reflexivity. cbv beta.
    erewrite (bind_Ok get_ed) by reflexivity. cbv beta. cbn [ed filename set_filename].
    by erewrite bind_Ok by exact Hsave.
  - intros keys Hf Hkeys Hline.
    destruct (editorPrompt_typed W (bytes_of_string "Save as: ") keys E rest cs
                Hkeys) as [msg Hmsg].
    exists msg. dispatch W 19. rewrite Hf.
    erewrite bind_Ok by exact Hmsg. by rewrite Hline.
Qed.

Lemma ctrl_s_saves_as_f :
  ∃ msg r m',
    editorSave (platform_with_file []) (Some [102])
      (mk_machine (set_filename [102] (set_statusmsg msg (mkE 1 0 ["ab"]%string)))
         [] [])
    = Ok r m' ∧
    editorProcessKeypress (platform_with_file [])
      (machine_of (mkE 1 0 ["ab"]%string) [19; 102; 13])
    = Ok tt m' ∧
    filename (ed m') = [102] ∧ rows (ed m') = [mk_erow 2 [97; 98]].
Proof.
  apply (proj1 (proj2 (ctrl_s_saves (platform_with_file [])
                         (mkE 1 0 ["ab"]%string) [] []
                         ltac:(repeat constructor))) [102]).
  - reflexivity.
  - repeat (constructor; [unfold line_key_ok, printable; lia|]). constructor.
  - discriminate.
Defined.

(** Ctrl-X leaves the editor without saving and without a call to the
    file system when the buffer is not dirty, and also when it is dirty and
    the question "Save changes before exit?" is answered with Enter on an
    empty line, with a line that does not start with y or Y, or with
    Escape. *)
Theorem ctrl_x_exits_without_saving
  (W : platform) (E : editorConfig) (rest : list read_result)
  (cs : list sys_call) :
  (dirty E = 0 →
   editorProcessKeypress W (mk_machine E (RByte 24 :: rest) cs)
   = Exit 0 (mk_machine E rest cs)) ∧
  (∀ keys,
     dirty E ≠ 0 → Forall line_key_ok keys →
     (∀ a l, typed_line keys = a :: l → a ≠ 121 ∧ a ≠ 89) →
     ∃ msg,
       editorProcessKeypress W
         (mk_machine E (RByte 24 :: (RByte <$> keys) ++ RByte 13 :: rest) cs)
       = Exit 0 (mk_machine (set_statusmsg msg E) rest cs)) ∧
  (∀ keys,
     dirty E ≠ 0 → Forall line_key_ok keys → unavailable rest →
     ∃ msg,
       editorProcessKeypress W
         (mk_machine E (RByte 24 :: (RByte <$> keys) ++ RByte 27 :: rest) cs)
       = Exit 0 (mk_machine (set_statusmsg msg E) (tail rest) cs)).
Proof.
  split; [|split].
  - intros Hd. dispatch W 24.
    rewrite (decide_False (P := dirty E ≠ 0)) by (intros H; done).
    reflexivity.
  - intros keys Hd Hkeys Hno.
    destruct (editorPrompt_typed W
                (bytes_of_string "Save changes before exit? (y/N): ")
                keys E rest cs Hkeys) as [msg Hmsg].
    exists msg. dispatch W 24.
    rewrite (decide_True (P := dirty E ≠ 0)) by done.
    erewrite bind_Ok by exact Hmsg. cbv beta.
    destruct (typed_line keys) as [|a l]; [reflexivity|].
    destruct (Hno a l eq_refl).
    rewrite (decide_False (P := a = 121 ∨ a = 89)) by lia. reflexivity.
  - intros keys Hd Hkeys Hrest.
    destruct (editorPrompt_escaped W
                (bytes_of_string "Save changes before exit? (y/N): ")
                keys E rest cs Hkeys Hrest) as [msg Hmsg].
    exists msg. dispatch W 24.
    rewrite (decide_True (P := dirty E ≠ 0)) by done.
    erewrite bind_Ok by exact Hmsg. reflexivity.
Qed.

(** Ctrl-X on a dirty, well-formed buffer, the question answered with a
    line that starts with y or Y.  With a file name bound the buffer is
    saved under it and the editor exits, also when the save fails (then
    with the buffer still dirty).  With no name bound it asks "Save as: ":
    a line typed there is bound as the name, the buffer is saved and the
    editor exits; Enter on an empty line or Escape there end the key with
    nothing saved and the editor running. *)
Theorem ctrl_x_yes_saves_then_exits
  (W : platform) (E : editorConfig) (keys : list Z)
  (rest : list read_result) (cs : list sys_call) :
  dirty E ≠ 0 → Forall sound (rows E) → Forall line_key_ok keys →
  (∃ l, typed_line keys = 121 :: l ∨ typed_line keys = 89 :: l) →
  (filename E ≠ [] →
   ∃ msg r m',
     editorSave W (Some (filename E))
       (mk_machine (set_statusmsg msg E) rest cs) = Ok r m' ∧
     editorProcessKeypress W
       (mk_machine E (RByte 24 :: (RByte <$> keys) ++ RByte 13 :: rest) cs)
     = Exit 0 m' ∧
     (r = 0 → dirty (ed m') ≠ 0)) ∧
  (∀ keys2,
     filename E = [] → Forall line_key_ok keys2 →
     (typed_line keys2 ≠ [] →
      ∃ msg r m',
        editorSave W (Some (strncpy 511 (typed_line keys2)))
          (mk_machine (set_filename (strncpy 511 (typed_line keys2))
                         (set_statusmsg msg E)) rest cs)
        = Ok r m' ∧
        editorProcessKeypress W
          (mk_machine E
             (RByte 24 :: (RByte <$> keys) ++
              RByte 13 :: (RByte <$> keys2) ++ RByte 13 :: rest) cs)
        = Exit 0 m') ∧
     (typed_line keys2 = [] →
      ∃ msg,
        editorProcessKeypress W
          (mk_machine E
             (RByte 24 :: (RByte <$> keys) ++
              RByte 13 :: (RByte <$> keys2) ++ RByte 13 :: rest) cs)
        = Ok tt (mk_machine (set_statusmsg msg E) rest cs)) ∧
     (unavailable rest →
      ∃ msg,
        editorProcessKeypress W
          (mk_machine E
             (RByte 24 :: (RByte <$> keys) ++
              RByte 13 :: (RByte <$> keys2) ++ RByte 27 :: rest) cs)
        = Ok tt (mk_machine (set_statusmsg msg E) (tail rest) cs))).
Proof.
  intros Hd Hsound Hkeys Hyes.
  assert (Hans : ∃ a l, typed_line keys = a :: l ∧ (a = 121 ∨ a = 89)).
  { destruct Hyes as [l [H | H]]; eauto. }
  clear Hyes. destruct Hans as (a & l & Hline & Ha).
  assert (Hstart : ∀ rest',
    ∃ msg,
      editorProcessKeypress W
        (mk_machine E (RByte 24 :: (RByte <$> keys) ++ RByte 13 :: rest') cs)
      = (E0 ← get_ed;
         match filename E0 with
         | [] =>
             fn ← editorPrompt W (bytes_of_string "Save as: ");
             match fn with
             | Some fn =>
                 modify (set_filename (strncpy 511 fn));;
                 E1 ← get_ed;
                 editorSave W (Some (filename E1));; exit 0
             | None => mret tt
             end
         | _ :: _ => editorSave W (Some (filename E0));; exit 0
         end) (mk_machine (set_statusmsg msg E) rest' cs)).
  { intros rest'.
    destruct (editorPrompt_typed W
                (bytes_of_string "Save changes before exit? (y/N): ")
                keys E rest' cs Hkeys) as [msg Hmsg].
    exists msg. dispatch W 24.
    rewrite (decide_True (P := dirty E ≠ 0)) by done.
    erewrite bind_Ok by exact Hmsg. cbv beta. rewrite Hline.
    rewrite (decide_True (P := a = 121 ∨ a = 89)) by done. reflexivity. }
  split.
  - intros Hf. destruct (Hstart rest) as [msg Hgo]. exists msg.
    destruct (editorSave_returns W (filename E)
                (mk_machine (set_statusmsg msg E) rest cs) Hf Hsound)
      as (r & m' & Hsave & _ & _ & _ & _ & _ & _ & Hr).
    exists r, m'. split; [done|]. split.
    + rewrite Hgo. erewrite (bind_Ok get_ed) by reflexivity. cbv beta.
      cbn [ed filename set_statusmsg].
      destruct (filename E) as [|b f] eqn:Hname; [done|].
      by erewrite bind_Ok by exact Hsave.
    + intros ->. destruct Hr as [[? _] | [_ Hr]]; [done|].
      rewrite Hr. done.
  - intros keys2 Hf Hkeys2. split; [|split].
    + intros Hline2.
      destruct (Hstart ((RByte <$> keys2) ++ RByte 13 :: rest)) as [msg0 Hgo].
      destruct (editorPrompt_typed W (bytes_of_string "Save as: ") keys2
                  (set_statusmsg msg0 E) rest cs Hkeys2) as [msg Hmsg].
      pose proof (strncpy_nonempty _ Hline2) as Hname.
      destruct (editorSave_returns W (strncpy 511 (typed_line keys2))
                  (mk_machine (set_filename (strncpy 511 (typed_line keys2))
                                 (set_statusmsg msg E)) rest cs) Hname Hsound)
        as (r & m' & Hsave & _).
      exists msg, r, m'. split; [done|].
      rewrite Hgo. erewrite (bind_Ok get_ed) by reflexivity. cbv beta.
      cbn [ed filename set_statusmsg]. rewrite Hf.
      erewrite bind_Ok by exact Hmsg. cbv beta.
      destruct (typed_line keys2) as [|b2 l2] eqn:Hl2; [done|].
      erewrite bind_Ok by reflexivity. cbv beta.
      erewrite (bind_Ok get_ed) by reflexivity. cbv beta.
      cbn [ed filename set_filename].
      by erewrite bind_Ok by exact Hsave.
    + intros Hline2.
      destruct (Hstart ((RByte <$> keys2) ++ RByte 13 :: rest)) as [msg0 Hgo].
      destruct (editorPrompt_typed W (bytes_of_string "Save as: ") keys2
                  (set_statusmsg msg0 E) rest cs Hkeys2) as [msg Hmsg].
      exists msg.
      rewrite Hgo. erewrite (bind_Ok get_ed) by reflexivity. cbv beta.
      cbn [ed filename set_statusmsg]. rewrite Hf.
      erewrite bind_Ok by exact Hmsg. by rewrite Hline2.
    + intros Hrest.
      destruct (Hstart ((RByte <$> keys2) ++ RByte 27 :: rest)) as [msg0 Hgo].
      destruct (editorPrompt_escaped W (bytes_of_string "Save as: ") keys2
                  (set_statusmsg msg0 E) rest cs Hkeys2 Hrest) as [msg Hmsg].
      exists msg.
      rewrite Hgo. erewrite (bind_Ok get_ed) by reflexivity. cbv beta.
      cbn [ed filename set_statusmsg]. rewrite Hf.
      by erewrite bind_Ok by exact Hmsg.
Qed.

Lemma ctrl_x_yes_failed_save :
  let W := mk_platform true [] (λ _, inl []) (λ _, Some [101]) (λ _, true)
             (λ _ _, None) in
  let E := set_filename [102] (set_dirty 1 (mkE 1 0 ["ab"]%string)) in
  ∃ msg r m',
    editorSave W (Some [102]) (mk_machine (set_statusmsg msg E) [] []) = Ok r m' ∧
    editorProcessKeypress W (machine_of E [24; 121; 13]) = Exit 0 m' ∧
    (r = 0 → dirty (ed m') ≠ 0).
Proof.
  intros W E.
  apply (proj1 (ctrl_x_yes_saves_then_exits W E [121] [] []
                  ltac:(discriminate) ltac:(repeat constructor)
                  ltac:(repeat constructor; unfold line_key_ok, printable; lia)
                  ltac:(exists []; left; reflexivity))).
  discriminate.
Defined.

(** ** Loading *)

Lemma editorOpen_steps W f (m : machine) :
  editorOpen W f m
  = Ok tt
      (mk_machine
         (match sys_fopen W f with
          | inl err =>
              set_statusmsg
                (snprintf 80 (bytes_of_string "Could not open: " ++ err))
                (set_filename (strncpy 511 f) (editorFreeRows (ed m)))
          | inr content =>
              set_statusmsg (snprintf 80 (bytes_of_string "Opened " ++ f))
                (set_dirty 0
                   (foldl load_line
                      (set_filename (strncpy 511 f) (editorFreeRows (ed m)))
                      (getlines content)))
          end)
         (stdin m) (calls m ++ [SysFopen f])).
Proof.
  unfold editorOpen, mbind, M_bind, modify, record_call, status. simpl.
  by destruct (sys_fopen W f).
Qed.

(** The loading loop appends rows and touches nothing else but the dirty
    flag. *)
Lemma foldl_load_line_frame lines : ∀ E,
  rows (foldl load_line E lines)
  = rows E ++ rows (foldl load_line initEditor lines) ∧
  cx (foldl load_line E lines) = cx E ∧
  cy (foldl load_line E lines) = cy E ∧
  filename (foldl load_line E lines) = filename E ∧
  statusmsg (foldl load_line E lines) = statusmsg E.
Proof.
  induction lines as [|l lines IH]; intros E.
  - simpl. by rewrite app_nil_r.
  - simpl.
    destruct (IH (load_line E l)) as (Hr & Hx & Hy & Hf & Hs).
    destruct (IH (load_line initEditor l)) as (Hr0 & _).
    rewrite Hr, Hr0, Hx, Hy, Hf, Hs.
    unfold load_line, editorAppendRow. simpl. by rewrite <- app_assoc.
Qed.

Lemma loaded_rows_of_lines lines :
  rows (foldl load_line initEditor lines)
  = (λ l, mk_erow (Z.of_nat (strip_loop (length l) l))
            (take (strip_loop (length l) l) l)) <$> lines.
Proof.
  induction lines as [|l lines IH]; [done|].
  rewrite fmap_cons, <- IH. simpl foldl.
  rewrite (proj1 (foldl_load_line_frame lines (load_line initEditor l))).
  unfold load_line, editorAppendRow. simpl. by rewrite Nat2Z.id.
Qed.

Lemma strip_loop_le n : ∀ l, (strip_loop n l ≤ n)%nat.
Proof.
  induction n as [|n IH]; intros l; simpl; [done|].
  destruct (l !! n); [|done].
  case_decide; [|done]. specialize (IH l). lia.
Qed.

(** Where the stripping loop stops, the byte before is no line end. *)
Lemma strip_loop_last n : ∀ l,
  (n ≤ length l)%nat →
  last (take (strip_loop n l) l) ≠ Some 10 ∧
  last (take (strip_loop n l) l) ≠ Some 13.
Proof.
  induction n as [|n IH]; intros l Hn; simpl; [done|].
  destruct (l !! n) as [b|] eqn:Hb.
  - case_decide as Hend; [apply IH; lia|].
    rewrite (take_S_r _ _ _ Hb), last_snoc.
    split; intros [= ->]; tauto.
  - apply lookup_ge_None in Hb. lia.
Qed.

Lemma getlines_lines content :
  Forall (λ l, ∃ body, Forall (λ b, b ≠ 10) body ∧
                       (l = body ++ [10] ∨ l = body ∧ body ≠ []))
    (getlines content).
Proof.
  induction content as [|b rest IH]; simpl; [done|].
  case_decide as Hb.
  - subst b. constructor; [|done]. exists []. split; [done | by left].
  - destruct (getlines rest) as [|l ls].
    + constructor; [|done]. exists [b]. split; [by repeat constructor|].
      by right.
    + apply Forall_cons in IH as [(body & Hbody & Hl) Hls].
      constructor; [|done]. exists (b :: body). split; [by constructor|].
      destruct Hl as [-> | [-> _]]; [by left | by right].
Qed.

Lemma loaded_row_plain l :
  (∃ body, Forall (λ b, b ≠ 10) body ∧ (l = body ++ [10] ∨ l = body ∧ body ≠ [])) →
  sound (mk_erow (Z.of_nat (strip_loop (length l) l))
           (take (strip_loop (length l) l) l)) ∧
  plain_row (mk_erow (Z.of_nat (strip_loop (length l) l))
               (take (strip_loop (length l) l) l)).
Proof.
  intros (body & Hbody & Hl).
  pose proof (strip_loop_le (length l) l) as Hle.
  pose proof (strip_loop_last (length l) l ltac:(lia)) as [_ H13].
  split; [|split]; simpl.
  - unfold sound. simpl. rewrite length_take. lia.
  - destruct Hl as [-> | [-> _]]; [|by apply Forall_take].
    assert (Hk : (strip_loop (length (body ++ [10%Z])) (body ++ [10%Z])
                  ≤ length body)%nat).
    { rewrite length_app. simpl.
      replace (length body + 1)%nat with (S (length body)) by lia.
      simpl. rewrite (list_lookup_middle body [] 10 _ eq_refl).
      rewrite decide_True by auto. apply strip_loop_le. }
    rewrite take_app_le by done. by apply Forall_take.
  - done.
Qed.

Lemma loaded_rows_plain content :
  Forall sound (loaded_rows content) ∧ Forall plain_row (loaded_rows content).
Proof.
  unfold loaded_rows. rewrite loaded_rows_of_lines.
  pose proof (getlines_lines content) as H.
  induction H as [|l ls Hl Hls [IH1 IH2]]; [done|].
  rewrite fmap_cons. destruct (loaded_row_plain l Hl).
  split; by constructor.
Qed.

Lemma length_getlines content :
  length (getlines content)
  = (length (filter (λ b, b = 10%Z) content)
     + (if decide (content = [] ∨ last content = Some 10%Z) then 0 else 1))%nat.
Proof.
  induction content as [|b rest IH]; [done|].
  assert (Hlast : last (b :: rest)
                  = match rest with [] => Some b | _ => last rest end)
    by (by destruct rest).
  simpl getlines. rewrite filter_cons.
  destruct (decide (b = 10)) as [-> | Hb].
  - simpl length. rewrite IH.
    destruct rest as [|c rest]; [done|].
    rewrite Hlast.
    destruct (decide (c :: rest = [] ∨ last (c :: rest) = Some 10))
      as [[? | Hl] | Hn]; [done | |].
    + rewrite (decide_True (P := 10 :: c :: rest = [] ∨ _)) by auto. lia.
    + rewrite (decide_False (P := 10 :: c :: rest = [] ∨ _))
        by (intros [? | ?]; [done | tauto]).
      lia.
  - destruct rest as [|c rest].
    + simpl. rewrite decide_False; [done|].
      intros [? | Hl]; [done|]. injection Hl as ->. done.
    + rewrite Hlast.
      assert (Hne : getlines (c :: rest) ≠ []).
      { simpl. destruct (decide (c = 10)); [done|].
        by destruct (getlines rest). }
      destruct (getlines (c :: rest)) as [|l ls] eqn:Hg; [done|].
      simpl length. simpl length in IH. rewrite IH.
      destruct (decide (c :: rest = [] ∨ last (c :: rest) = Some 10))
        as [[? | Hl] | Hn]; [done | |].
      * rewrite (decide_True (P := b :: c :: rest = [] ∨ _)) by auto. lia.
      * rewrite (decide_False (P := b :: c :: rest = [] ∨ _))
          by (intros [? | ?]; [done | tauto]).
        lia.
Qed.

Lemma getlines_no_newline tail :
  Forall (λ b, b ≠ 10) tail →
  getlines tail = if decide (tail = []) then [] else [tail].
Proof.
  induction 1 as [|b tail Hb Htail IH]; [done|].
  simpl. rewrite (decide_False (P := b = 10)) by done. rewrite IH.
  by destruct tail.
Qed.

Lemma getlines_stored_app ls tail :
  Forall line_stored ls →
  getlines (stored ls ++ tail) = ((λ l, l.1 ++ l.2) <$> ls) ++ getlines tail.
Proof.
  unfold stored.
  induction 1 as [|[body term] ls ([Hbody _] & n & Hterm) Hls IH]; [done|].
  csimpl in *. subst term.
  replace (((body ++ replicate n 13 ++ [10])
            ++ mjoin ((λ l, l.1 ++ l.2) <$> ls)) ++ tail)
    with ((body ++ replicate n 13)
          ++ 10 :: (mjoin ((λ l, l.1 ++ l.2) <$> ls) ++ tail))
    by (rewrite <- !app_assoc; done).
  rewrite getlines_line.
  - rewrite IH. by rewrite <- !app_assoc.
  - apply Forall_app. split; [done|].
    apply Forall_replicate. done.
Qed.

(** The stripping loop takes the end of a line away and nothing else. *)
Lemma strip_loop_line body term :
  line_body_ok body → Forall (λ b, b = 10 ∨ b = 13) term →
  strip_loop (length (body ++ term)) (body ++ term) = length body.
Proof.
  intros [Hbody Hlast] Hterm.
  rewrite strip_loop_terminator by done. by apply strip_loop_body.
Qed.

Lemma loaded_rows_lines ls body crs :
  Forall line_stored ls → line_body_ok body → Forall (λ b, b = 13) crs →
  loaded_rows (stored ls ++ body ++ crs) = rows_of_lines ls body crs.
Proof.
  intros Hls Hbody Hcrs.
  assert (Hends : Forall (λ b, b = 10 ∨ b = 13) crs)
    by (eapply Forall_impl; [exact Hcrs | auto]).
  unfold loaded_rows, rows_of_lines.
  rewrite loaded_rows_of_lines, getlines_stored_app by done.
  rewrite fmap_app. f_equal.
  - rewrite <- list_fmap_compose. apply Forall_fmap_ext_1.
    eapply Forall_impl; [exact Hls|].
    intros [b t] (Hb & n & Ht). simpl in *.
    rewrite strip_loop_line; [|done|].
    + unfold row_of. by rewrite take_app_length.
    + subst t. apply Forall_app. split; [|by repeat constructor; auto].
      apply Forall_replicate. auto.
  - rewrite getlines_no_newline.
    + case_decide; [done|]. simpl.
      rewrite strip_loop_line by done.
      unfold row_of. by rewrite take_app_length.
    + apply Forall_app. split; [apply Hbody|].
      eapply Forall_impl; [exact Hcrs|]. intros ? ->. done.
Qed.

(** Every file is made of such lines. *)
Lemma content_lines content :
  ∃ ls body crs,
    Forall line_stored ls ∧ line_body_ok body ∧ Forall (λ b, b = 13) crs ∧
    content = stored ls ++ body ++ crs.
Proof.
  assert (Hput : ∀ b (body crs : list Z),
    b ≠ 10 → line_body_ok body → Forall (λ c, c = 13) crs →
    ∃ body' crs',
      line_body_ok body' ∧ Forall (λ c, c = 13) crs' ∧
      b :: body ++ crs = body' ++ crs' ∧
      (∀ n, crs = replicate n 13 → ∃ n', crs' = replicate n' 13)).
  { intros b body crs Hb [Hlf Hcr] Hcrs.
    destruct body as [|c body].
    - destruct (decide (b = 13)) as [-> | H13].
      + exists [], (13 :: crs). split; [by split|]. split; [by constructor|].
        split; [done|]. intros n ->. by exists (S n).
      + exists [b], crs. split.
        { split; [by repeat constructor|]. simpl. by intros [= ?]. }
        split; [done|]. split; [done|]. intros n ->. by exists n.
    - exists (b :: c :: body), crs. split.
      { split; [by constructor|]. exact Hcr. }
      split; [done|]. split; [done|]. intros n ->. by exists n. }
  induction content as [|b rest IH].
  - exists [], [], []. by repeat split.
  - destruct IH as (ls & body & crs & Hls & Hbody & Hcrs & ->).
    destruct (decide (b = 10)) as [-> | Hb].
    + exists (([], [10]) :: ls), body, crs.
      split; [|split; [done|split; [done|reflexivity]]].
      constructor; [|done]. split; [by split|]. by exists 0%nat.
    + destruct ls as [|[lb lt] ls].
      * destruct (Hput b body crs Hb Hbody Hcrs)
          as (body' & crs' & Hbody' & Hcrs' & Heq & _).
        exists [], body', crs'.
        split; [done|]. split; [done|]. split; [done|]. exact Heq.
      * apply Forall_cons in Hls as [(Hlb & n & Hlt) Hls]. simpl in *.
        subst lt.
        destruct (Hput b lb (replicate n 13) Hb Hlb)
          as (body' & crs' & Hbody' & _ & Heq & Hrep).
        { apply Forall_replicate. done. }
        destruct (Hrep n eq_refl) as [n' ->].
        exists ((body', replicate n' 13 ++ [10]) :: ls), body, crs.
        split; [|split; [done|split; [done|]]].
        { constructor; [|done]. split; [done|]. by exists n'. }
        assert (Hs : ∀ x t,
                  stored ((x, t ++ [10]) :: ls) ++ body ++ crs
                  = (x ++ t) ++ 10 :: stored ls ++ body ++ crs).
        { intros x t. unfold stored. csimpl. by rewrite <- !app_assoc. }
        rewrite !Hs, app_comm_cons. by rewrite Heq.
Qed.

(** A file that can be opened replaces the rows by the lines of the file,
    whatever the buffer held.  Every file is a sequence of lines ended by
    a newline and possibly a last line that the end of the file cuts; the
    bytes of a line are followed by any number of carriage returns.
    There is a row for each line and it holds the bytes of the
    line, without the carriage returns and the newline; a last line that
    is cut gives a row as well.  The rows are well formed, the buffer is
    not dirty, the file name is the path cut to 511 bytes, and the cursor
    is where it was. *)
Theorem editorOpen_loads_rows
  (W : platform) (f : list Z) (m : machine) :
  (∀ ls body crs,
     Forall line_stored ls → line_body_ok body → Forall (λ b, b = 13) crs →
     sys_fopen W f = inr (stored ls ++ body ++ crs) →
     ∃ m1,
       editorOpen W f m = Ok tt m1 ∧
       rows (ed m1) = rows_of_lines ls body crs ∧
       loaded_rows (stored ls ++ body ++ crs) = rows_of_lines ls body crs ∧
       Forall sound (rows (ed m1)) ∧ Forall plain_row (rows (ed m1)) ∧
       numrows (ed m1)
       = Z.of_nat (length (filter (λ b, b = 10) (stored ls ++ body ++ crs)))
         + (if decide (stored ls ++ body ++ crs = []
                       ∨ last (stored ls ++ body ++ crs) = Some 10)
            then 0 else 1) ∧
       dirty (ed m1) = 0 ∧ filename (ed m1) = strncpy 511 f ∧
       statusmsg (ed m1) = snprintf 80 (bytes_of_string "Opened " ++ f) ∧
       cx (ed m1) = cx (ed m) ∧ cy (ed m1) = cy (ed m) ∧
       stdin m1 = stdin m ∧ calls m1 = calls m ++ [SysFopen f]) ∧
  (∀ content,
     ∃ ls body crs,
       Forall line_stored ls ∧ line_body_ok body ∧ Forall (λ b, b = 13) crs ∧
       content = stored ls ++ body ++ crs).
Proof.
  split; [|apply content_lines].
  intros ls body crs Hls Hbody Hcrs Hopen.
  rewrite editorOpen_steps, Hopen.
  eexists. split; [reflexivity|].
  destruct (foldl_load_line_frame (getlines (stored ls ++ body ++ crs))
              (set_filename (strncpy 511 f) (editorFreeRows (ed m))))
    as (Hr & Hx & Hy & Hf & _).
  simpl in Hr. fold (loaded_rows (stored ls ++ body ++ crs)) in Hr.
  destruct (loaded_rows_plain (stored ls ++ body ++ crs)) as [Hs Hp].
  pose proof (loaded_rows_lines ls body crs Hls Hbody Hcrs) as Hrows.
  unfold numrows. simpl. rewrite Hr.
  split; [done|]. split; [done|]. split; [done|]. split; [done|].
  split; [|done].
  unfold loaded_rows. rewrite loaded_rows_of_lines, length_fmap, length_getlines.
  case_decide; lia.
Qed.

Lemma editorOpen_loads_ab_c :
  ∃ m1,
    editorOpen (platform_with_file [97; 98; 13; 10; 10; 99]) [102]
      (machine_of (mkE 1 0 ["x"]%string) []) = Ok tt m1 ∧
    rows (ed m1) = [mk_erow 2 [97; 98]; mk_erow 0 []; mk_erow 1 [99]] ∧
    loaded_rows [97; 98; 13; 10; 10; 99]
    = [mk_erow 2 [97; 98]; mk_erow 0 []; mk_erow 1 [99]] ∧
    Forall sound (rows (ed m1)) ∧ Forall plain_row (rows (ed m1)) ∧
    numrows (ed m1) = 2 + 1 ∧
    dirty (ed m1) = 0 ∧ filename (ed m1) = [102] ∧
    statusmsg (ed m1) = bytes_of_string "Opened f" ∧
    cx (ed m1) = 1 ∧ cy (ed m1) = 0 ∧
    stdin m1 = [] ∧ calls m1 = [SysFopen [102]].
Proof.
  apply (proj1 (editorOpen_loads_rows
                  (platform_with_file [97; 98; 13; 10; 10; 99]) [102]
                  (machine_of (mkE 1 0 ["x"]%string) []))
           [([97; 98], [13; 10]); ([], [10])] [99] []).
  - constructor; [|constructor; [|constructor]].
    + split; [split; [repeat constructor; lia | discriminate]|].
      by exists 1%nat.
    + split; [split; [constructor | discriminate]|]. by exists 0%nat.
  - split; [repeat constructor; lia | discriminate].
  - constructor.
  - reflexivity.
Defined.

(** What a save writes, a later load reads back: a file that holds the
    text of well-formed rows, none with a newline in it or a carriage
    return at its end, loads as these rows. *)
Theorem save_then_load_restores
  (W : platform) (f : list Z) (rs : list erow) (m : machine) :
  Forall sound rs → Forall plain_row rs →
  sys_fopen W f = inr (text_of rs) →
  loaded_rows (text_of rs) = rs ∧
  ∃ m1, editorOpen W f m = Ok tt m1 ∧ rows (ed m1) = rs ∧ dirty (ed m1) = 0.
Proof.
  intros Hsound Hplain Hopen.
  assert (Htext : text_of rs = stored ((λ r, (chars r, [10])) <$> rs)).
  { unfold text_of, stored. by rewrite <- list_fmap_compose. }
  assert (Hok : Forall line_ok ((λ r, (chars r, [10])) <$> rs)).
  { apply Forall_fmap. eapply Forall_impl; [exact Hplain|].
    intros r [Hlf Hcr]. unfold line_ok. simpl. auto. }
  assert (Hrows : ∀ E, rows E = [] →
            rows (foldl load_line E (getlines (text_of rs))) = rs).
  { intros E HE. rewrite Htext, getlines_stored, foldl_load_line by done.
    rewrite HE. simpl. rewrite <- list_fmap_compose.
    clear -Hsound. induction Hsound as [|r rs Hr Hrs IH]; [done|].
    rewrite fmap_cons, IH. f_equal.
    destruct r as [sz ch]. unfold sound in Hr. simpl in *. unfold row_of.
    by rewrite Hr. }
  split; [by apply Hrows|].
  rewrite editorOpen_steps, Hopen. eexists. split; [reflexivity|].
  simpl. split; [by apply Hrows | done].
Qed.

Lemma save_then_load_ab_c :
  loaded_rows [97; 98; 10; 99; 10] = [mk_erow 2 [97; 98]; mk_erow 1 [99]] ∧
  ∃ m1,
    editorOpen (platform_with_file [97; 98; 10; 99; 10]) [102]
      (machine_of initEditor []) = Ok tt m1 ∧
    rows (ed m1) = [mk_erow 2 [97; 98]; mk_erow 1 [99]] ∧ dirty (ed m1) = 0.
Proof.
  apply (save_then_load_restores (platform_with_file [97; 98; 10; 99; 10])
           [102] [mk_erow 2 [97; 98]; mk_erow 1 [99]]
           (machine_of initEditor [])).
  - repeat constructor.
  - repeat constructor; simpl; try lia; discriminate.
  - reflexivity.
Defined.

(** Ctrl-O asks "Open file: " and, when a line is typed and Enter pressed,
    opens the file of that name whether or not the buffer is dirty: the rows
    are replaced by those of the file, or by none when the file cannot be
    opened (the dirty flag then staying as it was); the file name is bound
    and the cursor is at the start.  Enter on an empty line changes the
    status line only. *)
Theorem ctrl_o_replaces_buffer
  (W : platform) (E : editorConfig) (keys : list Z)
  (rest : list read_result) (cs : list sys_call) :
  Forall line_key_ok keys →
  (typed_line keys ≠ [] →
   ∃ m',
     editorProcessKeypress W
       (mk_machine E (RByte 15 :: (RByte <$> keys) ++ RByte 13 :: rest) cs)
     = Ok tt m' ∧
     cx (ed m') = 0 ∧ cy (ed m') = 0 ∧
     filename (ed m') = strncpy 511 (typed_line keys) ∧
     stdin m' = rest ∧ calls m' = cs ++ [SysFopen (typed_line keys)] ∧
     match sys_fopen W (typed_line keys) with
     | inl err =>
         rows (ed m') = [] ∧ dirty (ed m') = dirty E ∧
         statusmsg (ed m')
         = snprintf 80 (bytes_of_string "Could not open: " ++ err)
     | inr content =>
         rows (ed m') = loaded_rows content ∧ dirty (ed m') = 0 ∧
         statusmsg (ed m')
         = snprintf 80 (bytes_of_string "Opened " ++ typed_line keys)
     end) ∧
  (typed_line keys = [] →
   ∃ msg,
     editorProcessKeypress W
       (mk_machine E (RByte 15 :: (RByte <$> keys) ++ RByte 13 :: rest) cs)
     = Ok tt (mk_machine (set_statusmsg msg E) rest cs)).
Proof.
  intros Hkeys.
  destruct (editorPrompt_typed W (bytes_of_string "Open file: ") keys E rest cs
              Hkeys) as [msg Hmsg].
  split.
  - intros Hline.
    destruct (typed_line keys) as [|b l] eqn:Hl; [done|]. clear Hline.
    eexists. split.
    + dispatch W 15. erewrite bind_Ok by exact Hmsg. cbv beta iota.
      erewrite bind_Ok by apply editorOpen_steps. reflexivity.
    + simpl.
      destruct (sys_fopen W (b :: l)) as [err|content]; simpl; [done|].
      destruct (foldl_load_line_frame (getlines content)
                  (set_filename (strncpy 511 (b :: l))
                     (editorFreeRows (set_statusmsg msg E))))
        as (Hr & _ & _ & Hf & _).
      rewrite Hf. simpl in Hr. rewrite Hr. done.
  - intros Hline. exists msg. dispatch W 15.
    erewrite bind_Ok by exact Hmsg. by rewrite Hline.
Qed.

Lemma ctrl_o_on_unsaved_buffer :
  let E := set_dirty 1 (mkE 1 0 ["ab"]%string) in
  ∃ m',
    editorProcessKeypress (platform_without_file [101])
      (machine_of E [15; 102; 13]) = Ok tt m' ∧
    cx (ed m') = 0 ∧ cy (ed m') = 0 ∧ filename (ed m') = [102] ∧
    stdin m' = [] ∧ calls m' = [SysFopen [102]] ∧
    rows (ed m') = [] ∧ dirty (ed m') = 1 ∧
    statusmsg (ed m') = bytes_of_string "Could not open: e".
Proof.
  intros E.
  apply (proj1 (ctrl_o_replaces_buffer (platform_without_file [101]) E [102]
                  [] [] ltac:(repeat constructor;
                              unfold line_key_ok, printable; lia))).
  discriminate.
Defined.

(** * Drawing *)

(** ** Scrolling *)

(** In a window with room for a row and a column, [editorScroll] leaves
    the cursor inside the window and the size of the window as it was; it
    changes nothing when the cursor is inside already, and it keeps the
    offsets at or after the start of the text. *)
Theorem editorScroll_shows_cursor (E : editorConfig) (V : window) :
  0 < screenrows V → 0 < screencols V →
  visible E (editorScroll E V) ∧
  screenrows (editorScroll E V) = screenrows V ∧
  screencols (editorScroll E V) = screencols V ∧
  (visible E V → editorScroll E V = V) ∧
  (0 ≤ cy E → 0 ≤ cx E → 0 ≤ rowoff V → 0 ≤ coloff V →
   window_ok (editorScroll E V)).
Proof.
  intros Hr Hc. destruct V as [ro co sr sc]. simpl in Hr, Hc.
  unfold editorScroll, visible, window_ok, set_rowoff, set_coloff. simpl.
  repeat (case_decide; simpl in * ); repeat split; intros;
    try lia; try (exfalso; lia); f_equal; lia.
Qed.

Lemma editorScroll_shows_cursor_example :
  let E := mkE 90 30 [] in
  let V := mk_window 0 0 22 80 in
  visible E (editorScroll E V) ∧
  screenrows (editorScroll E V) = 22 ∧
  screencols (editorScroll E V) = 80 ∧
  (visible E V → editorScroll E V = V) ∧
  (0 ≤ 30 → 0 ≤ 90 → 0 ≤ 0 → 0 ≤ 0 → window_ok (editorScroll E V)).
Proof.
  intros E V. apply (editorScroll_shows_cursor E V); reflexivity.
Defined.

(** ** The rows on the screen *)

Lemma length_welcome : length (snprintf 80 welcome) = 26%nat.
Proof. reflexivity. Qed.

Lemma draw_row_of_row (E : editorConfig) (V : window) y row :
  0 ≤ coloff V → 0 ≤ screencols V → sound row →
  row_at (rows E) (y + rowoff V) = Some row →
  draw_row E V y
  = Some (take (Z.to_nat (screencols V))
            (drop (Z.to_nat (coloff V)) (chars row))).
Proof.
  intros Hco Hsc Hs Hrow. unfold draw_row.
  assert (Hlt : y + rowoff V < numrows E).
  { unfold row_at in Hrow. case_decide; [|done].
    apply lookup_lt_Some in Hrow. unfold numrows. lia. }
  rewrite decide_False by lia. rewrite Hrow. simpl.
  unfold sound in Hs.
  destruct (decide (size row - coloff V < 0)) as [Hneg|Hpos].
  - destruct (decide (0 > screencols V)); [lia|].
    rewrite decide_True by done.
    rewrite drop_ge by lia. by rewrite take_nil.
  - destruct (decide (size row - coloff V > screencols V)) as [Hbig|Hsmall].
    + destruct (decide (screencols V = 0)) as [H0|Hn0].
      * rewrite H0. done.
      * rewrite decide_True by (unfold sound; lia). done.
    + destruct (decide (size row - coloff V = 0)) as [H0|Hn0].
      * rewrite drop_ge by lia. by rewrite take_nil.
      * rewrite decide_True by (unfold sound; lia).
        rewrite !take_ge; [done|..]; rewrite length_drop; lia.
Qed.






(** ** The status bar *)





(** ** The whole screen *)

(** On a well-formed buffer with the cursor at or after the start, in a
    window that does not start before the text and has room for a byte,
    [editorRefreshScreen] reads nothing outside the rows, scrolls so that
    the cursor is inside the window, and ends by putting the terminal's
    cursor on a line and a column of the text area and showing it. *)
Theorem editorRefreshScreen_places_cursor
  (age : Z) (E : editorConfig) (V : window) :
  Forall sound (rows E) → window_ok V → 0 ≤ cy E → 0 ≤ cx E →
  ∃ V' r c before,
    editorRefreshScreen age E V
    = Some (V', before ++ cursor_to r c ++ [27; 91; 63; 50; 53; 104]) ∧
    V' = editorScroll E V ∧ window_ok V' ∧ visible E V' ∧
    r = cy E - rowoff V' + 1 ∧ c = cx E - coloff V' + 1 ∧
    1 ≤ r ≤ screenrows V ∧ 1 ≤ c ≤ screencols V.
Proof.
  intros Hsound HV Hy Hx. pose proof HV as (Hro & Hco & Hsr & Hsc).
  assert (Hscroll :
    visible E (editorScroll E V) ∧
    screenrows (editorScroll E V) = screenrows V ∧
    screencols (editorScroll E V) = screencols V ∧
    window_ok (editorScroll E V)).
  { destruct V as [ro co sr sc]. simpl in *.
    unfold editorScroll, visible, window_ok, set_rowoff, set_coloff. simpl.
    repeat (case_decide; simpl in * ); repeat split; lia. }
  destruct Hscroll as (Hvis & Hrows & Hcols & Hok).
  unfold editorRefreshScreen. cbv zeta.
  remember (editorScroll E V) as V' eqn:HV' in *.
  assert (Hdraw : ∃ out, editorDrawRows E V' = Some out).
  { unfold editorDrawRows.
    assert (Hall : ∀ n y, 0 ≤ y →
              ∃ out, draw_rows_from n y E V' = Some out).
    { induction n as [|n IH]; intros y Hy0; simpl; [by eexists|].
      assert (Hline : ∃ line, draw_row E V' y = Some line).
      { destruct Hok as (Hro' & Hco' & Hsr' & Hsc').
        destruct (row_at (rows E) (y + rowoff V')) as [row|] eqn:Hrow.
        - assert (Hs : sound row).
          { unfold row_at in Hrow. case_decide; [|done].
            rewrite Forall_lookup in Hsound. by eapply Hsound. }
          eexists. apply draw_row_of_row; (done || lia).
        - apply row_at_None in Hrow.
          unfold draw_row. rewrite decide_True by (unfold numrows; lia).
          case_decide; [|by eexists].
          rewrite decide_True; [by eexists|].
          rewrite length_welcome. case_decide; lia. }
      destruct Hline as (line & ->).
      destruct (IH (y + 1) ltac:(lia)) as (more & ->).
      simpl. by eexists. }
    by apply Hall. }
  destruct Hdraw as (drawn & Hdrawn).
  assert (Hbar : ∃ bar, status_bar E V' = Some bar).
  { unfold status_bar. destruct Hok as (_ & _ & _ & Hsc').
    rewrite decide_True; [by eexists|].
    case_decide; lia. }
  destruct Hbar as (bar & Hbar).
  rewrite Hdrawn, Hbar. simpl.
  exists V', (cy E - rowoff V' + 1), (cx E - coloff V' + 1).
  eexists. split.
  - f_equal. f_equal.
    rewrite !app_comm_cons, !app_assoc. reflexivity.
  - destruct Hvis as [Hvy Hvx]. pose proof Hok as (? & ? & ? & ?).
    repeat split; try done; lia.
Qed.

Lemma editorRefreshScreen_places_cursor_example :
  let E := mkE 5 1 ["hello"; "abcdefgh"]%string in
  let V := mk_window 0 0 1 4 in
  ∃ V' r c before,
    editorRefreshScreen 0 E V
    = Some (V', before ++ cursor_to r c ++ [27; 91; 63; 50; 53; 104]) ∧
    V' = editorScroll E V ∧ window_ok V' ∧ visible E V' ∧
    r = 1 - rowoff V' + 1 ∧ c = 5 - coloff V' + 1 ∧
    1 ≤ r ≤ 1 ∧ 1 ≤ c ≤ 4.
Proof.
  intros E V.
  apply (editorRefreshScreen_places_cursor 0 E V).
  - repeat constructor.
  - unfold window_ok. simpl. lia.
  - simpl. lia.
  - simpl. lia.
Defined.

(** * Start *)

(** The start of [main].  When the size of the window cannot be found the
    program ends with status 1.  Otherwise two rows of the window are kept
    for the status bar and the message, the cursor is at the start and the
    buffer is not dirty; with an argument the file is loaded and the name
    bound, and when it cannot be opened the buffer is empty under that
    name.  Either way the status line shows the help text: what
    [editorOpen] reported is overwritten before the first drawing. *)
Theorem main_start_shows_help
  (W : platform) (r c : Z) (f : list Z) (m : machine) :
  main_start W None (Some f) m
  = Exit 1 (mk_machine
              (set_filename [] (set_dirty 0 (set_rows []
                 (set_cy 0 (set_cx 0 (ed m))))))
              (stdin m) (calls m)) ∧
  main_start W (Some (r, c)) None m
  = Ok (mk_window 0 0 (r - 2) c)
      (mk_machine
         (set_statusmsg
            (bytes_of_string "Ctrl-S: Save | Ctrl-O: Open | Ctrl-X: Exit")
            initEditor)
         (stdin m) (calls m)) ∧
  ∃ m',
    main_start W (Some (r, c)) (Some f) m = Ok (mk_window 0 0 (r - 2) c) m' ∧
    statusmsg (ed m')
    = bytes_of_string "Ctrl-S: Save | Ctrl-O: Open | Ctrl-X: Exit" ∧
    filename (ed m') = strncpy 511 f ∧
    cx (ed m') = 0 ∧ cy (ed m') = 0 ∧ dirty (ed m') = 0 ∧
    rows (ed m') = match sys_fopen W f with
                   | inl _ => []
                   | inr content => loaded_rows content
                   end ∧
    stdin m' = stdin m ∧ calls m' = calls m ++ [SysFopen f].
Proof.
  split; [reflexivity|]. split; [reflexivity|].
  unfold main_start, initWindow.
  erewrite bind_Ok by reflexivity. cbv beta.
  erewrite bind_Ok by (erewrite bind_Ok by apply editorOpen_steps; reflexivity).
  cbv beta. eexists. split; [reflexivity|]. simpl.
  destruct (sys_fopen W f) as [err|content]; simpl; [done|].
  destruct (foldl_load_line_frame (getlines content)
              (set_filename (strncpy 511 f)
                 (editorFreeRows
                    (set_filename [] (set_dirty 0 (set_rows []
                       (set_cy 0 (set_cx 0 (ed m)))))))))
    as (Hr & Hx & Hy & _).
  simpl in Hr, Hx, Hy. rewrite Hx, Hy, Hr. done.
Qed.

(** * Left and Right step through the text *)

Lemma editorMoveCursor_right_eq (E : editorConfig) :
  editorMoveCursor ARROW_RIGHT E
  = if decide (cy E < numrows E) then
      row ← row_at (rows E) (cy E);
      Some (if decide (cx E < size row) then set_cx (cx E + 1) E
            else if decide (cx E = size row)
                 then set_cx 0 (set_cy (cy E + 1) E)
                 else E)
    else Some E.
Proof. reflexivity. Qed.

Lemma editorMoveCursor_left_eq (E : editorConfig) :
  editorMoveCursor ARROW_LEFT E
  = if decide (cx E > 0) then Some (set_cx (cx E - 1) E)
    else if decide (cy E > 0) then
      row ← row_at (rows E) (cy E - 1);
      Some (set_cx (size row) (set_cy (cy E - 1) E))
    else Some E.
Proof. reflexivity. Qed.

Lemma offset_after_row x (pre : list erow) row post d f s :
  sound row →
  offset (mk_editorConfig x (Z.of_nat (length pre) + 1)
            (pre ++ row :: post) d f s)
  = (length (text_of pre) + Z.to_nat (size row) + 1 + Z.to_nat x)%nat.
Proof.
  intros Hs. unfold offset. simpl.
  replace (Z.to_nat (Z.of_nat (length pre) + 1)) with (length (pre ++ [row]))
    by (rewrite length_app; simpl; lia).
  replace (pre ++ row :: post) with ((pre ++ [row]) ++ post)
    by (by rewrite <- app_assoc).
  rewrite take_app_length, text_of_app, text_of_cons, !length_app.
  unfold sound in Hs. simpl. lia.
Qed.

(** On a well-formed buffer with a valid cursor, Right moves the cursor's
    place in the text on by one wherever the cursor is on a row, from the
    end of a row to the start of the next; Left moves it back by one
    wherever it is not at the very start.  Each undoes the other.  Right on
    the row after the last one and Left at the very start do nothing. *)
Theorem left_and_right_step_through_text (E : editorConfig) :
  Forall sound (rows E) → valid_cursor E →
  (cy E < numrows E →
   ∃ E',
     editorMoveCursor ARROW_RIGHT E = Some E' ∧
     rows E' = rows E ∧ valid_cursor E' ∧ offset E' = S (offset E) ∧
     editorMoveCursor ARROW_LEFT E' = Some E) ∧
  (¬ (cx E = 0 ∧ cy E = 0) →
   ∃ E',
     editorMoveCursor ARROW_LEFT E = Some E' ∧
     rows E' = rows E ∧ valid_cursor E' ∧ S (offset E') = offset E ∧
     editorMoveCursor ARROW_RIGHT E' = Some E) ∧
  (cy E = numrows E → editorMoveCursor ARROW_RIGHT E = Some E) ∧
  (cx E = 0 ∧ cy E = 0 → editorMoveCursor ARROW_LEFT E = Some E).
Proof.
  intros Hsound [Hy Hx].
  assert (Hright : ∀ x (pre : list erow) row post d f s,
    sound row → 0 ≤ x ≤ size row →
    ∃ E',
      editorMoveCursor ARROW_RIGHT
        (mk_editorConfig x (Z.of_nat (length pre)) (pre ++ row :: post) d f s)
      = Some E' ∧
      E' = (if decide (x < size row)
            then mk_editorConfig (x + 1) (Z.of_nat (length pre))
                   (pre ++ row :: post) d f s
            else mk_editorConfig 0 (Z.of_nat (length pre) + 1)
                   (pre ++ row :: post) d f s) ∧
      offset E' = (length (text_of pre) + Z.to_nat x + 1)%nat ∧
      editorMoveCursor ARROW_LEFT E'
      = Some (mk_editorConfig x (Z.of_nat (length pre)) (pre ++ row :: post)
                d f s)).
  { intros x pre row post d f s Hs Hxr.
    rewrite editorMoveCursor_right_eq. unfold numrows. simpl.
    rewrite decide_True by (rewrite length_app; simpl; lia).
    rewrite row_at_middle. simpl.
    destruct (decide (x < size row)) as [Hlt|Hend].
    - eexists. split; [reflexivity|]. unfold set_cx. simpl.
      split; [done|].
      rewrite offset_on_row. split; [lia|].
      rewrite editorMoveCursor_left_eq. simpl.
      rewrite decide_True by lia. unfold set_cx. simpl.
      do 2 f_equal. lia.
    - rewrite decide_True by lia.
      eexists. split; [reflexivity|]. unfold set_cx, set_cy. simpl.
      split; [done|].
      rewrite offset_after_row by done. split; [lia|].
      rewrite editorMoveCursor_left_eq. simpl.
      rewrite (decide_True (P := Z.of_nat (length pre) + 1 > 0)) by lia.
      replace (Z.of_nat (length pre) + 1 - 1) with (Z.of_nat (length pre))
        by lia.
      rewrite row_at_middle. simpl. unfold set_cx, set_cy. simpl.
      do 2 f_equal. lia. }
  split; [|split; [|split]].
  - intros Hrow.
    destruct (cut_at_cursor E) as (pre & row & post & HE); [lia|].
    rewrite HE in Hsound, Hx |- *. simpl in Hsound, Hx.
    rewrite row_len_on_row in Hx.
    apply Forall_sound_middle in Hsound as (Hpre & Hs & Hpost).
    destruct (Hright (cx E) pre row post (dirty E) (filename E) (statusmsg E)
                Hs Hx) as (E' & Hgo & HE' & Hoff & Hback).
    exists E'. split; [done|]. rewrite offset_on_row.
    split; [|split; [|split; [lia | done]]].
    + rewrite HE'. by case_decide.
    + rewrite HE'. case_decide.
      * apply valid_cursor_on_row. lia.
      * unfold valid_cursor, numrows, row_len. simpl.
        rewrite length_app. simpl. split; [lia|].
        destruct (row_at (pre ++ row :: post) (Z.of_nat (length pre) + 1))
          as [r|] eqn:Hr; [|lia].
        assert (Hall : Forall sound (pre ++ row :: post))
          by (by apply Forall_sound_middle).
        destruct (row_at_Some _ _ _ Hall Hr). lia.
  - intros Hstart.
    destruct (decide (cx E > 0)) as [Hpos|Hzero].
    + assert (Hrow : cy E < numrows E).
      { destruct (decide (cy E = numrows E)) as [Hlast|]; [|lia].
        unfold row_len in Hx. rewrite row_at_None_ge in Hx; unfold numrows in *;
          lia. }
      destruct (cut_at_cursor E) as (pre & row & post & HE); [lia|].
      rewrite HE in Hsound, Hx |- *. simpl in Hsound, Hx.
      rewrite row_len_on_row in Hx.
      apply Forall_sound_middle in Hsound as (Hpre & Hs & Hpost).
      rewrite editorMoveCursor_left_eq. simpl.
      rewrite decide_True by done.
      eexists. split; [reflexivity|]. unfold set_cx. simpl.
      split; [done|]. split; [apply valid_cursor_on_row; lia|].
      rewrite !offset_on_row. split; [lia|].
      destruct (Hright (cx E - 1) pre row post (dirty E) (filename E)
                  (statusmsg E) Hs ltac:(lia)) as (E' & Hgo & HE' & _).
      rewrite Hgo, HE'. rewrite decide_True by lia.
      do 2 f_equal. lia.
    + assert (Hx0 : cx E = 0) by lia.
      assert (Hy0 : 0 < cy E) by lia.
      destruct (cut_at_cursor (set_cy (cy E - 1) E))
        as (pre & row & post & HE).
      { unfold numrows in *. simpl. lia. }
      unfold set_cy in HE. simpl in HE.
      injection HE as Hcy Hrs.
      destruct E as [x y rs d f s]. simpl in *. subst x rs.
      replace y with (Z.of_nat (length pre) + 1) by lia.
      apply Forall_sound_middle in Hsound as (Hpre & Hs & Hpost).
      rewrite editorMoveCursor_left_eq. simpl.
      rewrite (decide_True (P := Z.of_nat (length pre) + 1 > 0)) by lia.
      replace (Z.of_nat (length pre) + 1 - 1) with (Z.of_nat (length pre))
        by lia.
      rewrite row_at_middle. simpl.
      eexists. split; [reflexivity|]. unfold set_cx, set_cy. simpl.
      split; [done|].
      assert (0 ≤ size row) by (unfold sound in Hs; lia).
      split; [apply valid_cursor_on_row; lia|].
      rewrite offset_on_row, offset_after_row by done.
      split; [simpl; lia|].
      destruct (Hright (size row) pre row post d f s Hs ltac:(lia))
        as (E' & Hgo & HE' & _).
      rewrite Hgo, HE'. by rewrite decide_False by lia.
  - intros Hlast. rewrite editorMoveCursor_right_eq.
    by rewrite decide_False by lia.
  - intros [Hx0 Hy0]. rewrite editorMoveCursor_left_eq.
    rewrite decide_False by lia. by rewrite decide_False by lia.
Qed.

Lemma left_and_right_on_ab_c :
  let E := mkE 2 0 ["ab"; "c"]%string in
  (0 < 2 →
   ∃ E',
     editorMoveCursor ARROW_RIGHT E = Some E' ∧
     rows E' = rows E ∧ valid_cursor E' ∧ offset E' = 3%nat ∧
     editorMoveCursor ARROW_LEFT E' = Some E) ∧
  (¬ (2 = 0 ∧ 0 = 0) →
   ∃ E',
     editorMoveCursor ARROW_LEFT E = Some E' ∧
     rows E' = rows E ∧ valid_cursor E' ∧ S (offset E') = 2%nat ∧
     editorMoveCursor ARROW_RIGHT E' = Some E) ∧
  (0 = 2 → editorMoveCursor ARROW_RIGHT E = Some E) ∧
  (2 = 0 ∧ 0 = 0 → editorMoveCursor ARROW_LEFT E = Some E).
Proof.
  intros E. apply (left_and_right_step_through_text E).
  - repeat constructor.
  - vm_compute. intuition discriminate.
Defined.
